(** * Basic Context Menu (contextmenu.js v0.0.2): a shallow embedding

    The library keeps its data in JavaScript objects that are shared by
    reference (menu definitions, item records, per-element configurations),
    in expando properties of DOM elements, and in a handful of module-level
    variables.  The embedding keeps all of that explicit:

    - a heap of objects with insertion-ordered own properties, addressed by
      allocation index, so that aliasing is visible;
    - a state record for the module variables, the DOM nodes the library
      creates, the listeners it registers and the deferred callbacks it
      schedules;
    - a three-valued result for code that can raise a TypeError.

    Numbers are modelled by [Z] (pixel coordinates; exact for doubles below
    2^53).  Prototype chains are not modelled beyond what [isFunction]
    inspects, and property enumeration follows insertion order. *)

From Stdlib Require Import ZArith Lia ZifyBool DecimalString.
From stdpp Require Import base option list strings gmap.

Open Scope string_scope.
Open Scope Z_scope.
Open Scope list_scope.

(** ** Running JavaScript code

    A computation runs on a store [S], ends normally, with a TypeError, or
    outside the model, and in every case leaves a store behind: what was
    written before an exception stays written. *)

Inductive outcome (A : Type) : Type :=
| Ok (a : A)
| TypeError          (* a TypeError is thrown and propagates to the caller *)
| Stuck.             (* outside the model: dangling address, arithmetic on a
                        non-number, loop bound exhausted *)
Arguments Ok {A} a.
Arguments TypeError {A}.
Arguments Stuck {A}.

Definition M (S A : Type) : Type := S -> outcome A * S.

Definition ret {S A : Type} (a : A) : M S A := fun s => (Ok a, s).

Definition bind {S A B : Type} (m : M S A) (k : A -> M S B) : M S B :=
  fun s =>
    match m s with
    | (Ok a, s') => k a s'
    | (TypeError, s') => (TypeError, s')
    | (Stuck, s') => (Stuck, s')
    end.

Definition throw {S A : Type} : M S A := fun s => (TypeError, s).

(** A computation that only inspects the store. *)
Definition read {S A : Type} (f : S -> outcome A) : M S A := fun s => (f s, s).

Definition modify {S : Type} (f : S -> S) : M S unit := fun s => (Ok tt, f s).

#[global] Instance M_ret {S : Type} : MRet (M S) := fun A => ret.
#[global] Instance M_bind {S : Type} : MBind (M S) := fun A B k m => bind m k.

Fixpoint forEach {S A : Type} (f : A -> M S unit) (l : list A) : M S unit :=
  match l with
  | [] => ret tt
  | x :: l' => f x ;; forEach f l'
  end.

(** ** Values and the object heap *)

Abbreviation addr := nat.

Inductive value : Type :=
| VUndef
| VNull
| VBool (b : bool)
| VNum (n : Z)
| VStr (s : string)
| VObj (a : addr).
Arguments VObj a%_nat.

#[global] Instance value_eq_dec : EqDecision value.
Proof. solve_decision. Defined.

(** What happens when a function object is called.  A user function is
    opaque and identified by a number; the two functions the library itself
    creates ([function() {}] in [itemDefaults] and the module's [onSelect])
    have empty bodies. *)
Inductive func : Type :=
| UserFn (id : nat)
| NoopFn.
Arguments UserFn id%_nat.

Record object : Type := Object {
  props : list (string * value);   (* own enumerable properties, in order *)
  callable : option func           (* [Some] for function objects *)
}.

Abbreviation heap := (list object).

Definition truthy (v : value) : bool :=
  match v with
  | VUndef | VNull => false
  | VBool b => b
  | VNum n => negb (Z.eqb n 0)
  | VStr s => negb (String.eqb s "")
  | VObj _ => true
  end.

Fixpoint assoc_get (k : string) (ps : list (string * value)) : option value :=
  match ps with
  | [] => None
  | (k', v) :: ps' => if String.eqb k k' then Some v else assoc_get k ps'
  end.

(** Assignment keeps the position of an existing key and appends a new one. *)
Fixpoint assoc_set (k : string) (v : value) (ps : list (string * value))
  : list (string * value) :=
  match ps with
  | [] => [(k, v)]
  | (k', v') :: ps' =>
      if String.eqb k k' then (k', v) :: ps' else (k', v') :: assoc_set k v ps'
  end.

Definition index_key (i : nat) : string :=
  NilEmpty.string_of_uint (Nat.to_uint i).

Fixpoint string_chars (i : nat) (s : string) : list (string * value) :=
  match s with
  | EmptyString => []
  | String c s' => (index_key i, VStr (String c "")) :: string_chars (S i) s'
  end.

(** The properties a [for (key in v)] loop visits, with their values. *)
Definition own_props (v : value) (h : heap) : outcome (list (string * value)) :=
  match v with
  | VObj a => match h !! a with
              | Some o => Ok (props o)
              | None => Stuck
              end
  | VStr s => Ok (string_chars 0 s)
  | _ => Ok []
  end.

(** [v[k]] *)
Definition get_prop (v : value) (k : string) (h : heap) : outcome value :=
  match v with
  | VUndef | VNull => TypeError
  | _ => match own_props v h with
         | Ok ps => Ok (default VUndef (assoc_get k ps))
         | TypeError => TypeError
         | Stuck => Stuck
         end
  end.

(** [v[k] = x] under ['use strict']: assigning to a property of a primitive
    throws. *)
Definition set_prop (v : value) (k : string) (x : value) : M heap unit :=
  fun h =>
    match v with
    | VObj a =>
        match h !! a with
        | Some o =>
            (Ok tt, <[a := Object (assoc_set k x (props o)) (callable o)]> h)
        | None => (Stuck, h)
        end
    | _ => (TypeError, h)
    end.

(** A new object; its address is the next free index. *)
Definition alloc (o : object) : M heap value :=
  fun h => (Ok (VObj (length h)), h ++ [o]).

(** ** Helper functions *)

(** [!!(obj && obj.constructor && obj.call && obj.apply)].  Every object
    inherits a truthy [constructor]; function objects also inherit [call]
    and [apply]; an own property shadows the inherited one. *)
Definition isFunction (v : value) (h : heap) : outcome bool :=
  match v with
  | VObj a =>
      match h !! a with
      | Some o =>
          let inherited := VBool (bool_decide (is_Some (callable o))) in
          Ok (truthy (default (VBool true) (assoc_get "constructor" (props o)))
              && truthy (default inherited (assoc_get "call" (props o)))
              && truthy (default inherited (assoc_get "apply" (props o))))
      | None => Stuck
      end
  | _ => Ok false
  end.

Definition isString (v : value) : bool :=
  match v with VStr _ => true | _ => false end.

(** [for (key in source) obj[key] = source[key];] *)
Definition extend_source (obj source : value) : M heap unit :=
  ps ← read (own_props source);
  forEach (fun key => x ← read (get_prop source key); set_prop obj key x)
          (map fst ps).

(** [extend(obj, sources...)] *)
Definition extend (obj : value) (sources : list value) : M heap value :=
  match sources, obj with
  | [], _ => ret obj
  | _, VNull => ret obj
  | _, _ => forEach (extend_source obj) sources ;; ret obj
  end.

(** ** normalizeMenu *)

Definition itemDefaults (noop : value) : list (string * value) :=
  [("type", VStr "item"); ("enabled", VBool true); ("label", VStr "");
   ("onSelect", noop); ("icon", VStr ""); ("title", VStr "")].

(** One iteration of the [for (idx in menu)] loop. *)
Definition normalize_entry (menu dflts : value) (idx : string) : M heap unit :=
  empty ← alloc (Object [] None);
  dflt ← extend empty [dflts];
  v ← read (get_prop menu idx);
  if negb (truthy v) then
    src ← alloc (Object [("label", VStr idx)] None);
    item ← extend dflt [src];
    set_prop menu idx item
  else
    isf ← read (isFunction v);
    if isf : bool then
      src ← alloc (Object [("label", VStr idx); ("onSelect", v)] None);
      item ← extend dflt [src];
      set_prop menu idx item
    else
      item ← extend dflt [v];
      set_prop menu idx item.

Definition normalizeMenu (menu : value) : M heap value :=
  noop ← alloc (Object [] (Some NoopFn));
  dflts ← alloc (Object (itemDefaults noop) None);
  ps ← read (own_props menu);
  forEach (normalize_entry menu dflts) (map fst ps) ;;
  ret menu.

(** ** The host page and the nodes the library creates

    Elements of the host page are opaque identifiers: the library only
    reads their bounding box and hangs a [ctxMenu] property and a listener
    on them.  The nodes it creates itself (one container per menu, one row
    per item) are kept in stores of their own. *)

Abbreviation elem := nat.

Record rect : Type := Rect {
  rect_left : Z; rect_top : Z; rect_width : Z; rect_height : Z
}.

Definition rect_bottom (r : rect) : Z := rect_top r + rect_height r.

Definition zero_rect : rect := Rect 0 0 0 0.

Record event : Type := Event { ev_target : elem; clientX : Z; clientY : Z }.
Arguments Event ev_target%_nat clientX%_Z clientY%_Z.

(** [item.ctxMenu] of a row; [onSelect] stays undefined on a disabled row. *)
Record item_ctx : Type := ItemCtx {
  ic_key : string; ic_enabled : bool; ic_onSelect : value
}.

Record row : Type := Row {
  row_className : string;
  row_innerHTML : value;
  row_title : option value;
  row_ctxMenu : item_ctx;
  row_click : option nat   (* the click listener: the scope its closure captured *)
}.

Record container : Type := Container {
  menu_className : string;
  menu_visibility : string;
  menu_display : string;
  menu_children : list nat;
  menu_left : option Z;      (* style.left, in px *)
  menu_top : option Z        (* style.top, in px *)
}.

(** The scope of one [createContextMenu] call, shared by the click listeners
    created in it: its parameter [target] and its function-scoped
    [var item]. *)
Record frame : Type := Frame { fr_target : elem; fr_item : option nat }.

(** The callback handed to [setTimeout]: it captured [e] and [menu]; the
    [target] it names is the module variable. *)
Record timer : Type := Timer { t_event : event; t_menu : nat }.

(** What the layout engine and the selector engine answer.  The selector
    strings of a page are taken to be well-formed: for a malformed one
    [document.querySelectorAll] throws a SyntaxError, which is outside this
    model. *)
Record layout : Type := Layout {
  box_of : elem -> rect;                  (* element.getBoundingClientRect() *)
  menu_box : nat -> rect;                 (* the same for an attached container *)
  clientWidth : Z;                        (* document.body.clientWidth *)
  clientHeight : Z;                       (* document.body.clientHeight *)
  querySelectorAll : string -> list elem
}.

(** One invocation of a selection callback. *)
Record call : Type := Call {
  call_fn : value;
  call_target : elem;
  call_key : string;
  call_item : option nat;
  call_data : value
}.

Record state : Type := State {
  st_heap : heap;
  st_ctxMenu : gmap elem value;        (* element.ctxMenu *)
  st_listeners : list (elem * value);  (* onContextMenu registered on an element, by event type *)
  st_isOpen : bool;                    (* var isOpen *)
  st_target : option elem;             (* var target *)
  st_menus : list container;
  st_rows : list row;
  st_frames : list frame;
  st_body : list nat;                  (* containers that are children of document.body *)
  st_window : list string;             (* event types closeContextMenu listens to on window *)
  st_timers : list timer;
  st_calls : list call;
  st_layout : layout
}.

Definition set_heap (h : heap) (s : state) : state :=
  State h (st_ctxMenu s) (st_listeners s) (st_isOpen s) (st_target s)
        (st_menus s) (st_rows s) (st_frames s) (st_body s) (st_window s)
        (st_timers s) (st_calls s) (st_layout s).
Definition set_ctxMenu (c : gmap elem value) (s : state) : state :=
  State (st_heap s) c (st_listeners s) (st_isOpen s) (st_target s)
        (st_menus s) (st_rows s) (st_frames s) (st_body s) (st_window s)
        (st_timers s) (st_calls s) (st_layout s).
Definition set_listeners (l : list (elem * value)) (s : state) : state :=
  State (st_heap s) (st_ctxMenu s) l (st_isOpen s) (st_target s)
        (st_menus s) (st_rows s) (st_frames s) (st_body s) (st_window s)
        (st_timers s) (st_calls s) (st_layout s).
Definition set_isOpen (b : bool) (s : state) : state :=
  State (st_heap s) (st_ctxMenu s) (st_listeners s) b (st_target s)
        (st_menus s) (st_rows s) (st_frames s) (st_body s) (st_window s)
        (st_timers s) (st_calls s) (st_layout s).
Definition set_target (t : option elem) (s : state) : state :=
  State (st_heap s) (st_ctxMenu s) (st_listeners s) (st_isOpen s) t
        (st_menus s) (st_rows s) (st_frames s) (st_body s) (st_window s)
        (st_timers s) (st_calls s) (st_layout s).
Definition set_menus (m : list container) (s : state) : state :=
  State (st_heap s) (st_ctxMenu s) (st_listeners s) (st_isOpen s) (st_target s)
        m (st_rows s) (st_frames s) (st_body s) (st_window s)
        (st_timers s) (st_calls s) (st_layout s).
Definition set_rows (r : list row) (s : state) : state :=
  State (st_heap s) (st_ctxMenu s) (st_listeners s) (st_isOpen s) (st_target s)
        (st_menus s) r (st_frames s) (st_body s) (st_window s)
        (st_timers s) (st_calls s) (st_layout s).
Definition set_frames (f : list frame) (s : state) : state :=
  State (st_heap s) (st_ctxMenu s) (st_listeners s) (st_isOpen s) (st_target s)
        (st_menus s) (st_rows s) f (st_body s) (st_window s)
        (st_timers s) (st_calls s) (st_layout s).
Definition set_body (b : list nat) (s : state) : state :=
  State (st_heap s) (st_ctxMenu s) (st_listeners s) (st_isOpen s) (st_target s)
        (st_menus s) (st_rows s) (st_frames s) b (st_window s)
        (st_timers s) (st_calls s) (st_layout s).
Definition set_window (w : list string) (s : state) : state :=
  State (st_heap s) (st_ctxMenu s) (st_listeners s) (st_isOpen s) (st_target s)
        (st_menus s) (st_rows s) (st_frames s) (st_body s) w
        (st_timers s) (st_calls s) (st_layout s).
Definition set_timers (t : list timer) (s : state) : state :=
  State (st_heap s) (st_ctxMenu s) (st_listeners s) (st_isOpen s) (st_target s)
        (st_menus s) (st_rows s) (st_frames s) (st_body s) (st_window s)
        t (st_calls s) (st_layout s).
Definition set_calls (c : list call) (s : state) : state :=
  State (st_heap s) (st_ctxMenu s) (st_listeners s) (st_isOpen s) (st_target s)
        (st_menus s) (st_rows s) (st_frames s) (st_body s) (st_window s)
        (st_timers s) c (st_layout s).
Definition set_layout (l : layout) (s : state) : state :=
  State (st_heap s) (st_ctxMenu s) (st_listeners s) (st_isOpen s) (st_target s)
        (st_menus s) (st_rows s) (st_frames s) (st_body s) (st_window s)
        (st_timers s) (st_calls s) l.

(** Heap code run inside the library state. *)
Definition on_heap {A : Type} (m : M heap A) : M state A :=
  fun s => let '(r, h) := m (st_heap s) in (r, set_heap h s).

Definition read_heap {A : Type} (f : heap -> outcome A) : M state A :=
  read (fun s => f (st_heap s)).

(** [el.ctxMenu] *)
Definition ctxMenu_of (el : elem) (s : state) : value :=
  default VUndef (st_ctxMenu s !! el).

(** ** Module-level data *)

Definition menuClassName : string := "context-menu".
Definition itemClassName : string := "context-menu-item".
Definition itemClassNameDisabled : string := "context-menu-item-disabled".

(** The objects the module creates when it is loaded: the [data] object of
    [conf], [conf] itself and the default [onSelect]. *)
Definition conf : value := VObj 1.
Definition onSelect : value := VObj 2.

Definition conf_object : object :=
  Object [("event", VStr "click"); ("position", VStr "bottom");
          ("horizontalOffset", VNum 0); ("verticalOffset", VNum 0);
          ("data", VObj 0)] None.

Definition module_heap : heap :=
  [Object [] None; conf_object; Object [] (Some NoopFn)].

Definition init_state (l : layout) : state :=
  State module_heap ∅ [] false None [] [] [] [] [] [] [] l.

(** ** getElements *)

Inductive selector : Type :=
| SelElement (e : elem)          (* an HTMLElement *)
| SelString (s : string)         (* a CSS selector *)
| SelList (l : list elem)        (* a NodeList or a jQuery object *)
| SelOther.                      (* anything else *)

Definition getElements (sel : selector) (s : state) : list elem :=
  match sel with
  | SelElement e => [e]
  | SelString q => querySelectorAll (st_layout s) q
  | SelList l => l
  | SelOther => []
  end.

(** ** closeContextMenu *)

(** [document.getElementsByClassName(cls)].  Only the containers under
    [document.body] are candidates: rows carry one of the two item class
    names, and the host page is assumed not to use the menu class itself.
    The collection is live: it is recomputed whenever it is consulted. *)
Definition getElementsByClassName (cls : string) (s : state) : list nat :=
  List.filter
    (fun m => match st_menus s !! m with
              | Some c => String.eqb (menu_className c) cls
              | None => false
              end)
    (st_body s).

Fixpoint remove_first (m : nat) (l : list nat) : list nat :=
  match l with
  | [] => []
  | x :: l' => if Nat.eqb x m then l' else x :: remove_first m l'
  end.

(** [m.parentNode.removeChild(m)] for a child of [document.body]. *)
Definition removeChild (m : nat) (s : state) : state :=
  set_body (remove_first m (st_body s)) s.

(** [for (; idx < elements.length; idx++) { remove elements[idx] }] over the
    live collection; [bound] limits the number of iterations. *)
Fixpoint sweep (bound idx : nat) : M state unit :=
  fun s =>
    match getElementsByClassName menuClassName s !! idx with
    | None => (Ok tt, s)
    | Some m =>
        match bound with
        | O => (Stuck, s)
        | S bound' => sweep bound' (S idx) (removeChild m s)
        end
    end.

Definition dismissal_events : list string := ["click"; "resize"; "scroll"].

Definition removeEventListeners (s : state) : state :=
  set_window
    (List.filter (fun t => negb (existsb (String.eqb t) dismissal_events))
                 (st_window s)) s.

Definition add_type (t : string) (w : list string) : list string :=
  if existsb (String.eqb t) w then w else w ++ [t].

Definition addEventListeners (s : state) : state :=
  set_window (fold_left (fun w t => add_type t w) dismissal_events (st_window s)) s.

Definition closeContextMenu : M state unit :=
  fun s =>
    let bound := length (getElementsByClassName menuClassName s) in
    (modify removeEventListeners ;;
     sweep bound 0 ;;
     modify (set_isOpen false)) s.

(** ** createContextMenu *)

Definition new_container (c : container) : M state nat :=
  fun s => (Ok (length (st_menus s)), set_menus (st_menus s ++ [c]) s).

Definition new_row (r : row) : M state nat :=
  fun s => (Ok (length (st_rows s)), set_rows (st_rows s ++ [r]) s).

Definition new_frame (f : frame) : M state nat :=
  fun s => (Ok (length (st_frames s)), set_frames (st_frames s ++ [f]) s).

Definition appendRow (m r : nat) (s : state) : state :=
  match st_menus s !! m with
  | Some c =>
      set_menus (<[m := Container (menu_className c) (menu_visibility c)
                          (menu_display c) (menu_children c ++ [r])
                          (menu_left c) (menu_top c)]> (st_menus s)) s
  | None => s
  end.

Definition assign_item (fr r : nat) (s : state) : state :=
  match st_frames s !! fr with
  | Some f => set_frames (<[fr := Frame (fr_target f) (Some r)]> (st_frames s)) s
  | None => s
  end.

(** One iteration of [for (key in target.ctxMenu.menu)].  The new [div] is
    entered in the row store once its fields are known; the reads that can
    throw come first, in the order of the source. *)
Definition build_row (target : elem) (fr menu : nat) (key : string)
  : M state unit :=
  cfg ← read (fun s => Ok (ctxMenu_of target s));
  defn ← read_heap (get_prop cfg "menu");
  value ← read_heap (get_prop defn key);
  en ← read_heap (get_prop value "enabled");
  let enabled := truthy en in
  html ← (if truthy value
          then label ← read_heap (get_prop value "label");
               ret (if truthy label then label else VStr key)
          else ret (VStr key));
  handler ← (if enabled
             then sel ← read_heap (get_prop value "onSelect");
                  isf ← read_heap (isFunction sel);
                  ret (if isf : bool then sel else onSelect)
             else ret VUndef);
  title ← read_heap (get_prop value "title");
  r ← new_row (Row (if enabled then itemClassName else itemClassNameDisabled)
                   html
                   (if truthy title then Some title else None)
                   (ItemCtx key enabled handler)
                   (if enabled then Some fr else None));
  modify (assign_item fr r) ;;
  modify (appendRow menu r).

Definition createContextMenu (target : elem) : M state nat :=
  fr ← new_frame (Frame target None);
  menu ← new_container (Container menuClassName "hidden" "inline-block" [] None None);
  cfg ← read (fun s => Ok (ctxMenu_of target s));
  defn ← read_heap (get_prop cfg "menu");
  ps ← read_heap (own_props defn);
  forEach (build_row target fr menu) (map fst ps) ;;
  ret menu.

(** ** positionContextMenu *)

Definition is_str (v : value) (s : string) : bool :=
  match v with VStr s' => String.eqb s' s | _ => false end.

(** The placement itself, on numbers: [tb] and [mb] are the bounding boxes of
    the target and of the menu, [ho] and [vo] the two offsets, [cw] and [ch]
    the client size of the body.  First the position the anchor mode asks
    for ... *)
Definition candidate (position : value) (e : event) (tb mb : rect)
    (ho vo : Z) : Z * Z :=
  if is_str position "bottom" then
    (rect_left tb + ho, rect_bottom tb + vo)
  else if is_str position "top" then
    (rect_left tb + ho, rect_top tb - rect_height mb + vo)
  else if is_str position "right" then
    (rect_left tb + rect_width tb + ho, rect_top tb + vo)
  else if is_str position "left" then
    (rect_left tb - rect_width mb + ho, rect_top tb + vo)
  else
    (clientX e + ho, clientY e + vo).

(** ... then the four off-screen checks, in the order of the source. *)
Definition clamp (p : Z * Z) (mb : rect) (ho vo cw ch : Z) : Z * Z :=
  let '(left0, top0) := p in
  (* Too far to the left? *)
  let left1 := if left0 <? 0 then (if ho >=? 0 then ho else 0) else left0 in
  (* Too far up? *)
  let top1 := if top0 <? 0 then (if vo >=? 0 then vo else 0) else top0 in
  (* Too far to the right? *)
  let left2 :=
    if left1 + rect_width mb >? cw
    then (if ho >=? 0 then cw - rect_width mb else cw - rect_width mb + ho)
    else left1 in
  (* Too far to the bottom? *)
  let top2 :=
    if top1 + rect_height mb >? ch
    then (if vo >=? 0 then ch - rect_height mb else ch - rect_height mb + vo)
    else top1 in
  (left2, top2).

Definition place (position : value) (e : event) (tb mb : rect)
    (ho vo cw ch : Z) : Z * Z :=
  clamp (candidate position e tb mb ho vo) mb ho vo cw ch.

Definition to_num (v : value) : outcome Z :=
  match v with VNum n => Ok n | _ => Stuck end.

Definition read_num (v : value) (k : string) : M state Z :=
  x ← read_heap (get_prop v k);
  read (fun _ => to_num x).

Definition set_style (m : nat) (x y : Z) (s : state) : state :=
  match st_menus s !! m with
  | Some c =>
      set_menus (<[m := Container (menu_className c) (menu_visibility c)
                          (menu_display c) (menu_children c)
                          (Some x) (Some y)]> (st_menus s)) s
  | None => s
  end.

Definition set_visibility (m : nat) (v : string) (s : state) : state :=
  match st_menus s !! m with
  | Some c =>
      set_menus (<[m := Container (menu_className c) v (menu_display c)
                          (menu_children c) (menu_left c) (menu_top c)]>
                   (st_menus s)) s
  | None => s
  end.

(** A container that is not in the document measures as an empty box. *)
Definition menu_rect (m : nat) (s : state) : rect :=
  if existsb (Nat.eqb m) (st_body s) then menu_box (st_layout s) m else zero_rect.

Definition positionContextMenu (e : event) (target : elem) (menu : nat)
  : M state unit :=
  targetBox ← read (fun s => Ok (box_of (st_layout s) target));
  menuBox ← read (fun s => Ok (menu_rect menu s));
  cfg ← read (fun s => Ok (ctxMenu_of target s));
  position ← (if truthy cfg
              then p ← read_heap (get_prop cfg "position");
                   ret (if truthy p then p else VStr "click")
              else ret (VStr "click"));
  ho ← read_num cfg "horizontalOffset";
  vo ← read_num cfg "verticalOffset";
  cw ← read (fun s => Ok (clientWidth (st_layout s)));
  ch ← read (fun s => Ok (clientHeight (st_layout s)));
  let '(x, y) := place position e targetBox menuBox ho vo cw ch in
  modify (set_style menu x y).

(** ** onContextMenu and the deferred callback *)

(** The module variable [target]; reading a property of [null] throws. *)
Definition target_var : M state elem :=
  fun s => match st_target s with
           | Some t => (Ok t, s)
           | None => (TypeError, s)
           end.

Definition appendChild (m : nat) (s : state) : state :=
  set_body (remove_first m (st_body s) ++ [m]) s.

Definition setTimeout (t : timer) (s : state) : state :=
  set_timers (st_timers s ++ [t]) s.

Definition onContextMenu (e : event) : M state unit :=
  modify (set_target (Some (ev_target e))) ;;
  closeContextMenu ;;
  target ← target_var;
  cfg ← read (fun s => Ok (ctxMenu_of target s));
  if truthy cfg then
    menu ← createContextMenu target;
    modify (appendChild menu) ;;
    modify (set_isOpen true) ;;
    modify (setTimeout (Timer e menu))
  else ret tt.

(** The function passed to [setTimeout]. *)
Definition timer_callback (t : timer) : M state unit :=
  modify addEventListeners ;;
  modify (set_visibility (t_menu t) "visible") ;;
  target ← target_var;
  positionContextMenu (t_event t) target (t_menu t).

(** ** setEnabledState *)

(** [obj.hasOwnProperty(k)] is a method call: the method is looked up on the
    object, so an own property named [hasOwnProperty] shadows the inherited
    one.  Calling a value that is not a function throws.  A function stored
    under that name would be run; the entries of a menu the library has
    normalized are item objects, never functions, and the model does not
    follow such a call. *)
Definition hasOwnProperty (v : value) (k : string) (h : heap) : outcome bool :=
  match v with
  | VUndef | VNull => TypeError
  | _ => match own_props v h with
         | Ok ps =>
             match assoc_get "hasOwnProperty" ps with
             | None => Ok (bool_decide (is_Some (assoc_get k ps)))
             | Some (VObj a) =>
                 match h !! a with
                 | Some o => match callable o with
                             | Some _ => Stuck
                             | None => TypeError
                             end
                 | None => Stuck
                 end
             | Some _ => TypeError
             end
         | TypeError => TypeError
         | Stuck => Stuck
         end
  end.

Definition setEnabledState (sel : selector) (key : string) (enabled : bool)
  : M state unit :=
  elements ← read (fun s => Ok (getElements sel s));
  forEach (fun el =>
             cfg ← read (fun s => Ok (ctxMenu_of el s));
             defn ← read_heap (get_prop cfg "menu");
             has ← read_heap (hasOwnProperty defn key);
             if has : bool then
               item ← read_heap (get_prop defn key);
               on_heap (set_prop item "enabled" (VBool enabled))
             else ret tt)
          elements.

(** ** Public API *)

Definition addEventListener (el : elem) (type : value) (s : state) : state :=
  if existsb (fun '(el', t) => Nat.eqb el el' && bool_decide (t = type))
             (st_listeners s)
  then s
  else set_listeners (st_listeners s ++ [(el, type)]) s.

(** [extend({menu: extend({}, menu)}, conf, options)] *)
Definition make_config (menu options : value) : M heap value :=
  empty ← alloc (Object [] None);
  copy ← extend empty [menu];
  literal ← alloc (Object [("menu", copy)] None);
  extend literal [conf; options].

Definition set_element_ctxMenu (el : elem) (v : value) (s : state) : state :=
  set_ctxMenu (<[el := v]> (st_ctxMenu s)) s.

Definition attach (sel : selector) (menu options : value) : M state unit :=
  menu ← on_heap (normalizeMenu menu);
  obj ← on_heap (make_config menu options);
  elements ← read (fun s => Ok (getElements sel s));
  forEach (fun el =>
             modify (set_element_ctxMenu el obj) ;;
             type ← read_heap (get_prop obj "event");
             modify (addEventListener el type))
          elements.

(** The first argument of [display]. *)
Inductive display_arg : Type :=
| DEvent (e : event)       (* an Event or a jQuery.Event *)
| DElement (el : elem)     (* an HTMLElement *)
| DOther.

Definition display (e : display_arg) (menu options : value) : M state unit :=
  menu ← on_heap (empty ← alloc (Object [] None);
                  copy ← extend empty [menu];
                  normalizeMenu copy);
  contextMenu ← on_heap (make_config menu options);
  match e with
  | DEvent ev =>
      modify (set_element_ctxMenu (ev_target ev) contextMenu) ;;
      onContextMenu ev
  | DElement el =>
      modify (set_element_ctxMenu el contextMenu) ;;
      box ← read (fun s => Ok (box_of (st_layout s) el));
      onContextMenu (Event el (rect_left box) (rect_top box))
  | DOther => ret tt      (* console.log(e) *)
  end.

Definition disable (sel : selector) (key : string) : M state unit :=
  setEnabledState sel key false.

Definition enable (sel : selector) (key : string) : M state unit :=
  setEnabledState sel key true.

Definition close : M state unit := closeContextMenu.

Definition isOpen (s : state) : bool := st_isOpen s.

(** ** Client code and events

    What a client script can do to the library: create objects of its own
    and call the public API.  The body of a user callback is such a script. *)
Inductive command : Type :=
| CNew (o : object)
| CAttach (sel : selector) (menu options : value)
| CDisplay (e : display_arg) (menu options : value)
| CDisable (sel : selector) (key : string)
| CEnable (sel : selector) (key : string)
| CClose.

Definition exec (c : command) : M state unit :=
  match c with
  | CNew o => on_heap (alloc o) ;; ret tt
  | CAttach sel menu options => attach sel menu options
  | CDisplay e menu options => display e menu options
  | CDisable sel key => disable sel key
  | CEnable sel key => enable sel key
  | CClose => close
  end.

Section Events.

(** The script a user function runs when it is called. *)
Variable callback_body : nat -> list command.

(** [f(target, key, item, data)]: calling something that is not a function
    throws. *)
Definition call_function (f : value) (target : elem) (key : string)
    (item : option nat) (data : value) : M state unit :=
  fn ← read_heap (fun h =>
         match f with
         | VObj a => match h !! a with
                     | Some o => match callable o with
                                 | Some fn => Ok fn
                                 | None => TypeError
                                 end
                     | None => Stuck
                     end
         | _ => TypeError
         end);
  modify (fun s => set_calls (st_calls s ++ [Call f target key item data]) s) ;;
  match fn with
  | UserFn id => forEach exec (callback_body id)
  | NoopFn => ret tt
  end.

(** The click listener [createContextMenu] puts on an enabled row, run
    with [this] bound to row [r]:
    [this.ctxMenu.onSelect(target, this.ctxMenu.key, item, target.ctxMenu.data);
     closeContextMenu();]
    where [target] and [item] are variables of the scope the closure
    captured. *)
Definition row_listener (r fr : nat) : M state unit :=
  this ← read (fun s => match st_rows s !! r with
                        | Some x => Ok x
                        | None => Stuck
                        end);
  scope ← read (fun s => match st_frames s !! fr with
                         | Some x => Ok x
                         | None => Stuck
                         end);
  cfg ← read (fun s => Ok (ctxMenu_of (fr_target scope) s));
  data ← read_heap (get_prop cfg "data");
  call_function (ic_onSelect (row_ctxMenu this)) (fr_target scope)
                (ic_key (row_ctxMenu this)) (fr_item scope) data ;;
  closeContextMenu.

(** A click on row [r]: its own listener, if it has one, then the listener
    on [window] when the click bubbles that far. *)
Definition click_row (r : nat) (s : state) : state :=
  let s1 :=
    match st_rows s !! r with
    | Some x => match row_click x with
                | Some fr => snd (row_listener r fr s)
                | None => s
                end
    | None => s
    end in
  let attached :=
    existsb (fun m => match st_menus s !! m with
                      | Some c => existsb (Nat.eqb r) (menu_children c)
                      | None => false
                      end) (st_body s) in
  if attached && existsb (String.eqb "click") (st_window s1)
  then snd (closeContextMenu s1) else s1.

(** What can happen next. *)
Inductive input : Type :=
| Script (c : command)                              (* client code runs *)
| Trigger (el : elem) (type : value) (e : event)    (* an event reaches [el] *)
| ClickRow (r : nat)
| WindowEvent (type : string)
| Tick                                              (* the oldest timer fires *)
| Relayout (l : layout).

Definition step (i : input) (s : state) : state :=
  match i with
  | Script c => snd (exec c s)
  | Trigger el type e =>
      if existsb (fun '(el', t) => Nat.eqb el el' && bool_decide (t = type))
                 (st_listeners s)
      then snd (onContextMenu e s) else s
  | ClickRow r => click_row r s
  | WindowEvent type =>
      if existsb (String.eqb type) (st_window s)
      then snd (closeContextMenu s) else s
  | Tick =>
      match st_timers s with
      | [] => s
      | t :: ts => snd (timer_callback t (set_timers ts s))
      end
  | Relayout l => set_layout l s
  end.

Definition run (ins : list input) (s : state) : state :=
  fold_left (fun s i => step i s) ins s.

Definition reachable (s : state) : Prop :=
  exists (l : layout) (ins : list input), s = run ins (init_state l).

End Events.

(** * Vocabulary of the specification

    Predicates and sample data the properties below are stated with. *)

(** [m] keeps [P]: whatever the outcome, the store it leaves satisfies [P]. *)
Definition preserves {S A : Type} (P : S -> Prop) (m : M S A) : Prop :=
  forall s, P s -> P (snd (m s)).

(** What the lifecycle depends on is left alone: the children of the body,
    the flag, and the class of every container. *)
Definition doc_same (s s' : state) : Prop :=
  st_body s' = st_body s
  /\ st_isOpen s' = st_isOpen s
  /\ (length (st_menus s) <= length (st_menus s'))%nat
  /\ forall m c, st_menus s !! m = Some c ->
       exists c', st_menus s' !! m = Some c'
                  /\ menu_className c' = menu_className c.

(** [m] leaves the document as it is. *)
Definition quiet {A : Type} (m : M state A) : Prop :=
  forall s0, preserves (doc_same s0) m.

(** The invariant of the lifecycle: every child of the body the library put
    there is a menu container, there is at most one, and the flag says
    whether there is one. *)
Record doc_inv (s : state) : Prop := DocInv {
  inv_class : forall m, In m (st_body s) ->
              exists c, st_menus s !! m = Some c
                        /\ menu_className c = menuClassName;
  inv_one : (length (st_body s) <= 1)%nat;
  inv_open : st_isOpen s = match st_body s with [] => false | _ => true end
}.

(** The state in which [onContextMenu] builds the new menu. *)
Definition closed_for (e : event) (s : state) : state :=
  set_isOpen false
    (set_body [] (removeEventListeners (set_target (Some (ev_target e)) s))).

(** User callbacks that do nothing. *)
Definition no_callbacks (id : nat) : list command := [].

(** Every element has the box {left 100, top 50, width 80, height 20}, every
    menu measures 60x40, and the body is 1000x800. *)
Definition sample_layout : layout :=
  Layout (fun _ => Rect 100 50 80 20) (fun _ => Rect 0 0 60 40) 1000 800
         (fun _ => []).

(** A client creates a callback [f] (at address 3) and the menu
    [{A: f, B: null}] (at address 4) and attaches it to elements 10 and 11. *)
Definition sample_setup : list input :=
  [Script (CNew (Object [] (Some (UserFn 0))));
   Script (CNew (Object [("A", VObj 3); ("B", VNull)] None));
   Script (CAttach (SelList [10%nat; 11%nat]) (VObj 4) VUndef)].

Definition sample_attached : state :=
  run no_callbacks sample_setup (init_state sample_layout).

(** Then element 10 is clicked and the deferred positioning runs. *)
Definition sample_opening : list input :=
  sample_setup ++ [Trigger 10%nat (VStr "click") (Event 10 5 5); Tick].

Definition sample_open : state :=
  run no_callbacks sample_opening (init_state sample_layout).

(** What [for (key in source) obj[key] = source[key]] leaves in [obj]. *)
Definition copy_keys (ks : list string) (qs ps : list (string * value))
  : list (string * value) :=
  fold_left (fun acc k => assoc_set k (default VUndef (assoc_get k qs)) acc) ks ps.

(** The properties of an object with properties [ps] after a source with
    properties [qs] was copied into it. *)
Definition merge_props (ps qs : list (string * value)) : list (string * value) :=
  copy_keys (map fst qs) qs ps.

(** The properties of the item [normalizeMenu] builds for entry [k] with
    value [v]. *)
Definition normalized (noop : value) (k : string) (v : value) (h : heap)
  : list (string * value) :=
  if negb (truthy v) then
    merge_props (itemDefaults noop) [("label", VStr k)]
  else
    match isFunction v h with
    | Ok true =>
        merge_props (itemDefaults noop) [("label", VStr k); ("onSelect", v)]
    | _ =>
        match own_props v h with
        | Ok qs => merge_props (itemDefaults noop) qs
        | _ => itemDefaults noop
        end
    end.

(** An entry that is an object lives in the heap and is not the menu
    itself. *)
Definition valid_entry (m : addr) (h : heap) (v : value) : Prop :=
  match v with
  | VObj r => (r < length h)%nat /\ r <> m
  | _ => True
  end.

(** Two heaps that agree below [n], except possibly at [m]. *)
Definition agree_below (n : nat) (m : addr) (h h' : heap) : Prop :=
  forall x, (x < n)%nat -> x <> m -> h' !! x = h !! x.

(** The value is a function object. *)
Definition is_callable (h : heap) (v : value) : Prop :=
  exists a o f, v = VObj a /\ h !! a = Some o /\ callable o = Some f.

(** The three shapes of entry the library documents: a falsy placeholder, a
    callback, or a record of options whose fields, when present, have the
    documented types. *)
Inductive entry_shape (h : heap) : value -> Prop :=
| shape_falsy v :
    truthy v = false -> entry_shape h v
| shape_callback a :
    is_callable h (VObj a) -> isFunction (VObj a) h = Ok true ->
    entry_shape h (VObj a)
| shape_record a o :
    h !! a = Some o -> isFunction (VObj a) h = Ok false ->
    (forall x, assoc_get "label" (props o) = Some x -> exists s, x = VStr s) ->
    (forall x, assoc_get "enabled" (props o) = Some x -> exists b, x = VBool b) ->
    (forall x, assoc_get "onSelect" (props o) = Some x -> is_callable h x) ->
    entry_shape h (VObj a).

(** A menu object as a client hands it over: it has no duplicate keys, its
    entries that are objects exist and none is the menu itself. *)
Definition menu_object (h : heap) (m : addr) (mp : list (string * value))
    (mc : option func) : Prop :=
  h !! m = Some (Object mp mc)
  /\ NoDup (map fst mp)
  /\ forall k v, assoc_get k mp = Some v -> valid_entry m h v.

(** The fields of a fully populated item. *)
Definition item_fields : list string :=
  ["type"; "enabled"; "label"; "onSelect"; "icon"; "title"].

(** [el.ctxMenu.menu[key].enabled] *)
Definition item_enabled (el : elem) (key : string) (s : state) : outcome value :=
  match get_prop (ctxMenu_of el s) "menu" (st_heap s) with
  | Ok defn =>
      match get_prop defn key (st_heap s) with
      | Ok item => get_prop item "enabled" (st_heap s)
      | TypeError => TypeError
      | Stuck => Stuck
      end
  | TypeError => TypeError
  | Stuck => Stuck
  end.

(** The value is not a dangling reference. *)
Definition exists_obj (h : heap) (v : value) : Prop :=
  match v with
  | VObj a => is_Some (h !! a)
  | _ => True
  end.

(** The heap only grew: what was there is still there. *)
Definition extends (h h' : heap) : Prop :=
  forall x o, h !! x = Some o -> h' !! x = Some o.

(** The items of a normalized menu, as the menu builder needs them: every
    entry is an item object whose [onSelect], if any, is not dangling. *)
Definition items_ready (h : heap) (items : list (string * value)) : Prop :=
  forall k v, assoc_get k items = Some v ->
    exists a item, v = VObj a /\ h !! a = Some item
      /\ forall x, assoc_get "onSelect" (props item) = Some x -> exists_obj h x.

(** Only nodes and scopes were created. *)
Definition nodes_only (s s' : state) : Prop :=
  st_heap s' = st_heap s /\ st_ctxMenu s' = st_ctxMenu s
  /\ st_body s' = st_body s /\ st_target s' = st_target s
  /\ st_layout s' = st_layout s /\ st_timers s' = st_timers s
  /\ st_isOpen s' = st_isOpen s.

(** An offset the options give, or the 0 of [conf]. *)
Definition offset_of (op : list (string * value)) (name : string) : Z :=
  match assoc_get name op with
  | Some (VNum n) => n
  | _ => 0
  end.

(** The client has created its callback and the menu [{A: f, B: null}]. *)
Definition sample_client : state :=
  run no_callbacks
      [Script (CNew (Object [] (Some (UserFn 0))));
       Script (CNew (Object [("A", VObj 3); ("B", VNull)] None))]
      (init_state sample_layout).

(** What a sweep over the live collection leaves of a list: the elements at
    the odd positions. *)
Fixpoint every_other (l : list nat) : list nat :=
  match l with
  | _ :: y :: l' => y :: every_other l'
  | _ => []
  end.

(** How [createContextMenu] equips a row: an enabled one has the item class
    and a click listener, a disabled one the disabled class, no listener
    and no [onSelect]. *)
Definition row_consistent (r : row) : Prop :=
  if ic_enabled (row_ctxMenu r)
  then row_className r = itemClassName /\ is_Some (row_click r)
  else row_className r = itemClassNameDisabled /\ row_click r = None
       /\ ic_onSelect (row_ctxMenu r) = VUndef.

(** A document with two menu containers. *)
Definition two_menus : state :=
  State module_heap ∅ [] true None
        [Container menuClassName "visible" "inline-block" [] None None;
         Container menuClassName "visible" "inline-block" [] None None]
        [] [] [0%nat; 1%nat] [] [] [] sample_layout.

(** What the library does to the rows and to the record of callback
    invocations when it is not handling a click on a row: it only adds
    rows, each equipped as [row_consistent] says, and invokes nothing. *)
Definition lib_step (s s' : state) : Prop :=
  st_calls s' = st_calls s
  /\ exists new, st_rows s' = st_rows s ++ new /\ Forall row_consistent new.

Definition calm {A : Type} (m : M state A) : Prop :=
  forall s0, preserves (lib_step s0) m.

(** Every row of the document is equipped as [row_consistent] says. *)
Definition rows_ok (s : state) : Prop := Forall row_consistent (st_rows s).

(** As [sample_opening], but entry B is disabled before the click. *)
Definition sample_disabling : list input :=
  sample_setup ++ [Script (CDisable (SelElement 10%nat) "B");
                   Trigger 10%nat (VStr "click") (Event 10 5 5); Tick].

Definition sample_disabled : state :=
  run no_callbacks sample_disabling (init_state sample_layout).

(** The objects of [h0] other than [m] are in [h] as they were. *)
Definition objects_kept (m : value) (h0 h : heap) : Prop :=
  (length h0 <= length h)%nat
  /\ forall x o, m <> VObj x -> h0 !! x = Some o -> h !! x = Some o.

(** [v] is [m] or did not exist in [h0]. *)
Definition writable (m : value) (h0 : heap) (v : value) : Prop :=
  v = m \/ forall a, v = VObj a -> (length h0 <= a)%nat.

(** Element 10 has been clicked; the deferred positioning has not run yet. *)
Definition sample_triggering : list input :=
  sample_setup ++ [Trigger 10%nat (VStr "click") (Event 10 5 5)].

Definition sample_triggered : state :=
  run no_callbacks sample_triggering (init_state sample_layout).

(** The anchor mode [positionContextMenu] works with: the [position] of the
    configuration when that is truthy, and "click" otherwise. *)
Definition position_of (cp : object) : value :=
  let p := default VUndef (assoc_get "position" (props cp)) in
  if truthy p then p else VStr "click".

(** The four values of [position] that anchor the menu to the target's
    box; with anything else the menu goes to the pointer position. *)
Definition anchor_mode (v : value) : bool :=
  is_str v "bottom" || is_str v "top" || is_str v "right" || is_str v "left".

(** As [sample_layout], with every element at the right edge: its box is
    {left 970, top 50, width 80, height 20}. *)
Definition edge_layout : layout :=
  Layout (fun _ => Rect 970 50 80 20) (fun _ => Rect 0 0 60 40) 1000 800
         (fun _ => []).

Definition edge_triggered : state :=
  run no_callbacks sample_triggering (init_state edge_layout).



(** A client whose menu has an entry named [hasOwnProperty], attached to
    element 10. *)
Definition sample_shadowing : list input :=
  [Script (CNew (Object [] (Some (UserFn 0))));
   Script (CNew (Object [("A", VObj 3); ("hasOwnProperty", VNull)] None));
   Script (CAttach (SelElement 10%nat) (VObj 4) VUndef)].

Definition sample_shadowed : state :=
  run no_callbacks sample_shadowing (init_state sample_layout).

(** As [sample_client], with the options [{position: "click"}] at address
    5. *)
Definition sample_pointer_client : state :=
  run no_callbacks
      [Script (CNew (Object [] (Some (UserFn 0))));
       Script (CNew (Object [("A", VObj 3); ("B", VNull)] None));
       Script (CNew (Object [("position", VStr "click")] None))]
      (init_state sample_layout).

(** * Properties *)

(** [normalizeMenu] on [{New: f, Open: {enabled: false}, Sep: null}]. *)
Example normalize_sample :
  normalizeMenu (VObj 2)
                [Object [] (Some (UserFn 0));
                 Object [("enabled", VBool false)] None;
                 Object [("New", VObj 0); ("Open", VObj 1); ("Sep", VNull)] None]
  = (Ok (VObj 2),
        [Object [] (Some (UserFn 0));
         Object [("enabled", VBool false)] None;
         Object [("New", VObj 5); ("Open", VObj 7); ("Sep", VObj 8)] None;
         Object [] (Some NoopFn);
         Object (itemDefaults (VObj 3)) None;
         Object [("type", VStr "item"); ("enabled", VBool true);
                 ("label", VStr "New"); ("onSelect", VObj 0);
                 ("icon", VStr ""); ("title", VStr "")] None;
         Object [("label", VStr "New"); ("onSelect", VObj 0)] None;
         Object [("type", VStr "item"); ("enabled", VBool false);
                 ("label", VStr ""); ("onSelect", VObj 3);
                 ("icon", VStr ""); ("title", VStr "")] None;
         Object [("type", VStr "item"); ("enabled", VBool true);
                 ("label", VStr "Sep"); ("onSelect", VObj 3);
                 ("icon", VStr ""); ("title", VStr "")] None;
         Object [("label", VStr "Sep")] None]).
Proof. vm_compute. reflexivity. Qed.

(** ** Placement *)

(** What [positionContextMenu] does for an element whose configuration
    holds numeric offsets: it measures the two boxes and the body, takes the
    anchor mode and the offsets from the configuration, and writes the
    position [place] computes from them to [style.left] and [style.top] of
    the menu. *)
Lemma positionContextMenu_writes e target menu s cfg cp ho vo :
  ctxMenu_of target s = VObj cfg ->
  st_heap s !! cfg = Some cp ->
  assoc_get "horizontalOffset" (props cp) = Some (VNum ho) ->
  assoc_get "verticalOffset" (props cp) = Some (VNum vo) ->
  positionContextMenu e target menu s
  = (Ok tt,
     set_style menu
       (fst (place (position_of cp) e (box_of (st_layout s) target)
                   (menu_rect menu s) ho vo
                   (clientWidth (st_layout s)) (clientHeight (st_layout s))))
       (snd (place (position_of cp) e (box_of (st_layout s) target)
                   (menu_rect menu s) ho vo
                   (clientWidth (st_layout s)) (clientHeight (st_layout s))))
       s).
Proof.
  intros Hcfg Hcp Hho Hvo.
  assert (G : forall name,
             get_prop (VObj cfg) name (st_heap s)
             = Ok (default VUndef (assoc_get name (props cp)))).
  { intros name. unfold get_prop, own_props. rewrite Hcp. reflexivity. }
  unfold positionContextMenu, read_num, read_heap, position_of.
  cbv [mbind M_bind bind read ret mret M_ret modify].
  rewrite Hcfg. change (truthy (VObj cfg)) with true. cbv iota.
  cbv beta. rewrite (G "position"). cbv beta iota zeta.
  rewrite (G "horizontalOffset"), Hho. cbn [default from_option id to_num].
  cbv beta iota. rewrite (G "verticalOffset"), Hvo.
  cbn [default from_option id to_num]. cbv beta iota.
  destruct (place _ _ _ _ _ _ _ _). reflexivity.
Qed.

Lemma set_style_lookup menu x y s c :
  st_menus s !! menu = Some c ->
  st_menus (set_style menu x y s) !! menu
  = Some (Container (menu_className c) (menu_visibility c) (menu_display c)
                    (menu_children c) (Some x) (Some y)).
Proof.
  intros Hc. unfold set_style. rewrite Hc. cbn [st_menus set_menus].
  apply list_lookup_insert_eq. eapply lookup_lt_Some; eauto.
Qed.

(** With one of the four anchor modes the position before clamping does not
    depend on the event; with any other value of [position] it is the
    pointer position of the event plus the offsets. *)
Lemma candidate_anchor v e e' tb mb ho vo :
  anchor_mode v = true ->
  (if truthy v then v else VStr "click") = v
  /\ candidate v e' tb mb ho vo = candidate v e tb mb ho vo.
Proof.
  unfold anchor_mode, candidate. intros H.
  destruct v as [| | | |str|]; try discriminate. split.
  - cbn [truthy]. destruct (String.eqb_spec str ""); [subst; discriminate|].
    reflexivity.
  - destruct (is_str (VStr str) "bottom"); [reflexivity|].
    destruct (is_str (VStr str) "top"); [reflexivity|].
    destruct (is_str (VStr str) "right"); [reflexivity|].
    destruct (is_str (VStr str) "left"); [reflexivity | discriminate].
Qed.

Lemma candidate_pointer v e tb mb ho vo :
  anchor_mode v = false ->
  candidate (if truthy v then v else VStr "click") e tb mb ho vo
  = (clientX e + ho, clientY e + vo).
Proof.
  unfold anchor_mode. intros H.
  apply orb_false_elim in H. destruct H as [H Hl].
  apply orb_false_elim in H. destruct H as [H Hr].
  apply orb_false_elim in H. destruct H as [Hb Ht].
  destruct (truthy v); [|reflexivity].
  unfold candidate. rewrite Hb, Ht, Hr, Hl. reflexivity.
Qed.

(** C4. For an element whose configuration has the anchor mode [bottom],
    [positionContextMenu] completes and writes to [style.left] and
    [style.top] of the menu what the four off-screen checks make of
    (targetLeft + horizontalOffset, targetBottom + verticalOffset), the
    boxes being the ones it measures and the offsets the ones of the
    configuration.  For the target box {left 100, top 50, width 80, height
    20}, a 60x40 menu, zero offsets and a 1000x800 viewport the menu goes
    to (100, 70); for a target at left 970, a menu 60 wide, zero horizontal
    offset and a viewport 1000 wide the left coordinate written is 940. *)
Theorem bottom_placement e target menu s cfg cp ho vo c :
  ctxMenu_of target s = VObj cfg ->
  st_heap s !! cfg = Some cp ->
  assoc_get "position" (props cp) = Some (VStr "bottom") ->
  assoc_get "horizontalOffset" (props cp) = Some (VNum ho) ->
  assoc_get "verticalOffset" (props cp) = Some (VNum vo) ->
  st_menus s !! menu = Some c ->
  let tb := box_of (st_layout s) target in
  let mb := menu_rect menu s in
  let cw := clientWidth (st_layout s) in
  let ch := clientHeight (st_layout s) in
  let p := clamp (rect_left tb + ho, rect_bottom tb + vo) mb ho vo cw ch in
  exists s' c',
    positionContextMenu e target menu s = (Ok tt, s')
    /\ st_menus s' !! menu = Some c'
    /\ menu_left c' = Some (fst p)
    /\ menu_top c' = Some (snd p)
    /\ (tb = Rect 100 50 80 20 ->
        rect_width mb = 60 -> rect_height mb = 40 ->
        ho = 0 -> vo = 0 -> cw = 1000 -> ch = 800 ->
        menu_left c' = Some 100 /\ menu_top c' = Some 70)
    /\ (rect_left tb = 970 -> rect_width mb = 60 -> ho = 0 -> cw = 1000 ->
        menu_left c' = Some 940).
Proof.
  intros Hcfg Hcp Hpos Hho Hvo Hc tb mb cw ch p.
  assert (Hmode : position_of cp = VStr "bottom")
    by (unfold position_of; rewrite Hpos; reflexivity).
  pose proof (positionContextMenu_writes e target menu s cfg cp ho vo
                Hcfg Hcp Hho Hvo) as E.
  rewrite Hmode in E. fold tb mb cw ch in E.
  change (place (VStr "bottom") e tb mb ho vo cw ch) with p in E.
  eexists _, _. split; [exact E|].
  split; [apply set_style_lookup; exact Hc|].
  cbn [menu_left menu_top].
  split; [reflexivity|]. split; [reflexivity|]. split.
  - intros Etb Ew Eh -> -> Ecw Ech. subst p. rewrite Etb, Ecw, Ech.
    unfold clamp. rewrite Ew, Eh. split; reflexivity.
  - intros El Ew -> Ecw. subst p. rewrite El, Ecw.
    unfold clamp. rewrite Ew. cbn [fst]. reflexivity.
Qed.

(** The menu of [sample_triggered] (element 10 at {left 100, top 50, width
    80, height 20}) is written to (100, 70); with the element at left 970
    the left coordinate written is 940. *)
Lemma bottom_placement_witness :
  (exists s' c',
      positionContextMenu (Event 10 5 5) 10 0 sample_triggered = (Ok tt, s')
      /\ st_menus s' !! 0%nat = Some c'
      /\ menu_left c' = Some 100 /\ menu_top c' = Some 70)
  /\ (exists s' c',
        positionContextMenu (Event 10 5 5) 10 0 edge_triggered = (Ok tt, s')
        /\ st_menus s' !! 0%nat = Some c'
        /\ menu_left c' = Some 940).
Proof.
  split.
  - destruct (bottom_placement (Event 10 5 5) 10%nat 0%nat sample_triggered
                12%nat
                (Object [("menu", VObj 11); ("event", VStr "click");
                         ("position", VStr "bottom");
                         ("horizontalOffset", VNum 0);
                         ("verticalOffset", VNum 0); ("data", VObj 0)] None)
                0 0
                (Container menuClassName "hidden" "inline-block"
                           [0%nat; 1%nat] None None))
      as (s' & c' & E & Hc & _ & _ & Hex & _);
      [vm_compute; reflexivity .. |].
    exists s', c'. split; [exact E|]. split; [exact Hc|].
    apply Hex; vm_compute; reflexivity.
  - destruct (bottom_placement (Event 10 5 5) 10%nat 0%nat edge_triggered
                12%nat
                (Object [("menu", VObj 11); ("event", VStr "click");
                         ("position", VStr "bottom");
                         ("horizontalOffset", VNum 0);
                         ("verticalOffset", VNum 0); ("data", VObj 0)] None)
                0 0
                (Container menuClassName "hidden" "inline-block"
                           [0%nat; 1%nat] None None))
      as (s' & c' & E & Hc & _ & _ & _ & Hex);
      [vm_compute; reflexivity .. |].
    exists s', c'. split; [exact E|]. split; [exact Hc|].
    apply Hex; vm_compute; reflexivity.
Defined.

(** A negative horizontal offset with a menu that fits the viewport, but not
    together with the offset: target at left 50, menu 90 wide, offset -20,
    viewport 100 wide.  The right-edge check runs last and moves the menu to
    100 - 90 - 20 = -10. *)
Lemma negative_offset_off_screen :
  fst (place (VStr "bottom") (Event 0 0 0) (Rect 50 0 10 10) (Rect 0 0 90 10)
             (-20) 0 100 100) = -10
  /\ ~ (forall position e tb mb ho vo cw ch,
           ho < 0 -> 0 <= fst (place position e tb mb ho vo cw ch)).
Proof.
  split; [reflexivity|].
  intros H.
  specialize (H (VStr "bottom") (Event 0 0 0) (Rect 50 0 10 10)
                (Rect 0 0 90 10) (-20) 0 100 100).
  vm_compute in H. apply H; reflexivity.
Qed.

Ltac split_ifs :=
  repeat match goal with
         | |- context [if ?c then _ else _] =>
             let E := fresh "E" in destruct c eqn:E
         end.

(** C5, as the code has it, axis by axis.  On an axis on which the menu and
    the magnitude of the offset fit the viewport together, the final
    coordinate keeps the menu inside the viewport, and a coordinate that
    was negative before clamping ends at the offset when the offset is
    non-negative and at 0 when it is negative; the other axis does not
    matter.  This final position is the one [positionContextMenu] writes to
    the menu, for the boxes it measures and the anchor mode and offsets of
    the element's configuration. *)
Theorem clamp_within_viewport position e tb mb ho vo cw ch :
  let c := candidate position e tb mb ho vo in
  let p := place position e tb mb ho vo cw ch in
  (rect_width mb + Z.abs ho <= cw ->
   0 <= fst p /\ fst p + rect_width mb <= cw
   /\ (fst c < 0 -> fst p = Z.max ho 0))
  /\ (rect_height mb + Z.abs vo <= ch ->
      0 <= snd p /\ snd p + rect_height mb <= ch
      /\ (snd c < 0 -> snd p = Z.max vo 0))
  /\ (forall target menu s cfg cp,
        ctxMenu_of target s = VObj cfg ->
        st_heap s !! cfg = Some cp ->
        position_of cp = position ->
        assoc_get "horizontalOffset" (props cp) = Some (VNum ho) ->
        assoc_get "verticalOffset" (props cp) = Some (VNum vo) ->
        box_of (st_layout s) target = tb ->
        menu_rect menu s = mb ->
        clientWidth (st_layout s) = cw ->
        clientHeight (st_layout s) = ch ->
        positionContextMenu e target menu s
        = (Ok tt, set_style menu (fst p) (snd p) s)).
Proof.
  intros c p. split; [|split].
  - intros Hw. subst p. unfold place. fold c.
    destruct c as [x y]. unfold clamp. cbn [fst snd].
    destruct (x <? 0) eqn:Ex, (ho >=? 0) eqn:Eh;
      split_ifs; cbn [fst snd]; lia.
  - intros Hh. subst p. unfold place. fold c.
    destruct c as [x y]. unfold clamp. cbn [fst snd].
    destruct (y <? 0) eqn:Ey, (vo >=? 0) eqn:Ev;
      split_ifs; cbn [fst snd]; lia.
  - intros target menu s cfg cp Hcfg Hcp Hmode Hho Hvo Htb Hmb Hcw Hch.
    subst p. rewrite <- Hmode, <- Htb, <- Hmb, <- Hcw, <- Hch.
    apply positionContextMenu_writes with cfg; assumption.
Qed.

(** A menu 60 wide with horizontal offset 5 in a viewport 1000 wide, anchored
    to the left of a target at left 20: the left coordinate, negative before
    clamping, ends at the offset; vertically the menu, 40 high, does not fit
    the viewport, 30 high, and nothing is needed of that axis.  In
    [sample_triggered] both axes fit and the position is the one written to
    the menu. *)
Lemma clamp_within_viewport_witness :
  rect_width (Rect 0 0 60 40) + Z.abs 5 <= 1000
  /\ ~ rect_height (Rect 0 0 60 40) + Z.abs (-3) <= 30
  /\ fst (place (VStr "left") (Event 0 0 0) (Rect 20 1 80 20) (Rect 0 0 60 40)
               5 (-3) 1000 30) = 5
  /\ positionContextMenu (Event 10 5 5) 10 0 sample_triggered
     = (Ok tt, set_style 0 100 70 sample_triggered).
Proof.
  split; [simpl; lia|]. split; [simpl; lia|]. split.
  - destruct (clamp_within_viewport (VStr "left") (Event 0 0 0)
                (Rect 20 1 80 20) (Rect 0 0 60 40) 5 (-3) 1000 30)
      as (Hx & _ & _).
    destruct Hx as (_ & _ & Hx); [simpl; lia|].
    rewrite Hx; [reflexivity | simpl; lia].
  - destruct (clamp_within_viewport (VStr "bottom") (Event 10 5 5)
                (Rect 100 50 80 20) (Rect 0 0 60 40) 0 0 1000 800)
      as (_ & _ & Hrun).
    apply (Hrun 10%nat 0%nat sample_triggered 12%nat
             (Object [("menu", VObj 11); ("event", VStr "click");
                      ("position", VStr "bottom");
                      ("horizontalOffset", VNum 0);
                      ("verticalOffset", VNum 0); ("data", VObj 0)] None));
      vm_compute; reflexivity.
Defined.

(** ** Reasoning about computations *)

Section Preserves.
Context {S : Type} (P : S -> Prop).

Lemma preserves_ret {A} (a : A) : preserves P (mret a : M S A).
Proof. intros s H. exact H. Qed.

Lemma preserves_bind {A B} (m : M S A) (k : A -> M S B) :
  preserves P m -> (forall a, preserves P (k a)) -> preserves P (m ≫= k).
Proof.
  intros Hm Hk s H. specialize (Hm s H).
  unfold mbind, M_bind, bind. destruct (m s) as [[a| |] s']; cbn in *; auto.
  apply Hk; exact Hm.
Qed.

Lemma preserves_read {A} (f : S -> outcome A) : preserves P (read f).
Proof. intros s H. exact H. Qed.

Lemma preserves_throw {A} : preserves P (throw : M S A).
Proof. intros s H. exact H. Qed.

Lemma preserves_modify (f : S -> S) :
  (forall s, P s -> P (f s)) -> preserves P (modify f).
Proof. intros Hf s H. apply Hf, H. Qed.

Lemma preserves_forEach {A} (f : A -> M S unit) (l : list A) :
  (forall x, preserves P (f x)) -> preserves P (forEach f l).
Proof.
  intros Hf. induction l as [|x l IH]; cbn [forEach].
  - apply preserves_ret.
  - apply preserves_bind; [apply Hf | intros _; exact IH].
Qed.

Lemma preserves_if {A} (b : bool) (m1 m2 : M S A) :
  preserves P m1 -> preserves P m2 -> preserves P (if b then m1 else m2).
Proof. destruct b; auto. Qed.
End Preserves.

Ltac pres_step :=
  lazymatch goal with
  | |- preserves _ (_ ≫= _) => apply preserves_bind; [|intros ?]
  | |- preserves _ (mret _) => apply preserves_ret
  | |- preserves _ (ret _) => apply preserves_ret
  | |- preserves _ (read _) => apply preserves_read
  | |- preserves _ (read_heap _) => apply preserves_read
  | |- preserves _ throw => apply preserves_throw
  | |- preserves _ (forEach _ _) => apply preserves_forEach; intros ?
  | |- preserves _ (if _ then _ else _) => apply preserves_if
  | |- preserves _ (modify _) => apply preserves_modify
  end.

(** Inverting a computation that ended normally. *)
Lemma bind_Ok {S A B} (m : M S A) (k : A -> M S B) s b s2 :
  (m ≫= k) s = (Ok b, s2) ->
  exists a s1, m s = (Ok a, s1) /\ k a s1 = (Ok b, s2).
Proof.
  unfold mbind, M_bind, bind. destruct (m s) as [[a| |] s1]; try discriminate.
  intros H. exists a, s1. auto.
Qed.

Lemma bind_Ok_intro {S A B} (m : M S A) (k : A -> M S B) s a s1 :
  m s = (Ok a, s1) -> (m ≫= k) s = k a s1.
Proof. intros H. unfold mbind, M_bind, bind. rewrite H. reflexivity. Qed.

(** ** The document and the lifecycle flag *)

Lemma doc_same_refl s : doc_same s s.
Proof. repeat split; eauto. Qed.

(** Updates of a field [doc_same] does not look at. *)
Ltac doc_untouched := repeat split; cbn; eauto.

Lemma doc_same_trans s1 s2 s3 :
  doc_same s1 s2 -> doc_same s2 s3 -> doc_same s1 s3.
Proof.
  intros (B1 & O1 & L1 & C1) (B2 & O2 & L2 & C2).
  repeat split; try congruence; try lia.
  intros m c H. destruct (C1 m c H) as (c' & H' & E').
  destruct (C2 m c' H') as (c'' & H'' & E''). exists c''. split; congruence.
Qed.

Lemma quiet_modify (f : state -> state) :
  (forall s, doc_same s (f s)) -> quiet (modify f).
Proof.
  intros Hf s0. apply preserves_modify. intros s H.
  eapply doc_same_trans; [exact H | apply Hf].
Qed.

Lemma quiet_on_heap {A} (m : M heap A) : quiet (on_heap m).
Proof.
  intros s0 s H. unfold on_heap. destruct (m (st_heap s)) as [r h].
  eapply doc_same_trans; [exact H|]. doc_untouched.
Qed.

Lemma doc_same_update_menu s m c c' :
  st_menus s !! m = Some c ->
  menu_className c' = menu_className c ->
  doc_same s (set_menus (<[m := c']> (st_menus s)) s).
Proof.
  intros Hm Hc. repeat split; cbn.
  - rewrite length_insert. lia.
  - intros m' d Hd. destruct (decide (m = m')) as [->|Hne].
    + exists c'. rewrite list_lookup_insert_eq by (eapply lookup_lt_Some; eauto).
      split; congruence.
    + exists d. rewrite list_lookup_insert_ne by exact Hne. auto.
Qed.

Lemma doc_same_appendRow m r s : doc_same s (appendRow m r s).
Proof.
  unfold appendRow. destruct (st_menus s !! m) as [c|] eqn:E;
    [eapply doc_same_update_menu; eauto | apply doc_same_refl].
Qed.

Lemma doc_same_set_style m x y s : doc_same s (set_style m x y s).
Proof.
  unfold set_style. destruct (st_menus s !! m) as [c|] eqn:E;
    [eapply doc_same_update_menu; eauto | apply doc_same_refl].
Qed.

Lemma doc_same_set_visibility m v s : doc_same s (set_visibility m v s).
Proof.
  unfold set_visibility. destruct (st_menus s !! m) as [c|] eqn:E;
    [eapply doc_same_update_menu; eauto | apply doc_same_refl].
Qed.

Lemma doc_same_assign_item fr r s : doc_same s (assign_item fr r s).
Proof.
  unfold assign_item. destruct (st_frames s !! fr); doc_untouched.
Qed.

Lemma doc_same_addEventListener el t s : doc_same s (addEventListener el t s).
Proof.
  unfold addEventListener. destruct (existsb _ _); doc_untouched.
Qed.

Lemma quiet_new_row r : quiet (new_row r).
Proof. intros s0 s H. eapply doc_same_trans; [exact H | doc_untouched]. Qed.

Lemma quiet_new_frame f : quiet (new_frame f).
Proof. intros s0 s H. eapply doc_same_trans; [exact H | doc_untouched]. Qed.

Lemma quiet_new_container c : quiet (new_container c).
Proof.
  intros s0 s H. eapply doc_same_trans; [exact H|].
  repeat split; cbn.
  - rewrite length_app. lia.
  - intros m d Hd. exists d. split; [|reflexivity].
    rewrite lookup_app_l by (eapply lookup_lt_Some; eauto). exact Hd.
Qed.

Lemma quiet_read_num v k : quiet (read_num v k).
Proof. intros s0. unfold read_num. repeat pres_step. Qed.

Lemma quiet_build_row target fr menu key : quiet (build_row target fr menu key).
Proof.
  intros s0. unfold build_row.
  repeat (pres_step; try apply quiet_new_row);
    intros s H; (eapply doc_same_trans; [exact H|]);
    auto using doc_same_assign_item, doc_same_appendRow.
Qed.

Lemma quiet_createContextMenu target : quiet (createContextMenu target).
Proof.
  intros s0. unfold createContextMenu.
  repeat (pres_step; try apply quiet_new_frame; try apply quiet_new_container;
          try apply quiet_build_row).
Qed.

Lemma quiet_positionContextMenu e target menu :
  quiet (positionContextMenu e target menu).
Proof.
  intros s0. unfold positionContextMenu.
  repeat (pres_step; try apply quiet_read_num).
  destruct (place _ _ _ _ _ _ _ _). apply quiet_modify.
  apply doc_same_set_style.
Qed.

Lemma quiet_setEnabledState sel key b : quiet (setEnabledState sel key b).
Proof.
  intros s0. unfold setEnabledState.
  repeat (pres_step; try apply quiet_on_heap).
Qed.

Lemma quiet_attach sel menu options : quiet (attach sel menu options).
Proof.
  intros s0. unfold attach.
  repeat (pres_step; try apply quiet_on_heap);
    intros s H; (eapply doc_same_trans; [exact H|]);
    auto using doc_same_addEventListener; doc_untouched.
Qed.

Lemma quiet_timer_callback t : quiet (timer_callback t).
Proof.
  intros s0. unfold timer_callback.
  repeat (pres_step; try apply quiet_positionContextMenu).
  - intros s H. eapply doc_same_trans; [exact H | doc_untouched].
  - intros s H. eapply doc_same_trans; [exact H | apply doc_same_set_visibility].
  - unfold target_var. intros s H. destruct (st_target s); exact H.
Qed.

Lemma doc_inv_same s s' : doc_inv s -> doc_same s s' -> doc_inv s'.
Proof.
  intros [Hc H1 Ho] (B & O & _ & C). split.
  - intros m Hm. rewrite B in Hm. destruct (Hc m Hm) as (c & Hl & E).
    destruct (C m c Hl) as (c' & Hl' & E'). exists c'. split; congruence.
  - rewrite B. exact H1.
  - rewrite B, O. exact Ho.
Qed.

Lemma quiet_preserves_inv {A} (m : M state A) : quiet m -> preserves doc_inv m.
Proof.
  intros Hq s H. eapply doc_inv_same; [exact H|]. apply Hq, doc_same_refl.
Qed.

Lemma doc_inv_init l : doc_inv (init_state l).
Proof. split; cbn; [intros m [] | lia | reflexivity]. Qed.

(** *** closeContextMenu *)

Lemma set_body_id s : set_body (st_body s) s = s.
Proof. destruct s; reflexivity. Qed.

Lemma filter_remove_first_length (f : nat -> bool) m l :
  (length (List.filter f (remove_first m l)) <= length (List.filter f l))%nat.
Proof.
  induction l as [|x l IH]; cbn; [lia|].
  destruct (Nat.eqb x m); cbn; destruct (f x); cbn; lia.
Qed.

(** The loop ends within its bound, and only the children of the body
    change. *)
Lemma sweep_total bound idx s :
  (length (getElementsByClassName menuClassName s) <= idx + bound)%nat ->
  exists b, sweep bound idx s = (Ok tt, set_body b s).
Proof.
  revert idx s. induction bound as [|bound IH]; intros idx s Hlen; cbn [sweep].
  - destruct (_ !! idx) as [m|] eqn:E.
    + apply lookup_lt_Some in E. lia.
    + exists (st_body s). rewrite set_body_id. reflexivity.
  - destruct (_ !! idx) as [m|] eqn:E.
    + destruct (IH (Datatypes.S idx) (removeChild m s)) as [b Hb].
      * pose proof (filter_remove_first_length
                      (fun m => match st_menus s !! m with
                                | Some c => String.eqb (menu_className c) menuClassName
                                | None => false
                                end) m (st_body s)) as Hle.
        unfold getElementsByClassName in *. cbn in *. lia.
      * exists b. rewrite Hb. reflexivity.
    + exists (st_body s). rewrite set_body_id. reflexivity.
Qed.

Lemma closeContextMenu_total s :
  exists b, closeContextMenu s
            = (Ok tt, set_isOpen false (set_body b (removeEventListeners s))).
Proof.
  unfold closeContextMenu.
  destruct (sweep_total (length (getElementsByClassName menuClassName s)) 0
                        (removeEventListeners s)) as [b Hb].
  { unfold getElementsByClassName. cbn. lia. }
  exists b. unfold mbind, M_bind, bind, modify. rewrite Hb. reflexivity.
Qed.

Lemma getElements_body s :
  (forall m, In m (st_body s) ->
             exists c, st_menus s !! m = Some c
                       /\ menu_className c = menuClassName) ->
  getElementsByClassName menuClassName s = st_body s.
Proof.
  unfold getElementsByClassName. induction (st_body s) as [|m l IH]; intros H.
  - reflexivity.
  - cbn [List.filter]. destruct (H m) as (c & -> & ->); [left; reflexivity|].
    rewrite String.eqb_refl. f_equal. apply IH. intros; apply H; right; auto.
Qed.

(** With at most one container in the document, closing empties the body. *)
Lemma closeContextMenu_inv s :
  doc_inv s ->
  closeContextMenu s
  = (Ok tt, set_isOpen false (set_body [] (removeEventListeners s))).
Proof.
  intros [Hc H1 _]. unfold closeContextMenu.
  rewrite (getElements_body s Hc).
  unfold mbind, M_bind, bind, modify.
  assert (Hg : getElementsByClassName menuClassName (removeEventListeners s)
               = st_body s) by (apply (getElements_body s Hc)).
  destruct (st_body s) as [|m [|m' l]] eqn:Eb; cbn in H1; [| |lia].
  - cbn [length sweep]. rewrite Hg. cbn.
    rewrite <- (set_body_id s) at 1. rewrite Eb. reflexivity.
  - cbn [length sweep]. rewrite Hg. cbn [lookup list_lookup].
    unfold getElementsByClassName, removeChild. cbn. rewrite Eb. cbn.
    rewrite Nat.eqb_refl. cbn. reflexivity.
Qed.

Lemma preserves_inv_closeContextMenu : preserves doc_inv closeContextMenu.
Proof.
  intros s H. rewrite (closeContextMenu_inv s H). cbn.
  split; cbn; [intros m [] | lia | reflexivity].
Qed.

(** *** createContextMenu and onContextMenu *)

Ltac inv_bind H :=
  let a := fresh "a" in
  let s := fresh "s" in
  let H1 := fresh H in
  apply bind_Ok in H; destruct H as (a & s & H1 & H).

(** A menu that was built is a new node of the menu class. *)
Lemma createContextMenu_Ok target s menu s' :
  createContextMenu target s = (Ok menu, s') ->
  menu = length (st_menus s)
  /\ exists c, st_menus s' !! menu = Some c
               /\ menu_className c = menuClassName.
Proof.
  intros H. unfold createContextMenu in H.
  inv_bind H. inv_bind H.
  injection H0 as <- <-. injection H1 as <- <-. cbn [st_menus set_frames].
  match type of H with
  | ?t ?s1 = _ =>
      assert (Hq : preserves (doc_same s1) t)
        by (repeat (pres_step; try apply quiet_build_row));
      specialize (Hq s1 (doc_same_refl s1)); rewrite H in Hq;
      destruct Hq as (_ & _ & _ & Hq)
  end.
  inv_bind H. inv_bind H. inv_bind H. inv_bind H.
  injection H as <- <-. split; [reflexivity|].
  cbn in Hq.
  destruct (Hq (length (st_menus s))
               (Container menuClassName "hidden" "inline-block" [] None None))
    as (c & Hc & Ec).
  - rewrite lookup_app_r by lia. rewrite Nat.sub_diag. reflexivity.
  - exists c. split; [exact Hc | exact Ec].
Qed.

Lemma onContextMenu_unfold e s :
  doc_inv s ->
  onContextMenu e s
  = if truthy (ctxMenu_of (ev_target e) s)
    then match createContextMenu (ev_target e) (closed_for e s) with
         | (Ok menu, s3) =>
             (Ok tt, setTimeout (Timer e menu)
                       (set_isOpen true (appendChild menu s3)))
         | (TypeError, s3) => (TypeError, s3)
         | (Stuck, s3) => (Stuck, s3)
         end
    else (Ok tt, closed_for e s).
Proof.
  intros Hs.
  assert (H1 : doc_inv (set_target (Some (ev_target e)) s))
    by (eapply doc_inv_same; [exact Hs | doc_untouched]).
  unfold onContextMenu.
  cbv [mbind M_bind bind modify read target_var ret mret M_ret].
  rewrite (closeContextMenu_inv _ H1).
  fold (closed_for e s).
  replace (st_target (closed_for e s)) with (Some (ev_target e))
    by reflexivity.
  cbv iota beta.
  replace (ctxMenu_of (ev_target e) (closed_for e s))
    with (ctxMenu_of (ev_target e) s) by reflexivity.
  destruct (truthy (ctxMenu_of (ev_target e) s)); [|reflexivity].
  destruct (createContextMenu (ev_target e) (closed_for e s)) as [[menu| |] s3];
    reflexivity.
Qed.

Lemma onContextMenu_inv e s :
  doc_inv s ->
  doc_inv (snd (onContextMenu e s))
  /\ (forall m, In m (st_body s) -> ~ In m (st_body (snd (onContextMenu e s))))
  /\ (fst (onContextMenu e s) = Ok tt ->
      truthy (ctxMenu_of (ev_target e) s) = true ->
      st_body (snd (onContextMenu e s)) = [length (st_menus s)]
      /\ st_isOpen (snd (onContextMenu e s)) = true).
Proof.
  intros Hs.
  assert (Hold : forall m, In m (st_body s) -> (m < length (st_menus s))%nat).
  { intros m Hm. destruct (inv_class s Hs m Hm) as (c & Hc & _).
    eapply lookup_lt_Some; eauto. }
  rewrite (onContextMenu_unfold e s Hs).
  set (s2 := closed_for e s).
  assert (H2 : doc_inv s2) by (split; cbn; [intros m [] | lia | reflexivity]).
  destruct (truthy (ctxMenu_of (ev_target e) s)) eqn:Et.
  - pose proof (quiet_createContextMenu (ev_target e) s2 s2 (doc_same_refl s2))
      as Hq.
    destruct (createContextMenu (ev_target e) s2) as [[menu| |] s3] eqn:Ec;
      cbn [snd fst] in *.
    + destruct (createContextMenu_Ok _ _ _ _ Ec) as (-> & c & Hc & Ecl).
      destruct Hq as (Bq & Oq & _ & _). cbn in Bq, Oq.
      cbn. rewrite Bq. cbn. repeat split.
      * cbn. rewrite Bq. cbn. intros m [<-|[]]. eauto.
      * cbn. rewrite Bq. cbn. lia.
      * cbn. rewrite Bq. reflexivity.
      * intros m Hm [<-|[]]. specialize (Hold _ Hm). lia.
    + split; [eapply doc_inv_same; eauto|]. split; [|discriminate].
      destruct Hq as (-> & _). cbn. auto.
    + split; [eapply doc_inv_same; eauto|]. split; [|discriminate].
      destruct Hq as (-> & _). cbn. auto.
  - cbn. split; [exact H2|]. split; [auto | discriminate].
Qed.

Lemma preserves_inv_onContextMenu e : preserves doc_inv (onContextMenu e).
Proof. intros s H. apply onContextMenu_inv, H. Qed.

Ltac inv_step :=
  lazymatch goal with
  | |- preserves doc_inv (on_heap _) => apply quiet_preserves_inv, quiet_on_heap
  | |- preserves doc_inv (onContextMenu _) => apply preserves_inv_onContextMenu
  | |- preserves doc_inv closeContextMenu => apply preserves_inv_closeContextMenu
  | |- preserves doc_inv (modify _) =>
      apply preserves_modify;
      let s := fresh "s" in
      let H := fresh "H" in
      intros s H; (eapply doc_inv_same; [exact H | doc_untouched])
  | |- _ => pres_step
  end.

Lemma preserves_inv_exec c : preserves doc_inv (exec c).
Proof.
  destruct c; cbn [exec].
  - repeat inv_step.
  - apply quiet_preserves_inv, quiet_attach.
  - unfold display. repeat inv_step. destruct e; repeat inv_step.
  - apply quiet_preserves_inv, quiet_setEnabledState.
  - apply quiet_preserves_inv, quiet_setEnabledState.
  - apply preserves_inv_closeContextMenu.
Qed.

Section EventsInvariant.
Variable callback_body : nat -> list command.

Lemma preserves_inv_call_function f target key item data :
  preserves doc_inv (call_function callback_body f target key item data).
Proof.
  unfold call_function. repeat inv_step.
  destruct a; repeat inv_step. apply preserves_inv_exec.
Qed.

Lemma preserves_inv_row_listener r fr :
  preserves doc_inv (row_listener callback_body r fr).
Proof.
  unfold row_listener. repeat inv_step.
  apply preserves_inv_call_function.
Qed.

Lemma doc_inv_step i s : doc_inv s -> doc_inv (step callback_body i s).
Proof.
  intros H. destruct i; cbn [step].
  - apply preserves_inv_exec, H.
  - destruct (existsb _ _); [apply preserves_inv_onContextMenu, H | exact H].
  - unfold click_row.
    set (s1 := match st_rows s !! r with Some _ => _ | None => _ end).
    assert (H1 : doc_inv s1).
    { subst s1. destruct (st_rows s !! r) as [x|]; [|exact H].
      destruct (row_click x); [|exact H].
      apply preserves_inv_row_listener, H. }
    destruct (_ && _); [apply preserves_inv_closeContextMenu, H1 | exact H1].
  - destruct (existsb _ _); [apply preserves_inv_closeContextMenu, H | exact H].
  - destruct (st_timers s) as [|t ts]; [exact H|].
    apply (quiet_preserves_inv _ (quiet_timer_callback t)).
    eapply doc_inv_same; [exact H | doc_untouched].
  - eapply doc_inv_same; [exact H | doc_untouched].
Qed.

Lemma doc_inv_run ins s : doc_inv s -> doc_inv (run callback_body ins s).
Proof.
  revert s. induction ins as [|i ins IH]; intros s H; cbn; [exact H|].
  apply IH, doc_inv_step, H.
Qed.

Lemma reachable_doc_inv s : reachable callback_body s -> doc_inv s.
Proof. intros (l & ins & ->). apply doc_inv_run, doc_inv_init. Qed.

End EventsInvariant.

(** ** The lifecycle *)

(** C3. In every reachable state the document holds at most one menu
    container.  Handling a trigger event removes every container that was
    in the document before anything new is added, and when the handler
    completes on an element that carries a menu, the one container then
    present is the one it has just created. *)
Theorem at_most_one_container callback_body s :
  reachable callback_body s ->
  (length (st_body s) <= 1)%nat
  /\ getElementsByClassName menuClassName s = st_body s
  /\ forall e,
       (forall m, In m (st_body s) ->
                  ~ In m (st_body (snd (onContextMenu e s))))
       /\ (length (st_body (snd (onContextMenu e s))) <= 1)%nat
       /\ (fst (onContextMenu e s) = Ok tt ->
           truthy (ctxMenu_of (ev_target e) s) = true ->
           st_body (snd (onContextMenu e s)) = [length (st_menus s)]).
Proof.
  intros Hr. pose proof (reachable_doc_inv _ _ Hr) as Hs.
  split; [apply (inv_one s Hs)|].
  split; [apply getElements_body, (inv_class s Hs)|].
  intros e. destruct (onContextMenu_inv e s Hs) as (Hi & Hold & Hnew).
  split; [exact Hold|]. split; [apply (inv_one _ Hi)|].
  intros Hok Ht. apply Hnew; assumption.
Qed.

Lemma at_most_one_container_witness :
  reachable no_callbacks sample_open
  /\ st_body sample_open = [0%nat]
  /\ st_body (snd (onContextMenu (Event 11 7 7) sample_open)) = [1%nat].
Proof.
  assert (Hr : reachable no_callbacks sample_open)
    by (exists sample_layout, sample_opening; reflexivity).
  split; [exact Hr|]. split; [vm_compute; reflexivity|].
  destruct (at_most_one_container no_callbacks sample_open Hr)
    as (_ & _ & H).
  destruct (H (Event 11 7 7)) as (_ & _ & Hnew).
  rewrite Hnew; vm_compute; reflexivity.
Defined.

Lemma filter_filter {A} (f : A -> bool) (l : list A) :
  List.filter f (List.filter f l) = List.filter f l.
Proof.
  induction l as [|x l IH]; cbn; [reflexivity|].
  destruct (f x) eqn:E; cbn; rewrite ?E, IH; reflexivity.
Qed.

(** C10. [close()] never throws and leaves the state Closed, so two calls in
    a row leave it Closed both times and [isOpen()] is false after the
    second.  In a reachable state that is already Closed the call changes
    nothing but the registration of the dismissal listeners on [window]
    (which it removes if a late timer had added them), and the second of two
    calls in a row changes nothing at all. *)
Theorem close_idempotent callback_body :
  (forall s, exists s1 s2,
      close s = (Ok tt, s1) /\ isOpen s1 = false
      /\ close s1 = (Ok tt, s2) /\ isOpen s2 = false)
  /\ (forall s, reachable callback_body s -> isOpen s = false ->
                close s = (Ok tt, removeEventListeners s))
  /\ (forall s, reachable callback_body s ->
                exists s1, close s = (Ok tt, s1) /\ close s1 = (Ok tt, s1)).
Proof.
  unfold close, isOpen. split; [|split].
  - intros s. destruct (closeContextMenu_total s) as [b Hb].
    destruct (closeContextMenu_total
                (set_isOpen false (set_body b (removeEventListeners s))))
      as [b' Hb'].
    eexists _, _. split; [exact Hb|]. split; [reflexivity|].
    split; [exact Hb' | reflexivity].
  - intros s Hr Hclosed. pose proof (reachable_doc_inv _ _ Hr) as Hs.
    rewrite (closeContextMenu_inv s Hs).
    pose proof (inv_open s Hs) as Ho. rewrite Hclosed in Ho.
    destruct s as [h cm ls o tg ms rs fs b w ts cs l]. cbn in *.
    destruct b; [|discriminate]. subst o. reflexivity.
  - intros s Hr. pose proof (reachable_doc_inv _ _ Hr) as Hs.
    eexists. split; [apply (closeContextMenu_inv s Hs)|].
    rewrite closeContextMenu_inv
      by (split; cbn; [intros m [] | lia | reflexivity]).
    unfold removeEventListeners at 1. cbn [st_window set_isOpen set_body
      removeEventListeners set_window].
    rewrite filter_filter. reflexivity.
Qed.

Lemma close_idempotent_witness :
  reachable no_callbacks sample_attached
  /\ isOpen sample_attached = false
  /\ close sample_attached = (Ok tt, sample_attached)
  /\ reachable no_callbacks sample_open
  /\ isOpen sample_open = true
  /\ exists s1, close sample_open = (Ok tt, s1) /\ close s1 = (Ok tt, s1).
Proof.
  assert (Ha : reachable no_callbacks sample_attached)
    by (exists sample_layout, sample_setup; reflexivity).
  assert (Ho : reachable no_callbacks sample_open)
    by (exists sample_layout, sample_opening; reflexivity).
  destruct (close_idempotent no_callbacks) as (_ & Hnoop & Htwice).
  split; [exact Ha|]. split; [vm_compute; reflexivity|].
  split; [rewrite (Hnoop _ Ha) by (vm_compute; reflexivity);
          vm_compute; reflexivity|].
  split; [exact Ho|]. split; [vm_compute; reflexivity|].
  exact (Htwice _ Ho).
Defined.

(** ** Reasoning about the heap *)

Lemma assoc_get_set_eq k v ps : assoc_get k (assoc_set k v ps) = Some v.
Proof.
  induction ps as [|[k' v'] ps IH]; cbn.
  - rewrite String.eqb_refl. reflexivity.
  - destruct (String.eqb k k') eqn:E; cbn; rewrite E; [reflexivity | exact IH].
Qed.

Lemma assoc_get_set_ne k k' v ps :
  k <> k' -> assoc_get k' (assoc_set k v ps) = assoc_get k' ps.
Proof.
  intros Hne. induction ps as [|[k0 v0] ps IH]; cbn.
  - destruct (String.eqb_spec k' k); [congruence | reflexivity].
  - destruct (String.eqb_spec k k0) as [->|Hk]; cbn.
    + destruct (String.eqb_spec k' k0); [congruence | reflexivity].
    + destruct (String.eqb k' k0); [reflexivity | exact IH].
Qed.

Lemma assoc_set_keys k v ps :
  is_Some (assoc_get k ps) -> map fst (assoc_set k v ps) = map fst ps.
Proof.
  induction ps as [|[k' v'] ps IH]; cbn; intros H.
  - destruct H as [x Hx]. discriminate.
  - destruct (String.eqb k k'); cbn; [reflexivity|]. f_equal. apply IH, H.
Qed.

Lemma assoc_get_elem k ps : k ∈ map fst ps -> is_Some (assoc_get k ps).
Proof.
  induction ps as [|[k' v'] ps IH]; cbn; intros H.
  - apply elem_of_nil in H. contradiction.
  - destruct (String.eqb_spec k k') as [->|Hne]; [eauto|].
    apply elem_of_cons in H. destruct H as [H|H]; [congruence | apply IH, H].
Qed.

Lemma assoc_get_Some_elem k v ps : assoc_get k ps = Some v -> k ∈ map fst ps.
Proof.
  induction ps as [|[k' v'] ps IH]; cbn; intros H; [discriminate|].
  destruct (String.eqb_spec k k') as [->|Hne]; [left|].
  right. apply IH, H.
Qed.

Lemma assoc_get_copy_keys k ks qs ps :
  assoc_get k (copy_keys ks qs ps)
  = if bool_decide (k ∈ ks) then Some (default VUndef (assoc_get k qs))
    else assoc_get k ps.
Proof.
  revert ps. induction ks as [|k0 ks IH]; intros ps.
  - reflexivity.
  - unfold copy_keys in *. cbn [fold_left]. rewrite IH.
    destruct (decide (k0 = k)) as [->|Hne].
    + rewrite (bool_decide_eq_true_2 (k ∈ k :: ks)) by left.
      rewrite assoc_get_set_eq. destruct (bool_decide (k ∈ ks)); reflexivity.
    + rewrite assoc_get_set_ne by exact Hne.
      destruct (decide (k ∈ ks)) as [Hi|Hi].
      * rewrite !bool_decide_eq_true_2 by (try right; exact Hi). reflexivity.
      * rewrite !bool_decide_eq_false_2; [reflexivity| |exact Hi].
        intros H. apply elem_of_cons in H. destruct H; congruence.
Qed.

(** A property of the merged object is the source's if the source has it. *)
Lemma assoc_get_merge k ps qs :
  assoc_get k (merge_props ps qs)
  = match assoc_get k qs with Some v => Some v | None => assoc_get k ps end.
Proof.
  unfold merge_props. rewrite assoc_get_copy_keys.
  destruct (assoc_get k qs) as [v|] eqn:E.
  - rewrite bool_decide_eq_true_2 by (eapply assoc_get_Some_elem; eauto).
    reflexivity.
  - rewrite bool_decide_eq_false_2; [reflexivity|].
    intros Hi. apply assoc_get_elem in Hi. rewrite E in Hi.
    destruct Hi; discriminate.
Qed.

Lemma own_props_insert_ne a o v h :
  v <> VObj a -> own_props v (<[a := o]> h) = own_props v h.
Proof.
  intros Hne. destruct v as [| | | | |r]; try reflexivity. cbn.
  rewrite list_lookup_insert_ne by congruence. reflexivity.
Qed.

Lemma get_prop_insert_ne a o v k h :
  v <> VObj a -> get_prop v k (<[a := o]> h) = get_prop v k h.
Proof.
  intros Hne. unfold get_prop. rewrite own_props_insert_ne by exact Hne.
  reflexivity.
Qed.

Lemma get_prop_own v k qs h :
  own_props v h = Ok qs -> v <> VUndef -> v <> VNull ->
  get_prop v k h = Ok (default VUndef (assoc_get k qs)).
Proof.
  intros H H1 H2. unfold get_prop. rewrite H. destruct v; congruence.
Qed.

Lemma own_props_null v qs h :
  own_props v h = Ok qs -> v = VUndef \/ v = VNull -> qs = [].
Proof. intros H [->| ->]; cbn in H; congruence. Qed.

Lemma bind_read {S A B} (f : S -> outcome A) (k : A -> M S B) s a :
  f s = Ok a -> (read f ≫= k) s = k a s.
Proof. intros H. unfold mbind, M_bind, bind, read. rewrite H. reflexivity. Qed.

Lemma bind_alloc {B} o (k : value -> M heap B) h :
  (alloc o ≫= k) h = k (VObj (length h)) (h ++ [o]).
Proof. reflexivity. Qed.

Lemma set_prop_obj a k x ps c h :
  h !! a = Some (Object ps c) ->
  set_prop (VObj a) k x h = (Ok tt, <[a := Object (assoc_set k x ps) c]> h).
Proof. intros H. unfold set_prop. rewrite H. reflexivity. Qed.

Lemma copy_loop a src qs c ks ps h :
  h !! a = Some (Object ps c) ->
  own_props src h = Ok qs ->
  src <> VObj a ->
  (ks <> [] -> src <> VUndef /\ src <> VNull) ->
  forEach (fun key => x ← read (get_prop src key); set_prop (VObj a) key x) ks h
  = (Ok tt, <[a := Object (copy_keys ks qs ps) c]> h).
Proof.
  revert ps h. induction ks as [|k ks IH]; intros ps h Ha Hs Hne Hnn.
  - cbn. rewrite list_insert_id by exact Ha. reflexivity.
  - destruct Hnn as [Hu Hn]; [discriminate|].
    cbn [forEach]. unfold mbind at 1, M_bind at 1, bind at 1.
    rewrite (bind_read _ _ _ _ (get_prop_own _ k _ _ Hs Hu Hn)).
    rewrite (set_prop_obj _ _ _ _ _ _ Ha).
    rewrite IH with (ps := assoc_set k (default VUndef (assoc_get k qs)) ps).
    + rewrite list_insert_insert_eq. reflexivity.
    + apply list_lookup_insert_eq. eapply lookup_lt_Some; eauto.
    + rewrite own_props_insert_ne by exact Hne. exact Hs.
    + exact Hne.
    + intros _. split; assumption.
Qed.

Lemma extend_source_obj a src qs ps c h :
  h !! a = Some (Object ps c) ->
  own_props src h = Ok qs ->
  src <> VObj a ->
  extend_source (VObj a) src h
  = (Ok tt, <[a := Object (merge_props ps qs) c]> h).
Proof.
  intros Ha Hs Hne. unfold extend_source.
  rewrite (bind_read _ _ _ _ Hs).
  apply copy_loop; auto.
  intros Hk. split; intros ->; cbn in Hs; injection Hs as <-; apply Hk;
    reflexivity.
Qed.

Lemma extend_one a src qs ps c h :
  h !! a = Some (Object ps c) ->
  own_props src h = Ok qs ->
  src <> VObj a ->
  extend (VObj a) [src] h
  = (Ok (VObj a), <[a := Object (merge_props ps qs) c]> h).
Proof.
  intros Ha Hs Hne. unfold extend. cbn [forEach].
  unfold mbind, M_bind, bind.
  rewrite (extend_source_obj _ _ _ _ _ _ Ha Hs Hne). reflexivity.
Qed.

Lemma extend_two a src1 src2 qs1 qs2 ps c h :
  h !! a = Some (Object ps c) ->
  own_props src1 h = Ok qs1 ->
  own_props src2 h = Ok qs2 ->
  src1 <> VObj a -> src2 <> VObj a ->
  extend (VObj a) [src1; src2] h
  = (Ok (VObj a),
     <[a := Object (merge_props (merge_props ps qs1) qs2) c]> h).
Proof.
  intros Ha H1 H2 N1 N2. unfold extend. cbn [forEach].
  unfold mbind, M_bind, bind.
  rewrite (extend_source_obj _ _ _ _ _ _ Ha H1 N1).
  rewrite (extend_source_obj a src2 qs2 (merge_props ps qs1) c).
  - rewrite list_insert_insert_eq. reflexivity.
  - apply list_lookup_insert_eq. eapply lookup_lt_Some; eauto.
  - rewrite own_props_insert_ne by exact N2. exact H2.
  - exact N2.
Qed.

(** *** normalizeMenu *)

Lemma valid_entry_own_props m h v :
  valid_entry m h v -> exists qs, own_props v h = Ok qs.
Proof.
  destruct v as [| | | | |r]; unfold valid_entry; intros Hv;
    try (eexists; reflexivity).
  destruct Hv as [Hr _]. destruct (lookup_lt_is_Some_2 h r Hr) as [o Ho].
  cbn [own_props isFunction]. rewrite Ho. eauto.
Qed.

Lemma valid_entry_isFunction m h v :
  valid_entry m h v -> exists b, isFunction v h = Ok b.
Proof.
  destruct v as [| | | | |r]; unfold valid_entry; intros Hv;
    try (eexists; reflexivity).
  destruct Hv as [Hr _]. destruct (lookup_lt_is_Some_2 h r Hr) as [o Ho].
  cbn [own_props isFunction]. rewrite Ho. eauto.
Qed.

Lemma own_props_agree m h h' v :
  agree_below (length h) m h h' -> valid_entry m h v ->
  own_props v h' = own_props v h.
Proof.
  intros Ha Hv. destruct v as [| | | | |r]; try reflexivity.
  destruct Hv as [Hr Hm]. cbn [own_props isFunction].
  rewrite (Ha r Hr Hm). reflexivity.
Qed.

Lemma isFunction_agree m h h' v :
  agree_below (length h) m h h' -> valid_entry m h v ->
  isFunction v h' = isFunction v h.
Proof.
  intros Ha Hv. destruct v as [| | | | |r]; try reflexivity.
  destruct Hv as [Hr Hm]. cbn [own_props isFunction].
  rewrite (Ha r Hr Hm). reflexivity.
Qed.

Lemma normalized_agree noop k m h h' v :
  agree_below (length h) m h h' -> valid_entry m h v ->
  normalized noop k v h' = normalized noop k v h.
Proof.
  intros Ha Hv. unfold normalized.
  rewrite (isFunction_agree m h h' v Ha Hv), (own_props_agree m h h' v Ha Hv).
  reflexivity.
Qed.

Lemma normalize_entry_spec m d noop mp mc k v h :
  h !! m = Some (Object mp mc) ->
  h !! d = Some (Object (itemDefaults noop) None) ->
  assoc_get k mp = Some v ->
  valid_entry m h v ->
  exists h',
    normalize_entry (VObj m) (VObj d) k h = (Ok tt, h')
    /\ (length h < length h')%nat
    /\ agree_below (length h) m h h'
    /\ h' !! m = Some (Object (assoc_set k (VObj (length h)) mp) mc)
    /\ h' !! length h = Some (Object (normalized noop k v h) None).
Proof.
  intros Hm Hd Hk Hv.
  pose proof (lookup_lt_Some _ _ _ Hm) as Lm.
  pose proof (lookup_lt_Some _ _ _ Hd) as Ld.
  set (a := length h).
  set (h1 := h ++ [Object [] None]).
  set (h2 := <[a := Object (itemDefaults noop) None]> h1).
  assert (L1 : length h1 = Datatypes.S a) by (subst h1; rewrite length_app; cbn; lia).
  assert (L2 : length h2 = Datatypes.S a) by (subst h2; rewrite length_insert; exact L1).
  assert (E1 : extend (VObj a) [VObj d] h1 = (Ok (VObj a), h2)).
  { rewrite (extend_one a (VObj d) (itemDefaults noop) [] None).
    - reflexivity.
    - subst h1 a. rewrite lookup_app_r by lia. rewrite Nat.sub_diag. reflexivity.
    - subst h1. cbn [own_props]. rewrite lookup_app_l by lia. rewrite Hd.
      reflexivity.
    - intros [=]. lia. }
  assert (Ha2 : h2 !! a = Some (Object (itemDefaults noop) None)).
  { subst h2. apply list_lookup_insert_eq. lia. }
  assert (Old2 : forall x, (x < a)%nat -> h2 !! x = h !! x).
  { intros x Hx. subst h2 h1. rewrite list_lookup_insert_ne by lia.
    apply lookup_app_l. exact Hx. }
  assert (G : get_prop (VObj m) k h2 = Ok v).
  { unfold get_prop, own_props. rewrite (Old2 m Lm), Hm. cbn [props].
    rewrite Hk. reflexivity. }
  unfold normalize_entry. rewrite bind_alloc. fold a h1.
  rewrite (bind_Ok_intro _ _ _ _ _ E1).
  rewrite (bind_read _ _ _ _ G).
  (* the three branches end alike *)
  assert (Fin : forall h3 item,
             (Datatypes.S a <= length h3)%nat ->
             (forall x, (x < a)%nat -> h3 !! x = h !! x) ->
             h3 !! a = Some (Object item None) ->
             exists h',
               set_prop (VObj m) k (VObj a) h3 = (Ok tt, h')
               /\ (a < length h')%nat
               /\ agree_below a m h h'
               /\ h' !! m = Some (Object (assoc_set k (VObj a) mp) mc)
               /\ h' !! a = Some (Object item None)).
  { intros h3 item L3 Old3 Ha3.
    assert (Hm3 : h3 !! m = Some (Object mp mc)) by (rewrite (Old3 m Lm); exact Hm).
    rewrite (set_prop_obj _ _ _ _ _ _ Hm3). eexists. split; [reflexivity|].
    split; [rewrite length_insert; lia|].
    split; [intros x Hx Hne; rewrite list_lookup_insert_ne by congruence;
            apply Old3, Hx|].
    split; [apply list_lookup_insert_eq; lia|].
    rewrite list_lookup_insert_ne by lia. exact Ha3. }
  unfold normalized.
  destruct (truthy v) eqn:Tv; cbn [negb].
  - destruct (valid_entry_isFunction m h v Hv) as [b Hb].
    assert (Hb2 : isFunction v h2 = Ok b).
    { destruct v as [| | | | |r]; try exact Hb. destruct Hv as [Hr _].
      cbn [isFunction] in *. rewrite (Old2 r Hr). exact Hb. }
    rewrite (bind_read _ _ _ _ Hb2). rewrite Hb. destruct b.
    + rewrite bind_alloc.
      set (src := Object [("label", VStr k); ("onSelect", v)] None).
      erewrite bind_Ok_intro; cycle 1.
      { apply (extend_one a (VObj (length h2)) (props src) (itemDefaults noop) None).
        - rewrite lookup_app_l by lia. exact Ha2.
        - cbn [own_props]. rewrite lookup_app_r by lia. rewrite Nat.sub_diag.
          reflexivity.
        - intros [=]. lia. }
      apply Fin.
      * rewrite length_insert, length_app. lia.
      * intros x Hx. rewrite list_lookup_insert_ne by lia.
        rewrite lookup_app_l by lia. apply Old2, Hx.
      * apply list_lookup_insert_eq. rewrite length_app. lia.
    + destruct (valid_entry_own_props m h v Hv) as [qs Hqs].
      assert (Hqs2 : own_props v h2 = Ok qs).
      { destruct v as [| | | | |r]; try exact Hqs. destruct Hv as [Hr _].
        cbn [own_props] in *. rewrite (Old2 r Hr). exact Hqs. }
      rewrite Hqs.
      erewrite bind_Ok_intro; cycle 1.
      { apply (extend_one a v qs (itemDefaults noop) None h2 Ha2 Hqs2).
        destruct v as [| | | | |r]; try discriminate.
        destruct Hv as [Hr _]. intros [=]. lia. }
      apply Fin.
      * rewrite length_insert. lia.
      * intros x Hx. rewrite list_lookup_insert_ne by lia. apply Old2, Hx.
      * apply list_lookup_insert_eq. lia.
  - rewrite bind_alloc.
    set (src := Object [("label", VStr k)] None).
    erewrite bind_Ok_intro; cycle 1.
    { apply (extend_one a (VObj (length h2)) (props src) (itemDefaults noop) None).
      - rewrite lookup_app_l by lia. exact Ha2.
      - cbn [own_props]. rewrite lookup_app_r by lia. rewrite Nat.sub_diag.
        reflexivity.
      - intros [=]. lia. }
    apply Fin.
    * rewrite length_insert, length_app. lia.
    * intros x Hx. rewrite list_lookup_insert_ne by lia.
      rewrite lookup_app_l by lia. apply Old2, Hx.
    * apply list_lookup_insert_eq. rewrite length_app. lia.
Qed.

Lemma valid_entry_mono m h h' v :
  (length h <= length h')%nat -> valid_entry m h v -> valid_entry m h' v.
Proof. destruct v; cbn; auto. intros L [H1 H2]. split; [lia | exact H2]. Qed.

Lemma normalize_loop m d noop mc ks :
  NoDup ks ->
  forall h mp,
    h !! m = Some (Object mp mc) ->
    h !! d = Some (Object (itemDefaults noop) None) ->
    d <> m ->
    (forall k, k ∈ ks ->
               exists v, assoc_get k mp = Some v /\ valid_entry m h v) ->
    exists h' mp',
      forEach (normalize_entry (VObj m) (VObj d)) ks h = (Ok tt, h')
      /\ (length h <= length h')%nat
      /\ agree_below (length h) m h h'
      /\ h' !! m = Some (Object mp' mc)
      /\ map fst mp' = map fst mp
      /\ (forall k, k ∉ ks -> assoc_get k mp' = assoc_get k mp)
      /\ (forall k v, k ∈ ks -> assoc_get k mp = Some v ->
            exists a, assoc_get k mp' = Some (VObj a)
                      /\ (length h <= a)%nat
                      /\ h' !! a = Some (Object (normalized noop k v h) None)).
Proof.
  intros Hnd. induction Hnd as [|k l Hk Hnd IH]; intros h mp Hm Hd Hdm Hent.
  - exists h, mp. split; [reflexivity|]. split; [lia|].
    split; [intros x Hx Hne; reflexivity|]. split; [exact Hm|].
    split; [reflexivity|]. split; [reflexivity|].
    intros k v Hin. apply elem_of_nil in Hin. contradiction.
  - destruct (Hent k) as (v & Hv & Hval); [left|].
    destruct (normalize_entry_spec m d noop mp mc k v h Hm Hd Hv Hval)
      as (h1 & E1 & L1 & A1 & Hm1 & Ha1).
    pose proof (lookup_lt_Some _ _ _ Hm) as Lm.
    pose proof (lookup_lt_Some _ _ _ Hd) as Ld.
    destruct (IH h1 (assoc_set k (VObj (length h)) mp)) as
      (h' & mp' & E' & L' & A' & Hm' & Keys' & Rest' & Done'); auto.
    { rewrite (A1 d Ld Hdm). exact Hd. }
    { intros k' Hin. destruct (Hent k') as (v' & Hv' & Hval'); [right; exact Hin|].
      exists v'. split.
      - rewrite assoc_get_set_ne; [exact Hv'|]. intros ->. contradiction.
      - eapply valid_entry_mono; [|exact Hval']. lia. }
    exists h', mp'. split.
    { cbn [forEach]. rewrite (bind_Ok_intro _ _ _ _ _ E1). exact E'. }
    split; [lia|]. split.
    { intros x Hx Hne. rewrite (A' x) by (auto; lia). apply A1; auto. }
    split; [exact Hm'|]. split.
    { rewrite Keys'. apply assoc_set_keys. rewrite Hv. eauto. }
    split.
    { intros k0 Hk0. rewrite Rest'.
      - apply assoc_get_set_ne. intros ->. apply Hk0. left.
      - intros Hin. apply Hk0. right. exact Hin. }
    intros k0 v0 Hin Hv0. apply elem_of_cons in Hin.
    destruct (decide (k0 = k)) as [->|Hne].
    + exists (length h). rewrite (Rest' k Hk), assoc_get_set_eq.
      split; [reflexivity|]. split; [lia|].
      rewrite (A' (length h)) by lia. rewrite Ha1. congruence.
    + destruct Hin as [->|Hin]; [congruence|].
      destruct (Done' k0 v0 Hin) as (a & Ga & La & Ha).
      { rewrite assoc_get_set_ne by congruence. exact Hv0. }
      exists a. split; [exact Ga|]. split; [lia|].
      rewrite Ha. f_equal. f_equal.
      apply (normalized_agree noop k0 m h h1 v0 A1).
      destruct (Hent k0) as (v' & Hv' & Hval'); [right; exact Hin|].
      congruence.
Qed.

(** What [normalizeMenu] does to a menu object: every entry is replaced by
    a new item object, nothing else that existed is touched. *)
Lemma normalizeMenu_spec m mp mc h :
  h !! m = Some (Object mp mc) ->
  NoDup (map fst mp) ->
  (forall k v, assoc_get k mp = Some v -> valid_entry m h v) ->
  exists h' mp',
    normalizeMenu (VObj m) h = (Ok (VObj m), h')
    /\ (length h + 2 <= length h')%nat
    /\ agree_below (length h) m h h'
    /\ h' !! length h = Some (Object [] (Some NoopFn))
    /\ h' !! m = Some (Object mp' mc)
    /\ map fst mp' = map fst mp
    /\ (forall k v, assoc_get k mp = Some v ->
          exists a, assoc_get k mp' = Some (VObj a)
                    /\ (length h + 2 <= a)%nat
                    /\ h' !! a
                       = Some (Object (normalized (VObj (length h)) k v h) None)).
Proof.
  intros Hm Hnd Hent.
  pose proof (lookup_lt_Some _ _ _ Hm) as Lm.
  set (n := length h).
  set (h2 := (h ++ [Object [] (Some NoopFn)])
               ++ [Object (itemDefaults (VObj n)) None]).
  assert (L2 : length h2 = (n + 2)%nat)
    by (subst h2; rewrite !length_app; cbn; lia).
  assert (Old : forall x, (x < n)%nat -> h2 !! x = h !! x).
  { intros x Hx. subst h2. rewrite lookup_app_l by (rewrite length_app; lia).
    apply lookup_app_l. exact Hx. }
  assert (A2 : agree_below n m h h2) by (intros x Hx _; apply Old, Hx).
  destruct (normalize_loop m (Datatypes.S n) (VObj n) mc (map fst mp) Hnd h2 mp)
    as (h' & mp' & E' & L' & A' & Hm' & Keys' & _ & Done').
  { rewrite (Old m Lm). exact Hm. }
  { subst h2. rewrite lookup_app_r by (rewrite length_app; cbn; lia).
    rewrite length_app. cbn [length].
    replace (Datatypes.S n - (length h + 1))%nat with 0%nat by lia.
    reflexivity. }
  { lia. }
  { intros k Hin. destruct (assoc_get_elem k mp Hin) as [v Hv].
    exists v. split; [exact Hv|].
    eapply valid_entry_mono; [|apply (Hent k v Hv)]. lia. }
  exists h', mp'. split.
  { unfold normalizeMenu. rewrite bind_alloc. rewrite bind_alloc.
    rewrite length_app. cbn [length]. fold n.
    replace (n + 1)%nat with (Datatypes.S n) by lia. fold h2.
    erewrite bind_read; cycle 1.
    { cbn [own_props]. rewrite (Old m Lm), Hm. reflexivity. }
    cbn [props]. rewrite (bind_Ok_intro _ _ _ _ _ E'). reflexivity. }
  split; [lia|]. split.
  { intros x Hx Hne. rewrite (A' x) by (auto; lia). apply Old, Hx. }
  split.
  { rewrite (A' n) by lia. subst h2.
    rewrite lookup_app_l by (rewrite length_app; cbn; lia).
    rewrite lookup_app_r by lia. rewrite Nat.sub_diag. reflexivity. }
  split; [exact Hm'|]. split; [exact Keys'|].
  intros k v Hv.
  destruct (Done' k v) as (a & Ga & La & Ha);
    [eapply assoc_get_Some_elem; eauto | exact Hv |].
  exists a. split; [exact Ga|]. split; [lia|].
  rewrite Ha. f_equal. f_equal.
  apply (normalized_agree (VObj n) k m h h2 v A2 (Hent k v Hv)).
Qed.

(** ** Normalization of entries *)

Lemma is_callable_agree m h h' mc mp mp' v :
  agree_below (length h) m h h' ->
  h !! m = Some (Object mp mc) -> h' !! m = Some (Object mp' mc) ->
  is_callable h v -> is_callable h' v.
Proof.
  intros A Hm Hm' (a & o & f & -> & Ho & Hf).
  destruct (decide (a = m)) as [->|Hne].
  - rewrite Hm in Ho. injection Ho as <-. cbn in Hf.
    exists m, (Object mp' mc), f. auto.
  - exists a, o, f. split; [reflexivity|]. split; [|exact Hf].
    rewrite (A a); [exact Ho | eapply lookup_lt_Some; eauto | exact Hne].
Qed.

(** A falsy entry [{Sep: null}] comes out of [normalizeMenu] enabled ... *)
Lemma falsy_entry_enabled :
  exists h',
    normalizeMenu (VObj 0) [Object [("Sep", VNull)] None] = (Ok (VObj 0), h')
    /\ get_prop (VObj 0) "Sep" h' = Ok (VObj 3)
    /\ get_prop (VObj 3) "enabled" h' = Ok (VBool true)
    /\ get_prop (VObj 3) "enabled" h' <> Ok (VBool false).
Proof.
  eexists. split; [vm_compute; reflexivity|].
  split; [reflexivity|]. split; [reflexivity | discriminate].
Qed.

(** C6, as the code has it.  A falsy entry of a menu definition is replaced
    by a new, fully populated item that has the default fields: it is
    enabled, its [onSelect] is the no-op function made by [normalizeMenu],
    its label is the entry's key and its title is empty. *)
Theorem falsy_entry_normalized h m mp mc k v :
  menu_object h m mp mc ->
  assoc_get k mp = Some v ->
  truthy v = false ->
  exists h' a noop,
    normalizeMenu (VObj m) h = (Ok (VObj m), h')
    /\ get_prop (VObj m) k h' = Ok (VObj a)
    /\ (length h <= a)%nat
    /\ h' !! a = Some (Object [("type", VStr "item"); ("enabled", VBool true);
                               ("label", VStr k); ("onSelect", VObj noop);
                               ("icon", VStr ""); ("title", VStr "")] None)
    /\ h' !! noop = Some (Object [] (Some NoopFn)).
Proof.
  intros (Hm & Hnd & Hent) Hk Hv.
  destruct (normalizeMenu_spec m mp mc h Hm Hnd Hent)
    as (h' & mp' & E & L & A & Hnoop & Hm' & Keys & Done).
  destruct (Done k v Hk) as (a & Ga & La & Ha).
  exists h', a, (length h). split; [exact E|].
  split; [unfold get_prop, own_props; rewrite Hm'; cbn [props]; rewrite Ga;
          reflexivity|].
  split; [lia|]. split; [|exact Hnoop].
  rewrite Ha. unfold normalized. rewrite Hv. reflexivity.
Qed.

Lemma falsy_entry_normalized_witness :
  menu_object [Object [("Sep", VNull)] None] 0 [("Sep", VNull)] None
  /\ exists h' a noop,
      normalizeMenu (VObj 0) [Object [("Sep", VNull)] None] = (Ok (VObj 0), h')
      /\ get_prop (VObj 0) "Sep" h' = Ok (VObj a)
      /\ (1 <= a)%nat
      /\ h' !! a = Some (Object [("type", VStr "item"); ("enabled", VBool true);
                                 ("label", VStr "Sep"); ("onSelect", VObj noop);
                                 ("icon", VStr ""); ("title", VStr "")] None)
      /\ h' !! noop = Some (Object [] (Some NoopFn)).
Proof.
  assert (H : menu_object [Object [("Sep", VNull)] None] 0 [("Sep", VNull)] None).
  { split; [reflexivity|]. split.
    - refine (bool_decide_unpack _ _). vm_compute. exact I.
    - intros k v Hk. cbn in Hk. destruct (String.eqb k "Sep"); [|discriminate].
      injection Hk as <-. exact I. }
  split; [exact H|].
  apply (falsy_entry_normalized _ 0%nat _ None "Sep" VNull H); reflexivity.
Defined.

(** An options record without a label, [{Open: {enabled: true}}], gets the
    empty string as its label, not its key. *)
Lemma record_label_empty :
  exists h',
    normalizeMenu (VObj 1) [Object [("enabled", VBool true)] None;
                            Object [("Open", VObj 0)] None]
    = (Ok (VObj 1), h')
    /\ get_prop (VObj 1) "Open" h' = Ok (VObj 4)
    /\ get_prop (VObj 4) "label" h' = Ok (VStr "")
    /\ get_prop (VObj 4) "label" h' <> Ok (VStr "Open").
Proof.
  eexists. split; [vm_compute; reflexivity|].
  split; [reflexivity|]. split; [reflexivity | discriminate].
Qed.

(** C7, as the code has it.  For a menu definition whose entries are falsy
    placeholders, callbacks or option records with fields of the documented
    types, [normalizeMenu] succeeds and replaces every entry by an item
    object that has all six fields.  A falsy entry gets the defaults with
    its key as label; a callback gets the defaults with its key as label and
    itself as [onSelect]; an option record keeps every property it has and
    gets the defaults for those it lacks, which are [enabled = true],
    [onSelect] the no-op, [title = ""] and [label = ""] (not the key).  In
    every case the label is a string, [enabled] is a boolean and [onSelect]
    is callable. *)
Theorem entries_normalized h m mp mc :
  menu_object h m mp mc ->
  (forall k v, assoc_get k mp = Some v -> entry_shape h v) ->
  exists h' noop,
    normalizeMenu (VObj m) h = (Ok (VObj m), h')
    /\ h' !! noop = Some (Object [] (Some NoopFn))
    /\ forall k v, assoc_get k mp = Some v ->
       exists a item,
         get_prop (VObj m) k h' = Ok (VObj a)
         /\ h' !! a = Some (Object item None)
         /\ (forall name, name ∈ item_fields -> is_Some (assoc_get name item))
         /\ (truthy v = false ->
             item = [("type", VStr "item"); ("enabled", VBool true);
                     ("label", VStr k); ("onSelect", VObj noop);
                     ("icon", VStr ""); ("title", VStr "")])
         /\ (truthy v = true -> isFunction v h = Ok true ->
             item = [("type", VStr "item"); ("enabled", VBool true);
                     ("label", VStr k); ("onSelect", v);
                     ("icon", VStr ""); ("title", VStr "")])
         /\ (forall qs, truthy v = true -> isFunction v h = Ok false ->
                        own_props v h = Ok qs ->
               forall name,
                 assoc_get name item
                 = match assoc_get name qs with
                   | Some x => Some x
                   | None => assoc_get name (itemDefaults (VObj noop))
                   end)
         /\ (exists s, assoc_get "label" item = Some (VStr s))
         /\ (exists b, assoc_get "enabled" item = Some (VBool b))
         /\ (exists f, assoc_get "onSelect" item = Some f /\ is_callable h' f).
Proof.
  intros (Hm & Hnd & Hent) Hshape.
  destruct (normalizeMenu_spec m mp mc h Hm Hnd Hent)
    as (h' & mp' & E & L & A & Hnoop & Hm' & Keys & Done).
  exists h', (length h). split; [exact E|]. split; [exact Hnoop|].
  intros k v Hk. destruct (Done k v Hk) as (a & Ga & La & Ha).
  exists a, (normalized (VObj (length h)) k v h).
  split; [unfold get_prop, own_props; rewrite Hm'; cbn [props]; rewrite Ga;
          reflexivity|].
  split; [exact Ha|].
  assert (Cnoop : is_callable h' (VObj (length h)))
    by (eexists _, _, _; split; [reflexivity|]; split; [exact Hnoop|];
        reflexivity).
  assert (Fields : forall qs name,
             name ∈ item_fields ->
             is_Some (assoc_get name
                        (merge_props (itemDefaults (VObj (length h))) qs))).
  { intros qs name Hin. rewrite assoc_get_merge.
    destruct (assoc_get name qs); [eauto|].
    apply assoc_get_elem. exact Hin. }
  unfold normalized. destruct (Hshape k v Hk) as [v Hv | r Hc Hf | r o Ho Hf Hl He Hs].
  - (* a falsy placeholder *)
    rewrite Hv. cbn [negb].
    split; [apply Fields|]. split; [reflexivity|].
    split; [intros Ht; congruence|].
    split; [intros qs Ht; congruence|].
    split; [exists k; reflexivity|]. split; [exists true; reflexivity|].
    eexists. split; [reflexivity | exact Cnoop].
  - (* a callback *)
    cbn [truthy negb]. rewrite Hf.
    split; [apply Fields|]. split; [discriminate|].
    split; [reflexivity|].
    split; [intros qs _ Hn; congruence|].
    split; [exists k; reflexivity|]. split; [exists true; reflexivity|].
    eexists. split; [reflexivity|].
    eapply is_callable_agree; eauto.
  - (* an options record *)
    cbn [truthy negb]. rewrite Hf. cbn [own_props]. rewrite Ho.
    split; [apply Fields|]. split; [discriminate|].
    split; [intros _ Hn; congruence|].
    split; [intros qs _ _ [= <-] name; apply assoc_get_merge|].
    rewrite !assoc_get_merge.
    split; [|split].
    + destruct (assoc_get "label" (props o)) as [x|] eqn:Ex.
      * destruct (Hl x eq_refl) as [s ->]. eauto.
      * exists "". reflexivity.
    + destruct (assoc_get "enabled" (props o)) as [x|] eqn:Ex.
      * destruct (He x eq_refl) as [b ->]. eauto.
      * exists true. reflexivity.
    + destruct (assoc_get "onSelect" (props o)) as [x|] eqn:Ex.
      * exists x. split; [reflexivity|].
        eapply is_callable_agree; eauto.
      * eexists. split; [reflexivity | exact Cnoop].
Qed.

Lemma entries_normalized_witness :
  let h := [Object [] (Some (UserFn 0));
            Object [("enabled", VBool false)] None;
            Object [("New", VObj 0); ("Open", VObj 1); ("Sep", VNull)] None] in
  menu_object h 2 [("New", VObj 0); ("Open", VObj 1); ("Sep", VNull)] None
  /\ (forall k v, assoc_get k [("New", VObj 0); ("Open", VObj 1); ("Sep", VNull)]
                  = Some v -> entry_shape h v)
  /\ exists h' noop,
      normalizeMenu (VObj 2) h = (Ok (VObj 2), h')
      /\ h' !! noop = Some (Object [] (Some NoopFn))
      /\ exists a item,
          get_prop (VObj 2) "Open" h' = Ok (VObj a)
          /\ h' !! a = Some (Object item None)
          /\ assoc_get "enabled" item = Some (VBool false)
          /\ assoc_get "label" item = Some (VStr "")
          /\ assoc_get "onSelect" item = Some (VObj noop).
Proof.
  intros h.
  assert (Hm : menu_object h 2
                 [("New", VObj 0); ("Open", VObj 1); ("Sep", VNull)] None).
  { split; [reflexivity|]. split.
    - refine (bool_decide_unpack _ _). vm_compute. exact I.
    - intros k v Hk. cbn in Hk.
      destruct (String.eqb k "New");
        [injection Hk as <-; unfold h; cbn; lia|].
      destruct (String.eqb k "Open");
        [injection Hk as <-; unfold h; cbn; lia|].
      destruct (String.eqb k "Sep"); [injection Hk as <-; exact I | discriminate]. }
  assert (Hs : forall k v,
             assoc_get k [("New", VObj 0); ("Open", VObj 1); ("Sep", VNull)]
             = Some v -> entry_shape h v).
  { intros k v Hk. cbn in Hk.
    destruct (String.eqb k "New").
    { injection Hk as <-. apply shape_callback; [|reflexivity].
      eexists _, _, _. split; [reflexivity|]. split; reflexivity. }
    destruct (String.eqb k "Open").
    { injection Hk as <-.
      apply (shape_record h 1%nat (Object [("enabled", VBool false)] None));
        try reflexivity; cbn; try discriminate.
      intros x Hx. injection Hx as <-. eauto. }
    destruct (String.eqb k "Sep"); [|discriminate].
    injection Hk as <-. apply shape_falsy. reflexivity. }
  split; [exact Hm|]. split; [exact Hs|].
  destruct (entries_normalized h 2%nat _ None Hm Hs)
    as (h' & noop & E & Hn & Hall).
  exists h', noop. split; [exact E|]. split; [exact Hn|].
  destruct (Hall "Open" (VObj 1) eq_refl)
    as (a & item & G & Ha & _ & _ & _ & Hrec & _).
  exists a, item. split; [exact G|]. split; [exact Ha|].
  pose proof (Hrec [("enabled", VBool false)] eq_refl eq_refl eq_refl) as Hr.
  split; [apply (Hr "enabled")|]. split; [apply (Hr "label") | apply (Hr "onSelect")].
Defined.

(** ** Sharing between elements, configurations and the caller's objects *)

(** Whatever the selector resolves to, one [attach] call leaves the same
    object on every element. *)
Lemma attach_loop_same obj elements :
  forall s s',
    forEach (fun el =>
               modify (set_element_ctxMenu el obj) ;;
               type ← read_heap (get_prop obj "event");
               modify (addEventListener el type)) elements s = (Ok tt, s') ->
    (forall el, el ∈ elements -> ctxMenu_of el s' = obj)
    /\ (forall el, ctxMenu_of el s = obj -> ctxMenu_of el s' = obj).
Proof.
  induction elements as [|x l IH]; intros s s' H.
  - injection H as <-. split; [|auto].
    intros el Hel. apply elem_of_nil in Hel. contradiction.
  - cbn [forEach] in H. apply bind_Ok in H. destruct H as ([] & s3 & Hbody & H).
    apply bind_Ok in Hbody. destruct Hbody as ([] & s1 & Hset & Hbody).
    apply bind_Ok in Hbody. destruct Hbody as (type & s2 & Hread & Hadd).
    injection Hset as <-. injection Hadd as <-.
    assert (s2 = set_element_ctxMenu x obj s) as ->.
    { unfold read_heap, read in Hread.
      destruct (get_prop obj "event" _); injection Hread as _ <-; reflexivity. }
    destruct (IH _ _ H) as (Hin & Hkeep).
    assert (Hx : forall el, el = x \/ ctxMenu_of el s = obj ->
                            ctxMenu_of el s' = obj).
    { intros el Hel. apply Hkeep.
      unfold ctxMenu_of, addEventListener, set_element_ctxMenu in *.
      destruct (existsb _ _); cbn [st_ctxMenu set_ctxMenu set_listeners];
        (destruct (decide (x = el)) as [->|Hne];
         [rewrite lookup_insert_eq; reflexivity
         |rewrite lookup_insert_ne by exact Hne; destruct Hel; congruence]). }
    split.
    + intros el Hel. apply elem_of_cons in Hel.
      destruct Hel as [->|Hel]; [apply Hx; left; reflexivity | apply Hin, Hel].
    + intros el Hel. apply Hx. right. exact Hel.
Qed.

Lemma on_heap_layout {A} (m : M heap A) s r s' :
  on_heap m s = (r, s') -> st_layout s' = st_layout s.
Proof.
  unfold on_heap. destruct (m (st_heap s)) as [r' h].
  intros [= _ <-]. reflexivity.
Qed.

(** X21. After one [attach] call that completed, any two elements the selector
    resolved to hold the same configuration object, whatever the selector,
    the menu and the options were. *)
Lemma attach_same_object sel menu options s s' el el' :
  attach sel menu options s = (Ok tt, s') ->
  el ∈ getElements sel s -> el' ∈ getElements sel s ->
  ctxMenu_of el s' = ctxMenu_of el' s'.
Proof.
  intros H Hel Hel'. unfold attach in H.
  apply bind_Ok in H. destruct H as (menu' & s1 & Hnorm & H).
  apply bind_Ok in H. destruct H as (obj & s2 & Hconf & H).
  apply bind_Ok in H. destruct H as (elements & s3 & Hget & H).
  injection Hget as <- <-.
  assert (Hs : getElements sel s2 = getElements sel s).
  { apply on_heap_layout in Hnorm, Hconf.
    unfold getElements. rewrite Hconf, Hnorm. reflexivity. }
  rewrite Hs in H.
  destruct (attach_loop_same _ _ _ _ H) as (Hin & _).
  rewrite (Hin el Hel), (Hin el' Hel'). reflexivity.
Qed.

(** C1 at [attach([e10, e11], {A: f, B: null})]: both elements hold the one
    object [obj], so disabling A through element 10 disables it on element
    11 as well. *)
Theorem attach_shares_config :
  ctxMenu_of 10 sample_attached = ctxMenu_of 11 sample_attached
  /\ item_enabled 11 "A" sample_attached = Ok (VBool true)
  /\ exists s',
      disable (SelElement 10) "A" sample_attached = (Ok tt, s')
      /\ item_enabled 10 "A" s' = Ok (VBool false)
      /\ item_enabled 11 "A" s' = Ok (VBool false).
Proof.
  split; [vm_compute; reflexivity|]. split; [vm_compute; reflexivity|].
  eexists. split; [vm_compute; reflexivity|].
  split; vm_compute; reflexivity.
Qed.

(** Two [attach] calls with the same source object, on the other hand, give
    configurations whose items are distinct objects. *)
Example two_attach_calls_independent :
  let s := run no_callbacks
               [Script (CNew (Object [] (Some (UserFn 0))));
                Script (CNew (Object [("A", VObj 3); ("B", VNull)] None));
                Script (CAttach (SelElement 10) (VObj 4) VUndef);
                Script (CAttach (SelElement 11) (VObj 4) VUndef);
                Script (CDisable (SelElement 10) "A")]
               (init_state sample_layout) in
  item_enabled 10 "A" s = Ok (VBool false)
  /\ item_enabled 11 "A" s = Ok (VBool true).
Proof. split; vm_compute; reflexivity. Qed.

(** C8 at [attach(e, menu)] with [menu = {A: f, B: null}] at address 4:
    [normalizeMenu] writes the new items into the caller's object, and the
    configuration stored on the element shares them, so a later [disable]
    shows through the caller's object.  [display] normalizes a copy and
    leaves the caller's object as it was. *)
Theorem attach_mutates_source :
  let s0 := run no_callbacks
                [Script (CNew (Object [] (Some (UserFn 0))));
                 Script (CNew (Object [("A", VObj 3); ("B", VNull)] None))]
                (init_state sample_layout) in
  own_props (VObj 4) (st_heap s0) = Ok [("A", VObj 3); ("B", VNull)]
  /\ (exists s1 s2,
        attach (SelElement 10) (VObj 4) VUndef s0 = (Ok tt, s1)
        /\ own_props (VObj 4) (st_heap s1) = Ok [("A", VObj 7); ("B", VObj 9)]
        /\ get_prop (VObj 7) "enabled" (st_heap s1) = Ok (VBool true)
        /\ disable (SelElement 10) "A" s1 = (Ok tt, s2)
        /\ get_prop (VObj 7) "enabled" (st_heap s2) = Ok (VBool false))
  /\ (exists s1,
        display (DElement 10) (VObj 4) VUndef s0 = (Ok tt, s1)
        /\ own_props (VObj 4) (st_heap s1) = Ok [("A", VObj 3); ("B", VNull)]).
Proof.
  split; [vm_compute; reflexivity|]. split.
  - eexists _, _. split; [vm_compute; reflexivity|].
    split; [vm_compute; reflexivity|]. split; [vm_compute; reflexivity|].
    split; vm_compute; reflexivity.
  - eexists. split; vm_compute; reflexivity.
Qed.

(** C2 at the open menu of [{A: f, B: null}]: rows 0 (A) and 1 (B) are both
    enabled.  A click on row 0 calls [f] once, with the trigger element, the
    key "A" and the data, and closes the menu; but the item it passes is
    row 1, the last row built, because every listener reads the same
    [var item]. *)
Theorem selection_passes_last_row :
  (exists r0 r1,
      st_rows sample_open !! 0%nat = Some r0 /\ row_click r0 = Some 0%nat
      /\ st_rows sample_open !! 1%nat = Some r1 /\ row_click r1 = Some 0%nat)
  /\ isOpen sample_open = true
  /\ st_calls sample_open = []
  /\ st_calls (click_row no_callbacks 0 sample_open)
     = [Call (VObj 3) 10 "A" (Some 1%nat) (VObj 0)]
  /\ isOpen (click_row no_callbacks 0 sample_open) = false
  /\ st_body (click_row no_callbacks 0 sample_open) = [].
Proof.
  split; [eexists _, _; split_and!; vm_compute; reflexivity|].
  split_and!; vm_compute; reflexivity.
Qed.

(** [display(element, menu)] without options: the deferred callback puts the
    menu below the element, at (100, 70), not at the synthesized pointer
    position (100, 50). *)
Lemma display_default_is_bottom :
  let s := run no_callbacks
               [Script (CNew (Object [] (Some (UserFn 0))));
                Script (CNew (Object [("A", VObj 3); ("B", VNull)] None));
                Script (CDisplay (DElement 7) (VObj 4) VUndef);
                Tick]
               (init_state sample_layout) in
  (exists c, st_menus s !! 0%nat = Some c
             /\ menu_left c = Some 100 /\ menu_top c = Some 70)
  /\ place (VStr "click") (Event 7 100 50) (Rect 100 50 80 20) (Rect 0 0 60 40)
           0 0 1000 800 = (100, 50)
  /\ place (VStr "bottom") (Event 7 100 50) (Rect 100 50 80 20) (Rect 0 0 60 40)
           0 0 1000 800 = (100, 70).
Proof.
  split; [eexists; split_and!; vm_compute; reflexivity|].
  split; vm_compute; reflexivity.
Qed.

(** ** [display] on an element *)

Lemma assoc_set_new_key k v ps :
  assoc_get k ps = None -> map fst (assoc_set k v ps) = map fst ps ++ [k].
Proof.
  induction ps as [|[k' v'] ps IH]; cbn; intros H; [reflexivity|].
  destruct (String.eqb k k'); [discriminate|]. cbn. f_equal. apply IH, H.
Qed.

Lemma assoc_get_not_elem k ps : k ∉ map fst ps -> assoc_get k ps = None.
Proof.
  intros H. destruct (assoc_get k ps) as [v|] eqn:E; [|reflexivity].
  exfalso. apply H. eapply assoc_get_Some_elem; eauto.
Qed.

Lemma copy_keys_new_keys ks qs :
  NoDup ks ->
  forall ps, (forall k, k ∈ ks -> k ∉ map fst ps) ->
             map fst (copy_keys ks qs ps) = map fst ps ++ ks.
Proof.
  intros Hnd. induction Hnd as [|k l Hk Hnd IH]; intros ps Hfresh.
  - cbn. rewrite app_nil_r. reflexivity.
  - unfold copy_keys in *. cbn [fold_left]. rewrite IH.
    + rewrite assoc_set_new_key
        by (apply assoc_get_not_elem, Hfresh; left).
      rewrite <- app_assoc. reflexivity.
    + intros k' Hin.
      rewrite assoc_set_new_key by (apply assoc_get_not_elem, Hfresh; left).
      rewrite elem_of_app, list_elem_of_singleton.
      intros [H| ->]; [|contradiction].
      revert H. apply Hfresh. right. exact Hin.
Qed.

(** A shallow copy has the keys and the values of its source. *)
Lemma merge_empty_keys qs :
  NoDup (map fst qs) -> map fst (merge_props [] qs) = map fst qs.
Proof.
  intros H. unfold merge_props. rewrite copy_keys_new_keys; [reflexivity|exact H|].
  intros k _. apply not_elem_of_nil.
Qed.

Lemma merge_empty_get k qs : assoc_get k (merge_props [] qs) = assoc_get k qs.
Proof. rewrite assoc_get_merge. destruct (assoc_get k qs); reflexivity. Qed.

Lemma isFunction_Ok h v : exists_obj h v -> exists b, isFunction v h = Ok b.
Proof.
  destruct v as [| | | | |a]; cbn [exists_obj isFunction]; eauto.
  intros [o ->]. eauto.
Qed.

Lemma is_callable_exists h v : is_callable h v -> exists_obj h v.
Proof. intros (a & o & f & -> & Ho & _). cbn. eauto. Qed.

Lemma extends_refl h : extends h h.
Proof. intros x o H. exact H. Qed.

Lemma extends_trans h1 h2 h3 : extends h1 h2 -> extends h2 h3 -> extends h1 h3.
Proof. intros H1 H2 x o H. apply H2, H1, H. Qed.

Lemma extends_app h l : extends h (h ++ l).
Proof. intros x o H. rewrite lookup_app_l by (eapply lookup_lt_Some; eauto). exact H. Qed.

Lemma exists_obj_extends h h' v : extends h h' -> exists_obj h v -> exists_obj h' v.
Proof.
  intros He. destruct v; cbn; auto. intros [o Ho]. exists o. apply He, Ho.
Qed.

Lemma items_ready_extends h h' items :
  extends h h' -> items_ready h items -> items_ready h' items.
Proof.
  intros He Hr k v Hk. destruct (Hr k v Hk) as (a & item & -> & Ha & Hs).
  exists a, item. split; [reflexivity|]. split; [apply He, Ha|].
  intros x Hx. eapply exists_obj_extends; eauto.
Qed.

Lemma normalized_onSelect noop k v h x :
  entry_shape h v ->
  assoc_get "onSelect" (normalized noop k v h) = Some x ->
  x = noop \/ exists_obj h x.
Proof.
  intros Hs. unfold normalized.
  destruct Hs as [v Hv | r Hc Hf | r o Ho Hf Hl He Hsel].
  - rewrite Hv. cbn. intros [= <-]. left. reflexivity.
  - cbn [truthy negb]. rewrite Hf. cbn. intros [= <-].
    right. apply is_callable_exists, Hc.
  - cbn [truthy negb]. rewrite Hf. cbn [own_props]. rewrite Ho.
    rewrite assoc_get_merge.
    destruct (assoc_get "onSelect" (props o)) as [y|] eqn:E.
    + intros [= <-]. right. apply is_callable_exists, Hsel. reflexivity.
    + cbn. intros [= <-]. left. reflexivity.
Qed.

(** [normalizeMenu(extend({}, menu))]: the caller's heap is left as it is,
    and the result is a new menu object whose items are ready. *)
Lemma normalize_copy h m mp mc :
  menu_object h m mp mc ->
  (forall k v, assoc_get k mp = Some v -> entry_shape h v) ->
  exists h' items,
    (empty ← alloc (Object [] None);
     copy ← extend empty [VObj m];
     normalizeMenu copy) h = (Ok (VObj (length h)), h')
    /\ extends h h'
    /\ h' !! length h = Some (Object items None)
    /\ NoDup (map fst items)
    /\ items_ready h' items.
Proof.
  intros (Hm & Hnd & Hent) Hshape.
  pose proof (lookup_lt_Some _ _ _ Hm) as Lm.
  set (c := length h).
  set (h1 := h ++ [Object [] None]).
  set (h2 := <[c := Object (merge_props [] mp) None]> h1).
  assert (E1 : extend (VObj c) [VObj m] h1 = (Ok (VObj c), h2)).
  { apply extend_one.
    - subst h1 c. rewrite lookup_app_r by lia. rewrite Nat.sub_diag. reflexivity.
    - cbn [own_props]. subst h1. rewrite lookup_app_l by lia. rewrite Hm.
      reflexivity.
    - intros [=]. lia. }
  assert (L2 : length h2 = Datatypes.S c)
    by (subst h2 h1; rewrite length_insert, length_app; cbn; lia).
  assert (Old2 : forall x, (x < c)%nat -> h2 !! x = h !! x).
  { intros x Hx. subst h2 h1. rewrite list_lookup_insert_ne by lia.
    apply lookup_app_l. exact Hx. }
  assert (Hc2 : h2 !! c = Some (Object (merge_props [] mp) None)).
  { subst h2 h1. apply list_lookup_insert_eq. rewrite length_app. cbn. lia. }
  destruct (normalizeMenu_spec c (merge_props [] mp) None h2 Hc2)
    as (h' & mp' & E & L & A & Hnoop & Hc' & Keys & Done).
  { rewrite merge_empty_keys by exact Hnd. exact Hnd. }
  { intros k v Hk. rewrite merge_empty_get in Hk.
    specialize (Hent k v Hk). destruct v; cbn in *; auto. lia. }
  assert (Ext : extends h h').
  { intros x o Hx. pose proof (lookup_lt_Some _ _ _ Hx) as Lx.
    rewrite (A x) by (fold c; lia). rewrite (Old2 x Lx). exact Hx. }
  exists h', mp'. split.
  { rewrite bind_alloc. fold c h1. rewrite (bind_Ok_intro _ _ _ _ _ E1).
    exact E. }
  split; [exact Ext|]. split; [exact Hc'|]. split.
  { rewrite Keys, merge_empty_keys by exact Hnd. exact Hnd. }
  intros k v' Hk'.
  destruct (assoc_get_elem k (merge_props [] mp)) as [v Hv].
  { rewrite <- Keys. eapply assoc_get_Some_elem; eauto. }
  destruct (Done k v Hv) as (a & Ga & La & Ha).
  rewrite Ga in Hk'. injection Hk' as <-.
  exists a, (Object (normalized (VObj (length h2)) k v h2) None).
  split; [reflexivity|]. split; [exact Ha|].
  cbn [props]. intros x Hx.
  rewrite merge_empty_get in Hv.
  assert (Hs2 : entry_shape h2 v).
  { assert (E2 : extends h h2).
    { intros y o Hy. rewrite (Old2 y) by (eapply lookup_lt_Some; eauto).
      exact Hy. }
    assert (C2 : forall w, is_callable h w -> is_callable h2 w).
    { intros w (b & o & f & -> & Ho & Hf). exists b, o, f. auto. }
    destruct (Hshape k v Hv) as [v Hfalsy | r Hc Hf | r o Ho Hf Hl He Hsel].
    - apply shape_falsy, Hfalsy.
    - apply shape_callback; [apply C2, Hc|].
      destruct Hc as (b & o & f & [= <-] & Ho & _).
      cbn [isFunction] in *. rewrite (E2 _ _ Ho). rewrite Ho in Hf. exact Hf.
    - apply (shape_record h2 r o); auto.
      cbn [isFunction] in *. rewrite (E2 _ _ Ho). rewrite Ho in Hf. exact Hf. }
  destruct (normalized_onSelect _ _ _ _ _ Hs2 Hx) as [->|X2].
  - cbn. rewrite Hnoop. eauto.
  - destruct x as [| | | | |y]; cbn in *; auto.
    destruct (decide (y = c)) as [->|Hne]; [rewrite Hc'; eauto|].
    rewrite (A y); [exact X2 | | exact Hne].
    destruct X2 as [o Ho]. eapply lookup_lt_Some; eauto.
Qed.

Lemma own_props_extends h h' v ps :
  extends h h' -> own_props v h = Ok ps -> own_props v h' = Ok ps.
Proof.
  intros He. destruct v as [| | | | |a]; cbn [own_props]; auto.
  destruct (h !! a) as [o|] eqn:E; [|discriminate].
  rewrite (He _ _ E). auto.
Qed.

Lemma own_props_below h a ps :
  own_props (VObj a) h = Ok ps -> (a < length h)%nat.
Proof.
  cbn [own_props]. destruct (h !! a) as [o|] eqn:E; [|discriminate].
  intros _. eapply lookup_lt_Some; eauto.
Qed.

(** [extend({menu: extend({}, menu)}, conf, options)] *)
Lemma make_config_spec h c items options op :
  h !! 1%nat = Some conf_object ->
  h !! c = Some (Object items None) ->
  own_props options h = Ok op ->
  exists h',
    make_config (VObj c) options h = (Ok (VObj (Datatypes.S (length h))), h')
    /\ extends h h'
    /\ h' !! length h = Some (Object (merge_props [] items) None)
    /\ h' !! Datatypes.S (length h)
       = Some (Object (merge_props
                         (merge_props [("menu", VObj (length h))]
                                      (props conf_object)) op) None).
Proof.
  intros Hconf Hc Hop.
  pose proof (lookup_lt_Some _ _ _ Hconf) as Lconf.
  pose proof (lookup_lt_Some _ _ _ Hc) as Lc.
  set (n := length h).
  set (h1 := h ++ [Object [] None]).
  set (h2 := <[n := Object (merge_props [] items) None]> h1).
  set (h3 := h2 ++ [Object [("menu", VObj n)] None]).
  set (cfg := merge_props (merge_props [("menu", VObj n)] (props conf_object)) op).
  assert (L1 : length h1 = Datatypes.S n) by (subst h1; rewrite length_app; cbn; lia).
  assert (L2 : length h2 = Datatypes.S n) by (subst h2; rewrite length_insert; exact L1).
  assert (X1 : extends h h1) by apply extends_app.
  assert (X2 : extends h h2).
  { intros x o Hx. subst h2. pose proof (lookup_lt_Some _ _ _ Hx).
    rewrite list_lookup_insert_ne by (fold n in H; lia). apply X1, Hx. }
  assert (X3 : extends h h3) by (eapply extends_trans; [exact X2 | apply extends_app]).
  assert (E1 : extend (VObj n) [VObj c] h1 = (Ok (VObj n), h2)).
  { apply extend_one.
    - subst h1 n. rewrite lookup_app_r by lia. rewrite Nat.sub_diag. reflexivity.
    - cbn [own_props]. rewrite (X1 _ _ Hc). reflexivity.
    - intros [=]. lia. }
  assert (E2 : extend (VObj (Datatypes.S n)) [conf; options] h3
               = (Ok (VObj (Datatypes.S n)),
                  <[Datatypes.S n := Object cfg None]> h3)).
  { apply extend_two.
    - subst h3. rewrite lookup_app_r by lia. rewrite L2, Nat.sub_diag. reflexivity.
    - unfold conf. cbn [own_props]. rewrite (X3 _ _ Hconf). reflexivity.
    - eapply own_props_extends; eauto.
    - unfold conf. intros [=]. lia.
    - intros ->. apply own_props_below in Hop. fold n in Hop. lia. }
  eexists. split.
  { unfold make_config. rewrite bind_alloc. fold n h1.
    rewrite (bind_Ok_intro _ _ _ _ _ E1). rewrite bind_alloc. rewrite L2.
    fold h3. exact E2. }
  split.
  { intros x o Hx. pose proof (lookup_lt_Some _ _ _ Hx).
    rewrite list_lookup_insert_ne by (fold n in H; lia). apply X3, Hx. }
  split.
  - rewrite list_lookup_insert_ne by lia. subst h3.
    rewrite lookup_app_l by lia. subst h2. apply list_lookup_insert_eq. lia.
  - apply list_lookup_insert_eq. subst h3. rewrite length_app. cbn. lia.
Qed.

(** *** Building the rows *)

Lemma nodes_only_refl s : nodes_only s s.
Proof. repeat split. Qed.

Lemma nodes_only_trans s1 s2 s3 :
  nodes_only s1 s2 -> nodes_only s2 s3 -> nodes_only s1 s3.
Proof.
  unfold nodes_only. intros (A1 & A2 & A3 & A4 & A5 & A6 & A7)
                            (B1 & B2 & B3 & B4 & B5 & B6 & B7).
  split_and!; congruence.
Qed.

Lemma build_row_Ok target fr menu key s cfg cp defn a item :
  ctxMenu_of target s = VObj cfg ->
  st_heap s !! cfg = Some cp ->
  assoc_get "menu" (props cp) = Some (VObj defn) ->
  get_prop (VObj defn) key (st_heap s) = Ok (VObj a) ->
  st_heap s !! a = Some item ->
  (forall x, assoc_get "onSelect" (props item) = Some x ->
             exists_obj (st_heap s) x) ->
  exists s', build_row target fr menu key s = (Ok tt, s') /\ nodes_only s s'.
Proof.
  intros Hcfg Hcp Hmenu Hval Hitem Hsel.
  assert (G : forall name,
             get_prop (VObj a) name (st_heap s)
             = Ok (default VUndef (assoc_get name (props item)))).
  { intros name. unfold get_prop, own_props. rewrite Hitem. reflexivity. }
  assert (Gm : get_prop (VObj cfg) "menu" (st_heap s) = Ok (VObj defn)).
  { unfold get_prop, own_props. rewrite Hcp, Hmenu. reflexivity. }
  unfold build_row, read_heap.
  rewrite (bind_read _ _ s (VObj cfg)) by (rewrite Hcfg; reflexivity).
  rewrite (bind_read _ _ s _ Gm).
  rewrite (bind_read _ _ s _ Hval).
  rewrite (bind_read _ _ s _ (G "enabled")).
  cbn [truthy].
  set (en := truthy (default VUndef (assoc_get "enabled" (props item)))).
  assert (Hh : exists handler,
             forall (B : Type) (k : value -> M state B),
               ((if en
                 then sel ← read (fun s0 => get_prop (VObj a) "onSelect" (st_heap s0));
                      isf ← read (fun s0 => isFunction sel (st_heap s0));
                      ret (if isf : bool then sel else onSelect)
                 else ret VUndef) ≫= k) s = k handler s).
  { destruct en.
    - destruct (isFunction_Ok (st_heap s)
                  (default VUndef (assoc_get "onSelect" (props item))))
        as [b Hb].
      { destruct (assoc_get "onSelect" (props item)) as [x|] eqn:E;
          [apply Hsel; reflexivity | exact I]. }
      eexists. intros B k.
      unfold mbind, M_bind, bind, read, ret. rewrite (G "onSelect"), Hb.
      reflexivity.
    - eexists. intros B k. reflexivity. }
  destruct Hh as [handler Hh].
  unfold mbind at 1, M_bind at 1, bind at 1.
  unfold mbind at 1, M_bind at 1, bind at 1. unfold read at 1.
  rewrite (G "label"). cbn [ret].
  rewrite Hh.
  rewrite (bind_read _ _ s _ (G "title")).
  unfold mbind, M_bind, bind, new_row, modify.
  eexists. split; [reflexivity|].
  unfold nodes_only, appendRow, assign_item. cbn.
  destruct (st_frames s !! fr); cbn;
    destruct (st_menus s !! menu); cbn; split_and!; reflexivity.
Qed.

Lemma build_rows_Ok target fr menu cfg cp defn items dc keys :
  assoc_get "menu" (props cp) = Some (VObj defn) ->
  (forall k, k ∈ keys -> k ∈ map fst items) ->
  forall s,
    ctxMenu_of target s = VObj cfg ->
    st_heap s !! cfg = Some cp ->
    st_heap s !! defn = Some (Object items dc) ->
    items_ready (st_heap s) items ->
    exists s', forEach (build_row target fr menu) keys s = (Ok tt, s')
               /\ nodes_only s s'.
Proof.
  intros Hmenu. induction keys as [|k keys IH]; intros Hin s Hcfg Hcp Hdefn Hready.
  - exists s. split; [reflexivity | apply nodes_only_refl].
  - destruct (assoc_get_elem k items) as [v Hv]; [apply Hin; left|].
    destruct (Hready k v Hv) as (a & item & -> & Ha & Hsel).
    destruct (build_row_Ok target fr menu k s cfg cp defn a item)
      as (s1 & E1 & N1); auto.
    { unfold get_prop, own_props. rewrite Hdefn. cbn [props]. rewrite Hv.
      reflexivity. }
    pose proof N1 as (Nh & Nc & _).
    destruct (IH (fun k' H => Hin k' (list_elem_of_further _ _ _ H)) s1)
      as (s2 & E2 & N2).
    + unfold ctxMenu_of in *. rewrite Nc. exact Hcfg.
    + rewrite Nh. exact Hcp.
    + rewrite Nh. exact Hdefn.
    + rewrite Nh. exact Hready.
    + exists s2. split; [|eapply nodes_only_trans; eauto].
      cbn [forEach]. rewrite (bind_Ok_intro _ _ _ _ _ E1). exact E2.
Qed.

(** On an element whose configuration holds a normalized menu, the menu is
    built without an exception. *)
Lemma createContextMenu_total target s cfg cp defn items dc :
  ctxMenu_of target s = VObj cfg ->
  st_heap s !! cfg = Some cp ->
  assoc_get "menu" (props cp) = Some (VObj defn) ->
  st_heap s !! defn = Some (Object items dc) ->
  items_ready (st_heap s) items ->
  exists s', createContextMenu target s = (Ok (length (st_menus s)), s')
             /\ nodes_only s s'.
Proof.
  intros Hcfg Hcp Hmenu Hdefn Hready.
  set (s1 := set_menus (st_menus s ++ [Container menuClassName "hidden"
                                         "inline-block" [] None None])
                       (set_frames (st_frames s ++ [Frame target None]) s)).
  destruct (build_rows_Ok target (length (st_frames s)) (length (st_menus s))
              cfg cp defn items dc (map fst items) Hmenu (fun k H => H) s1)
    as (s2 & E2 & N2); auto.
  exists s2. split; [|exact N2].
  unfold createContextMenu, read_heap.
  unfold mbind at 1, M_bind at 1, bind at 1. unfold new_frame at 1.
  unfold mbind at 1, M_bind at 1, bind at 1. unfold new_container at 1.
  cbn [st_menus set_frames]. fold s1.
  rewrite (bind_read _ _ s1 (VObj cfg)) by (f_equal; exact Hcfg).
  assert (Hh1 : st_heap s1 = st_heap s) by reflexivity.
  rewrite (bind_read _ _ s1 (VObj defn))
    by (rewrite Hh1; unfold get_prop, own_props; rewrite Hcp, Hmenu;
        reflexivity).
  rewrite (bind_read _ _ s1 items)
    by (rewrite Hh1; unfold own_props; rewrite Hdefn; reflexivity).
  rewrite (bind_Ok_intro _ _ _ _ _ E2). reflexivity.
Qed.

Lemma on_heap_Ok {A} (m : M heap A) s a h' :
  m (st_heap s) = (Ok a, h') -> on_heap m s = (Ok a, set_heap h' s).
Proof. intros H. unfold on_heap. rewrite H. reflexivity. Qed.

(** C9, as the code has it.  Given an element, a well-formed menu definition
    and options without a [menu] key whose offsets, when given, are numbers,
    [display] succeeds, synthesizes the event whose coordinates are the
    top-left corner of the element's bounding box, opens the menu and
    schedules its positioning; the deferred callback then writes the
    position [place] computes for that event and for the anchor mode of the
    configuration, which is the [position] of the options when they have
    one and the "bottom" of [conf] when they have none.  So without a
    [position] in the options the menu goes below the element, at (box.left
    + horizontalOffset, box.bottom + verticalOffset) before clamping; with
    one of the four anchor modes the position does not depend on the
    synthesized point at all; and the menu goes to the synthesized point,
    (box.left + horizontalOffset, box.top + verticalOffset) before
    clamping, exactly when the options carry a [position] that is none of
    "bottom", "top", "right" and "left". *)
Theorem display_element_placement s el m mp mc options op :
  doc_inv s ->
  st_heap s !! 1%nat = Some conf_object ->
  menu_object (st_heap s) m mp mc ->
  (forall k v, assoc_get k mp = Some v -> entry_shape (st_heap s) v) ->
  own_props options (st_heap s) = Ok op ->
  assoc_get "menu" op = None ->
  (forall x, assoc_get "horizontalOffset" op = Some x -> exists n, x = VNum n) ->
  (forall x, assoc_get "verticalOffset" op = Some x -> exists n, x = VNum n) ->
  let box := box_of (st_layout s) el in
  let e := Event el (rect_left box) (rect_top box) in
  let menu := length (st_menus s) in
  let mb := menu_box (st_layout s) menu in
  let ho := offset_of op "horizontalOffset" in
  let vo := offset_of op "verticalOffset" in
  let pv := default (VStr "bottom") (assoc_get "position" op) in
  let position := if truthy pv then pv else VStr "click" in
  let p := place position e box mb ho vo
                 (clientWidth (st_layout s)) (clientHeight (st_layout s)) in
  (exists s1 s2 c,
      display (DElement el) (VObj m) options s = (Ok tt, s1)
      /\ st_timers s1 = st_timers s ++ [Timer e menu]
      /\ st_body s1 = [menu]
      /\ timer_callback (Timer e menu) s1 = (Ok tt, s2)
      /\ st_menus s2 !! menu = Some c
      /\ menu_visibility c = "visible"
      /\ menu_left c = Some (fst p)
      /\ menu_top c = Some (snd p))
  /\ (assoc_get "position" op = None ->
      candidate position e box mb ho vo
      = (rect_left box + ho, rect_bottom box + vo))
  /\ (anchor_mode pv = true ->
      forall e', candidate position e' box mb ho vo
                 = candidate position e box mb ho vo)
  /\ (anchor_mode pv = false ->
      (exists v, assoc_get "position" op = Some v)
      /\ candidate position e box mb ho vo
         = (rect_left box + ho, rect_top box + vo)).
Proof.
  intros Hinv Hconf Hmenu Hshape Hop Hnomenu Hho Hvo box e menu mb ho vo pv
         position p.
  split; cycle 1.
  { split; [|split].
    - intros Hnone. subst position pv. rewrite Hnone. reflexivity.
    - intros Hmode e'. subst position.
      destruct (candidate_anchor pv e e' box mb ho vo Hmode) as [-> Hc].
      exact Hc.
    - intros Hmode. split.
      + subst pv. destruct (assoc_get "position" op) as [v|]; [eauto|].
        discriminate.
      + subst position. rewrite (candidate_pointer pv e box mb ho vo Hmode).
        reflexivity. }
  set (h := st_heap s) in *.
  (* the heap part *)
  destruct (normalize_copy h m mp mc Hmenu Hshape)
    as (h3 & items & E3 & X3 & Hc3 & Nd3 & R3).
  destruct (make_config_spec h3 (length h) items options op)
    as (h6 & E6 & X6 & Hdefn & Hcfg); auto.
  { eapply own_props_extends; eauto. }
  set (lit := Datatypes.S (length h3)) in *.
  set (cp := Object (merge_props
                       (merge_props [("menu", VObj (length h3))]
                                    (props conf_object)) op) None) in *.
  assert (Cmenu : assoc_get "menu" (props cp) = Some (VObj (length h3))).
  { cbn [props cp]. rewrite !assoc_get_merge, Hnomenu. reflexivity. }
  assert (Cpos : position_of cp = position).
  { unfold position_of. cbn [props cp]. rewrite !assoc_get_merge.
    subst position pv. destruct (assoc_get "position" op); reflexivity. }
  assert (Cho : assoc_get "horizontalOffset" (props cp)
                = Some (VNum (offset_of op "horizontalOffset"))).
  { cbn [props cp]. rewrite !assoc_get_merge. unfold offset_of.
    destruct (assoc_get "horizontalOffset" op) as [x|] eqn:Ex; [|reflexivity].
    destruct (Hho x eq_refl) as [n ->]. reflexivity. }
  assert (Cvo : assoc_get "verticalOffset" (props cp)
                = Some (VNum (offset_of op "verticalOffset"))).
  { cbn [props cp]. rewrite !assoc_get_merge. unfold offset_of.
    destruct (assoc_get "verticalOffset" op) as [x|] eqn:Ex; [|reflexivity].
    destruct (Hvo x eq_refl) as [n ->]. reflexivity. }
  assert (R6 : items_ready h6 (merge_props [] items)).
  { intros k v Hk. rewrite merge_empty_get in Hk.
    eapply items_ready_extends; eauto. }
  (* the state in which the trigger is handled *)
  set (sC := set_element_ctxMenu el (VObj lit) (set_heap h6 (set_heap h3 s))).
  assert (HinvC : doc_inv sC) by (eapply doc_inv_same; [exact Hinv | doc_untouched]).
  assert (CtxC : ctxMenu_of el sC = VObj lit).
  { unfold ctxMenu_of, sC, set_element_ctxMenu. cbn [st_ctxMenu set_ctxMenu].
    rewrite lookup_insert_eq. reflexivity. }
  destruct (createContextMenu_total el (closed_for e sC) lit cp (length h3)
              (merge_props [] items) None)
    as (s3 & Ecreate & N3); auto.
  destruct (createContextMenu_Ok _ _ _ _ Ecreate) as (_ & c0 & Hc0 & _).
  destruct N3 as (Nh & Nc & Nb & Nt & Nl & Ntm & _).
  change (length (st_menus (closed_for e sC))) with menu in *.
  set (s1 := setTimeout (Timer e menu) (set_isOpen true (appendChild menu s3))).
  assert (Edisplay : display (DElement el) (VObj m) options s = (Ok tt, s1)).
  { unfold display.
    rewrite (bind_Ok_intro _ _ _ _ _ (on_heap_Ok _ s _ _ E3)).
    rewrite (bind_Ok_intro _ _ _ _ _ (on_heap_Ok _ (set_heap h3 s) _ _ E6)).
    unfold mbind at 1, M_bind at 1, bind at 1. unfold modify at 1.
    fold lit. fold sC.
    unfold mbind at 1, M_bind at 1, bind at 1. unfold read at 1.
    change (box_of (st_layout sC) el) with box. fold e.
    rewrite (onContextMenu_unfold e sC HinvC).
    change (ev_target e) with el. rewrite CtxC. cbn [truthy].
    rewrite Ecreate. reflexivity. }
  (* the deferred callback *)
  set (sB := set_visibility menu "visible" (addEventListeners s1)).
  assert (Hs1m : st_menus s1 !! menu = Some c0) by exact Hc0.
  assert (HsB : st_menus sB !! menu
                = Some (Container (menu_className c0) "visible" (menu_display c0)
                                  (menu_children c0) (menu_left c0) (menu_top c0))).
  { unfold sB, set_visibility. cbn [st_menus addEventListeners set_window].
    rewrite Hs1m. cbn [st_menus set_menus].
    apply list_lookup_insert_eq. eapply lookup_lt_Some; eauto. }
  assert (Body1 : st_body s1 = [menu]).
  { unfold s1. cbn [st_body setTimeout set_timers set_isOpen appendChild set_body].
    rewrite Nb. reflexivity. }
  assert (BodyB : st_body sB = [menu]).
  { rewrite <- Body1. unfold sB, set_visibility.
    cbn [st_menus addEventListeners set_window].
    rewrite Hs1m. reflexivity. }
  assert (Epos := positionContextMenu_writes e el menu sB lit cp
                    (offset_of op "horizontalOffset")
                    (offset_of op "verticalOffset")).
  rewrite Cpos in Epos.
  exists s1. eexists. eexists.
  split; [exact Edisplay|].
  split.
  { unfold s1. cbn [st_timers setTimeout set_timers set_isOpen appendChild
                      set_body]. rewrite Ntm. reflexivity. }
  split; [exact Body1|].
  split.
  { unfold timer_callback.
    unfold mbind at 1, M_bind at 1, bind at 1. unfold modify at 1.
    unfold mbind at 1, M_bind at 1, bind at 1. unfold modify at 1.
    cbn [t_menu t_event]. fold sB.
    unfold mbind at 1, M_bind at 1, bind at 1. unfold target_var at 1.
    replace (st_target sB) with (Some el); cycle 1.
    { unfold sB, set_visibility. cbn [st_menus addEventListeners set_window].
      rewrite Hs1m. cbn. rewrite Nt. reflexivity. }
    apply Epos.
    - unfold ctxMenu_of, sB, set_visibility.
      cbn [st_menus addEventListeners set_window]. rewrite Hs1m. cbn.
      rewrite Nc. exact CtxC.
    - unfold sB, set_visibility. cbn [st_menus addEventListeners set_window].
      rewrite Hs1m. cbn. rewrite Nh. exact Hcfg.
    - exact Cho.
    - exact Cvo. }
  assert (LayB : st_layout sB = st_layout s).
  { unfold sB, set_visibility. cbn [st_menus addEventListeners set_window].
    rewrite Hs1m. cbn. rewrite Nl. reflexivity. }
  assert (RectB : menu_rect menu sB = menu_box (st_layout s) menu).
  { unfold menu_rect. rewrite BodyB, LayB. cbn. rewrite Nat.eqb_refl.
    reflexivity. }
  rewrite LayB, RectB. fold box. fold p.
  unfold set_style. rewrite HsB. cbn [st_menus set_menus].
  split; [apply list_lookup_insert_eq; eapply lookup_lt_Some; eauto|].
  split_and!; reflexivity.
Qed.

Lemma sample_menu_well_formed s :
  st_heap s !! 3%nat = Some (Object [] (Some (UserFn 0))) ->
  st_heap s !! 4%nat = Some (Object [("A", VObj 3); ("B", VNull)] None) ->
  menu_object (st_heap s) 4 [("A", VObj 3); ("B", VNull)] None
  /\ forall k v, assoc_get k [("A", VObj 3); ("B", VNull)] = Some v ->
                 entry_shape (st_heap s) v.
Proof.
  intros H3 H4. split.
  - split; [exact H4|]. split.
    + refine (bool_decide_unpack _ _). vm_compute. exact I.
    + intros k v Hk. cbn in Hk.
      destruct (String.eqb k "A").
      { injection Hk as <-. split; [|discriminate].
        eapply lookup_lt_Some; eauto. }
      destruct (String.eqb k "B"); [injection Hk as <-; exact I | discriminate].
  - intros k v Hk. cbn in Hk.
    destruct (String.eqb k "A").
    { injection Hk as <-. apply shape_callback.
      - exists 3%nat, (Object [] (Some (UserFn 0))), (UserFn 0). auto.
      - unfold isFunction. rewrite H3. reflexivity. }
    destruct (String.eqb k "B"); [|discriminate].
    injection Hk as <-. apply shape_falsy. reflexivity.
Qed.

(** [display(e7, {A: f, B: null})] puts the menu below the element, at
    (100, 70); [display(e7, {A: f, B: null}, {position: "click"})] puts it
    at the synthesized point, the top-left corner (100, 50) of the
    element's box. *)
Lemma display_element_placement_witness :
  doc_inv sample_client
  /\ st_heap sample_client !! 1%nat = Some conf_object
  /\ menu_object (st_heap sample_client) 4 [("A", VObj 3); ("B", VNull)] None
  /\ own_props VUndef (st_heap sample_client) = Ok []
  /\ (exists s1 s2 c,
        display (DElement 7) (VObj 4) VUndef sample_client = (Ok tt, s1)
        /\ st_body s1 = [length (st_menus sample_client)]
        /\ st_menus s2 !! length (st_menus sample_client) = Some c
        /\ menu_left c = Some 100
        /\ menu_top c = Some 70)
  /\ own_props (VObj 5) (st_heap sample_pointer_client)
     = Ok [("position", VStr "click")]
  /\ (exists s1 s2 c,
        display (DElement 7) (VObj 4) (VObj 5) sample_pointer_client
        = (Ok tt, s1)
        /\ st_menus s2 !! length (st_menus sample_pointer_client) = Some c
        /\ menu_left c = Some 100
        /\ menu_top c = Some 50).
Proof.
  assert (Hinv : doc_inv sample_client)
    by (apply doc_inv_run, doc_inv_init).
  assert (Hconf : st_heap sample_client !! 1%nat = Some conf_object)
    by (vm_compute; reflexivity).
  destruct (sample_menu_well_formed sample_client) as [Hm Hs];
    [vm_compute; reflexivity .. |].
  assert (Hinv' : doc_inv sample_pointer_client)
    by (apply doc_inv_run, doc_inv_init).
  assert (Hconf' : st_heap sample_pointer_client !! 1%nat = Some conf_object)
    by (vm_compute; reflexivity).
  destruct (sample_menu_well_formed sample_pointer_client) as [Hm' Hs'];
    [vm_compute; reflexivity .. |].
  assert (Hop' : own_props (VObj 5) (st_heap sample_pointer_client)
                 = Ok [("position", VStr "click")])
    by (vm_compute; reflexivity).
  split; [exact Hinv|]. split; [exact Hconf|]. split; [exact Hm|].
  split; [reflexivity|]. split; [|split; [exact Hop'|]].
  - destruct (display_element_placement sample_client 7%nat 4%nat _ None
                VUndef [] Hinv Hconf Hm Hs eq_refl eq_refl)
      as ((s1 & s2 & c & E & _ & B & _ & Hc & _ & Hl & Ht) & _);
      [discriminate | discriminate |].
    exists s1, s2, c. split; [exact E|]. split; [exact B|]. split; [exact Hc|].
    split; [rewrite Hl | rewrite Ht]; vm_compute; reflexivity.
  - destruct (display_element_placement sample_pointer_client 7%nat 4%nat _
                None (VObj 5) [("position", VStr "click")]
                Hinv' Hconf' Hm' Hs' Hop' eq_refl)
      as ((s1 & s2 & c & E & _ & _ & _ & Hc & _ & Hl & Ht) & _);
      [discriminate | discriminate |].
    exists s1, s2, c. split; [exact E|]. split; [exact Hc|].
    split; [rewrite Hl | rewrite Ht]; vm_compute; reflexivity.
Defined.

(** * Further properties of the code *)

(** ** Placement *)

(** X1. A menu that fits at the position its anchor mode asks for is left
    there: the four off-screen checks change nothing. *)
Theorem place_fitting_candidate position e tb mb ho vo cw ch :
  0 <= fst (candidate position e tb mb ho vo) ->
  0 <= snd (candidate position e tb mb ho vo) ->
  fst (candidate position e tb mb ho vo) + rect_width mb <= cw ->
  snd (candidate position e tb mb ho vo) + rect_height mb <= ch ->
  place position e tb mb ho vo cw ch = candidate position e tb mb ho vo.
Proof.
  unfold place. destruct (candidate position e tb mb ho vo) as [x y].
  cbn [fst snd]. intros Hx Hy Hw Hh. unfold clamp.
  destruct (x <? 0) eqn:Ex, (y <? 0) eqn:Ey; try lia.
  destruct (x + rect_width mb >? cw) eqn:Ew,
           (y + rect_height mb >? ch) eqn:Eh; try lia.
  reflexivity.
Qed.

Lemma place_fitting_candidate_witness :
  place (VStr "right") (Event 0 0 0) (Rect 100 50 80 20) (Rect 0 0 60 40)
        5 (-3) 1000 800 = (185, 47).
Proof.
  rewrite place_fitting_candidate; [reflexivity | | | |]; vm_compute;
    discriminate.
Defined.

(** X2. With non-negative offsets and a menu no larger than the viewport, the
    menu always ends up entirely inside the viewport, whatever the anchor
    mode, the target box and the pointer position. *)
Theorem place_inside_viewport position e tb mb ho vo cw ch :
  0 <= ho -> 0 <= vo ->
  rect_width mb <= cw -> rect_height mb <= ch ->
  0 <= fst (place position e tb mb ho vo cw ch)
  /\ fst (place position e tb mb ho vo cw ch) + rect_width mb <= cw
  /\ 0 <= snd (place position e tb mb ho vo cw ch)
  /\ snd (place position e tb mb ho vo cw ch) + rect_height mb <= ch.
Proof.
  intros Hho Hvo Hw Hh. unfold place.
  destruct (candidate position e tb mb ho vo) as [x y]. unfold clamp.
  destruct (x <? 0) eqn:Ex, (y <? 0) eqn:Ey,
           (ho >=? 0) eqn:Eh, (vo >=? 0) eqn:Ev;
    split_ifs; cbn [fst snd]; lia.
Qed.

Lemma place_inside_viewport_witness :
  0 <= fst (place (VStr "left") (Event 0 0 0) (Rect 20 790 80 20)
                  (Rect 0 0 60 40) 990 5 1000 800)
  /\ fst (place (VStr "left") (Event 0 0 0) (Rect 20 790 80 20)
                (Rect 0 0 60 40) 990 5 1000 800) + 60 <= 1000.
Proof.
  destruct (place_inside_viewport (VStr "left") (Event 0 0 0) (Rect 20 790 80 20)
              (Rect 0 0 60 40) 990 5 1000 800) as (H1 & H2 & _);
    [vm_compute; discriminate .. |].
  split; [exact H1 | exact H2].
Defined.

(** X3. A menu wider than the viewport, with a non-negative horizontal offset,
    is aligned with the right edge and sticks out on the left. *)
Theorem place_oversized_menu position e tb mb ho vo cw ch :
  0 <= ho -> cw < rect_width mb ->
  0 <= fst (candidate position e tb mb ho vo) ->
  fst (place position e tb mb ho vo cw ch) = cw - rect_width mb
  /\ fst (place position e tb mb ho vo cw ch) < 0.
Proof.
  intros Hho Hw. unfold place.
  destruct (candidate position e tb mb ho vo) as [x y]. cbn [fst].
  intros Hx. unfold clamp.
  destruct (x <? 0) eqn:Ex; [lia|].
  destruct (x + rect_width mb >? cw) eqn:Ew; [|lia].
  destruct (ho >=? 0) eqn:Eh; [|lia].
  cbn [fst]. lia.
Qed.

Lemma place_oversized_menu_witness :
  fst (place (VStr "bottom") (Event 0 0 0) (Rect 10 50 80 20) (Rect 0 0 120 40)
             0 0 100 800) = -20.
Proof.
  destruct (place_oversized_menu (VStr "bottom") (Event 0 0 0) (Rect 10 50 80 20)
              (Rect 0 0 120 40) 0 0 100 800) as (H & _);
    [vm_compute; discriminate | reflexivity | vm_compute; discriminate |].
  rewrite H. reflexivity.
Defined.

(** ** extend and normalizeMenu *)

(** X4. [extend(obj, s1, s2)] on an object and two sources distinct from it: a
    property of the result is the one of the last source that has it, and
    the object's own otherwise; nothing but [obj] is written. *)
Theorem extend_last_source_wins a src1 src2 qs1 qs2 ps c h :
  h !! a = Some (Object ps c) ->
  own_props src1 h = Ok qs1 ->
  own_props src2 h = Ok qs2 ->
  src1 <> VObj a -> src2 <> VObj a ->
  exists h',
    extend (VObj a) [src1; src2] h = (Ok (VObj a), h')
    /\ length h' = length h
    /\ (forall x, x <> a -> h' !! x = h !! x)
    /\ forall k,
         get_prop (VObj a) k h'
         = Ok (match assoc_get k qs2, assoc_get k qs1 with
               | Some v, _ => v
               | None, Some v => v
               | None, None => default VUndef (assoc_get k ps)
               end).
Proof.
  intros Ha H1 H2 N1 N2.
  rewrite (extend_two a src1 src2 qs1 qs2 ps c h Ha H1 H2 N1 N2).
  eexists. split; [reflexivity|].
  split; [apply length_insert|].
  split; [intros x Hx; apply list_lookup_insert_ne; congruence|].
  intros k. unfold get_prop, own_props.
  rewrite list_lookup_insert_eq by (eapply lookup_lt_Some; eauto).
  cbn [props]. rewrite !assoc_get_merge.
  destruct (assoc_get k qs2), (assoc_get k qs1); reflexivity.
Qed.

Lemma extend_last_source_wins_witness :
  exists h',
    extend (VObj 0) [VObj 1; VObj 2]
           [Object [("menu", VNum 7)] None;
            Object [("event", VStr "click"); ("position", VStr "bottom")] None;
            Object [("position", VStr "top")] None]
    = (Ok (VObj 0), h')
    /\ get_prop (VObj 0) "position" h' = Ok (VStr "top")
    /\ get_prop (VObj 0) "event" h' = Ok (VStr "click")
    /\ get_prop (VObj 0) "menu" h' = Ok (VNum 7)
    /\ h' !! 1%nat = Some (Object [("event", VStr "click");
                                   ("position", VStr "bottom")] None).
Proof.
  destruct (extend_last_source_wins 0 (VObj 1) (VObj 2)
              [("event", VStr "click"); ("position", VStr "bottom")]
              [("position", VStr "top")] [("menu", VNum 7)] None
              [Object [("menu", VNum 7)] None;
               Object [("event", VStr "click"); ("position", VStr "bottom")] None;
               Object [("position", VStr "top")] None])
    as (h' & E & _ & Hframe & Hget); try reflexivity; try discriminate.
  exists h'. split; [exact E|].
  split; [apply (Hget "position")|]. split; [apply (Hget "event")|].
  split; [apply (Hget "menu")|].
  rewrite Hframe by discriminate. reflexivity.
Defined.

(** X5. [normalizeMenu] keeps the keys of the menu in their order, puts a newly
    allocated object under each of them, and writes to nothing else that
    existed: the option records and callbacks the caller passed are
    copied from, never changed. *)
Theorem normalizeMenu_frame h m mp mc :
  menu_object h m mp mc ->
  exists h' mp',
    normalizeMenu (VObj m) h = (Ok (VObj m), h')
    /\ h' !! m = Some (Object mp' mc)
    /\ map fst mp' = map fst mp
    /\ (forall k, k ∈ map fst mp ->
                  exists a, assoc_get k mp' = Some (VObj a)
                            /\ (length h <= a)%nat /\ is_Some (h' !! a))
    /\ (forall x o, x <> m -> h !! x = Some o -> h' !! x = Some o).
Proof.
  intros (Hm & Hnd & Hent).
  destruct (normalizeMenu_spec m mp mc h Hm Hnd Hent)
    as (h' & mp' & E & L & A & _ & Hm' & Keys & Done).
  exists h', mp'. split; [exact E|]. split; [exact Hm'|].
  split; [exact Keys|]. split.
  - intros k Hk. destruct (assoc_get_elem k mp Hk) as [v Hv].
    destruct (Done k v Hv) as (a & Ga & La & Ha).
    exists a. split; [exact Ga|]. split; [lia|]. rewrite Ha. eauto.
  - intros x o Hx Ho. rewrite (A x); [exact Ho | | exact Hx].
    eapply lookup_lt_Some; eauto.
Qed.

Lemma normalizeMenu_frame_witness :
  let h := [Object [] (Some (UserFn 0));
            Object [("enabled", VBool false)] None;
            Object [("New", VObj 0); ("Open", VObj 1); ("Sep", VNull)] None] in
  menu_object h 2 [("New", VObj 0); ("Open", VObj 1); ("Sep", VNull)] None
  /\ exists h' mp',
      normalizeMenu (VObj 2) h = (Ok (VObj 2), h')
      /\ h' !! 2%nat = Some (Object mp' None)
      /\ map fst mp' = ["New"; "Open"; "Sep"]
      /\ h' !! 1%nat = Some (Object [("enabled", VBool false)] None).
Proof.
  intros h.
  assert (Hm : menu_object h 2
                 [("New", VObj 0); ("Open", VObj 1); ("Sep", VNull)] None).
  { split; [reflexivity|]. split.
    - refine (bool_decide_unpack _ _). vm_compute. exact I.
    - intros k v Hk. cbn in Hk.
      destruct (String.eqb k "New");
        [injection Hk as <-; unfold h; cbn; lia|].
      destruct (String.eqb k "Open");
        [injection Hk as <-; unfold h; cbn; lia|].
      destruct (String.eqb k "Sep"); [injection Hk as <-; exact I | discriminate]. }
  split; [exact Hm|].
  destruct (normalizeMenu_frame h 2%nat _ None Hm)
    as (h' & mp' & E & Hm' & Keys & _ & Hframe).
  exists h', mp'. split; [exact E|]. split; [exact Hm'|].
  split; [exact Keys|]. apply Hframe; [discriminate | reflexivity].
Defined.

(** ** enable and disable *)

Lemma forEach_nil_state {A} (f : A -> M state unit) s :
  forEach f [] s = (Ok tt, s).
Proof. reflexivity. Qed.

(** X6. [enable]/[disable] on an element whose menu has the key and no entry
    named [hasOwnProperty]: the flag of that item is what was asked for
    afterwards, and only the item object is written. *)
Theorem setEnabledState_reads_back el key b s cfg cp d dp a item :
  ctxMenu_of el s = VObj cfg ->
  st_heap s !! cfg = Some cp ->
  assoc_get "menu" (props cp) = Some (VObj d) ->
  st_heap s !! d = Some dp ->
  assoc_get "hasOwnProperty" (props dp) = None ->
  assoc_get key (props dp) = Some (VObj a) ->
  st_heap s !! a = Some item ->
  a <> cfg -> a <> d ->
  exists s',
    setEnabledState (SelElement el) key b s = (Ok tt, s')
    /\ item_enabled el key s' = Ok (VBool b)
    /\ s' = set_heap
              (<[a := Object (assoc_set "enabled" (VBool b) (props item))
                             (callable item)]> (st_heap s)) s.
Proof.
  intros Hcfg Hcp Hmenu Hd Hown Hkey Ha Nc Nd.
  set (h' := <[a := Object (assoc_set "enabled" (VBool b) (props item))
                          (callable item)]> (st_heap s)).
  assert (E : setEnabledState (SelElement el) key b s = (Ok tt, set_heap h' s)).
  { unfold setEnabledState, read_heap.
    rewrite (bind_read _ _ s [el]) by reflexivity. cbn [forEach].
    unfold mbind at 1, M_bind at 1, bind at 1.
    rewrite (bind_read _ _ s (VObj cfg)) by (f_equal; exact Hcfg).
    rewrite (bind_read _ _ s (VObj d))
      by (unfold get_prop, own_props; rewrite Hcp, Hmenu; reflexivity).
    rewrite (bind_read _ _ s true)
      by (unfold hasOwnProperty, own_props; rewrite Hd, Hown, Hkey;
          reflexivity).
    rewrite (bind_read _ _ s (VObj a))
      by (unfold get_prop, own_props; rewrite Hd, Hkey; reflexivity).
    unfold on_heap, set_prop. rewrite Ha. reflexivity. }
  exists (set_heap h' s). split; [exact E|]. split; [|reflexivity].
  unfold item_enabled. cbn [st_heap set_heap].
  change (ctxMenu_of el (set_heap h' s)) with (ctxMenu_of el s). rewrite Hcfg.
  unfold get_prop, own_props, h'.
  rewrite list_lookup_insert_ne by exact Nc. rewrite Hcp, Hmenu. cbn.
  rewrite list_lookup_insert_ne by exact Nd. rewrite Hd, Hkey. cbn.
  rewrite list_lookup_insert_eq by (eapply lookup_lt_Some; eauto).
  cbn [props]. rewrite assoc_get_set_eq. reflexivity.
Qed.

Lemma setEnabledState_reads_back_witness :
  item_enabled 10 "A" sample_attached = Ok (VBool true)
  /\ exists s',
      disable (SelElement 10) "A" sample_attached = (Ok tt, s')
      /\ item_enabled 10 "A" s' = Ok (VBool false).
Proof.
  split; [vm_compute; reflexivity|].
  destruct (setEnabledState_reads_back 10%nat "A" false sample_attached
              12%nat
              (Object [("menu", VObj 11); ("event", VStr "click");
                       ("position", VStr "bottom"); ("horizontalOffset", VNum 0);
                       ("verticalOffset", VNum 0); ("data", VObj 0)] None)
              11%nat (Object [("A", VObj 7); ("B", VObj 9)] None)
              7%nat
              (Object [("type", VStr "item"); ("enabled", VBool true);
                       ("label", VStr "A"); ("onSelect", VObj 3);
                       ("icon", VStr ""); ("title", VStr "")] None))
    as (s' & E & Hread & _);
    [first [discriminate | vm_compute; reflexivity] .. |].
  exists s'. split; [exact E | exact Hread].
Defined.

(** X7. [enable]/[disable] with a key the menus do not have, for a selector
    that is not a string (an element, a NodeList, a jQuery object or
    anything else) and menus without an entry named [hasOwnProperty]:
    nothing changes, and nothing is thrown. *)
Theorem setEnabledState_unknown_key sel key b s :
  (forall q, sel <> SelString q) ->
  (forall el, el ∈ getElements sel s ->
     exists cfg cp d dp,
       ctxMenu_of el s = VObj cfg /\ st_heap s !! cfg = Some cp
       /\ assoc_get "menu" (props cp) = Some (VObj d)
       /\ st_heap s !! d = Some dp
       /\ assoc_get "hasOwnProperty" (props dp) = None
       /\ assoc_get key (props dp) = None) ->
  setEnabledState sel key b s = (Ok tt, s).
Proof.
  intros _ H. unfold setEnabledState, read_heap.
  rewrite (bind_read _ _ s (getElements sel s)) by reflexivity.
  induction (getElements sel s) as [|el l IH]; [reflexivity|].
  destruct (H el)
    as (cfg & cp & d & dp & Hcfg & Hcp & Hmenu & Hd & Hown & Hkey);
    [left|].
  cbn [forEach]. unfold mbind at 1, M_bind at 1, bind at 1.
  rewrite (bind_read _ _ s (VObj cfg)) by (f_equal; exact Hcfg).
  rewrite (bind_read _ _ s (VObj d))
    by (unfold get_prop, own_props; rewrite Hcp, Hmenu; reflexivity).
  rewrite (bind_read _ _ s false)
    by (unfold hasOwnProperty, own_props; rewrite Hd, Hown, Hkey;
        reflexivity).
  cbn [ret]. apply IH. intros el' Hel'. apply H. right. exact Hel'.
Qed.

Lemma setEnabledState_unknown_key_witness :
  enable (SelList [10%nat; 11%nat]) "Close" sample_attached
  = (Ok tt, sample_attached).
Proof.
  apply setEnabledState_unknown_key; [intros q; discriminate|].
  intros el Hel.
  exists 12%nat,
    (Object [("menu", VObj 11); ("event", VStr "click");
             ("position", VStr "bottom"); ("horizontalOffset", VNum 0);
             ("verticalOffset", VNum 0); ("data", VObj 0)] None),
    11%nat, (Object [("A", VObj 7); ("B", VObj 9)] None).
  cbn [getElements] in Hel. apply elem_of_cons in Hel.
  destruct Hel as [->|Hel];
    [|apply list_elem_of_singleton in Hel; subst el];
    split_and!; vm_compute; reflexivity.
Defined.

(** X8. [enable]/[disable] throw a TypeError when the first element the selector
    resolves to has no menu attached ([elements[idx].ctxMenu] is undefined);
    nothing has been written then. *)
Theorem setEnabledState_unattached sel key b s el rest :
  getElements sel s = el :: rest ->
  st_ctxMenu s !! el = None ->
  setEnabledState sel key b s = (TypeError, s).
Proof.
  intros Hel Hnone. unfold setEnabledState, read_heap.
  rewrite (bind_read _ _ s (el :: rest)) by (f_equal; exact Hel).
  cbn [forEach]. unfold mbind at 1, M_bind at 1, bind at 1.
  rewrite (bind_read _ _ s VUndef)
    by (unfold ctxMenu_of; rewrite Hnone; reflexivity).
  reflexivity.
Qed.

Lemma setEnabledState_unattached_witness :
  disable (SelElement 12) "A" sample_attached = (TypeError, sample_attached).
Proof.
  apply (setEnabledState_unattached _ _ _ _ 12%nat []);
    [reflexivity | vm_compute; reflexivity].
Defined.

(** X26. A menu with an entry named [hasOwnProperty] cannot be enabled or
    disabled: [elements[idx].ctxMenu.menu.hasOwnProperty(key)] then calls
    the item object stored under that name, which is not a function, and
    [enable]/[disable] throw a TypeError on the first element, whatever the
    key, before anything is written. *)
Theorem setEnabledState_shadowed sel key b s el rest cfg cp d dp a item :
  getElements sel s = el :: rest ->
  ctxMenu_of el s = VObj cfg ->
  st_heap s !! cfg = Some cp ->
  assoc_get "menu" (props cp) = Some (VObj d) ->
  st_heap s !! d = Some dp ->
  assoc_get "hasOwnProperty" (props dp) = Some (VObj a) ->
  st_heap s !! a = Some item ->
  callable item = None ->
  setEnabledState sel key b s = (TypeError, s).
Proof.
  intros Hel Hcfg Hcp Hmenu Hd Hown Ha Hcall.
  unfold setEnabledState, read_heap.
  rewrite (bind_read _ _ s (el :: rest)) by (f_equal; exact Hel).
  cbn [forEach]. unfold mbind at 1, M_bind at 1, bind at 1.
  rewrite (bind_read _ _ s (VObj cfg)) by (f_equal; exact Hcfg).
  rewrite (bind_read _ _ s (VObj d))
    by (unfold get_prop, own_props; rewrite Hcp, Hmenu; reflexivity).
  unfold mbind, M_bind, bind, read, hasOwnProperty, own_props.
  rewrite Hd, Hown, Ha, Hcall. reflexivity.
Qed.

(** [attach(e10, {A: f, hasOwnProperty: null})] completes, and the entry is
    normalized into an item like any other; [disable(e10, "A")] then
    throws. *)
Lemma setEnabledState_shadowed_witness :
  item_enabled 10 "A" sample_shadowed = Ok (VBool true)
  /\ disable (SelElement 10) "A" sample_shadowed = (TypeError, sample_shadowed).
Proof.
  split; [vm_compute; reflexivity|].
  apply (setEnabledState_shadowed _ _ _ _ 10%nat [] 12%nat
           (Object [("menu", VObj 11); ("event", VStr "click");
                    ("position", VStr "bottom"); ("horizontalOffset", VNum 0);
                    ("verticalOffset", VNum 0); ("data", VObj 0)] None)
           11%nat (Object [("A", VObj 7); ("hasOwnProperty", VObj 9)] None)
           9%nat
           (Object [("type", VStr "item"); ("enabled", VBool true);
                    ("label", VStr "hasOwnProperty"); ("onSelect", VObj 5);
                    ("icon", VStr ""); ("title", VStr "")] None));
    vm_compute; reflexivity.
Defined.


(** ** Listeners, timers and the sweep *)

Lemma closeContextMenu_snd s :
  exists b, snd (closeContextMenu s)
            = set_isOpen false (set_body b (removeEventListeners s)).
Proof. destruct (closeContextMenu_total s) as [b ->]. eauto. Qed.

Lemma existsb_eqb_elem t (w : list string) :
  existsb (String.eqb t) w = true <-> t ∈ w.
Proof.
  induction w as [|x w IH]; cbn.
  - split; [discriminate | intros H; apply elem_of_nil in H; contradiction].
  - rewrite orb_true_iff, IH, elem_of_cons.
    destruct (String.eqb_spec t x); intuition congruence.
Qed.

Lemma filter_elem {A} (f : A -> bool) x (l : list A) :
  x ∈ List.filter f l <-> x ∈ l /\ f x = true.
Proof. rewrite !list_elem_of_In. apply filter_In. Qed.

Lemma removeEventListeners_unregisters s type :
  type ∈ dismissal_events -> type ∉ st_window (removeEventListeners s).
Proof.
  intros Hin Hw. cbn [st_window removeEventListeners set_window] in Hw.
  apply filter_elem in Hw. destruct Hw as [_ Hw].
  apply negb_true_iff in Hw.
  apply existsb_eqb_elem in Hin. congruence.
Qed.

(** X10. [closeContextMenu] always leaves [window] without any of its three
    dismissal listeners. *)
Theorem closeContextMenu_unregisters s :
  Forall (fun type => type ∉ st_window (snd (closeContextMenu s)))
         dismissal_events.
Proof.
  destruct (closeContextMenu_snd s) as [b ->].
  apply Forall_forall. intros type Hin.
  apply (removeEventListeners_unregisters s type Hin).
Qed.

Lemma add_type_elem t w : t ∈ add_type t w.
Proof.
  unfold add_type. destruct (existsb (String.eqb t) w) eqn:E.
  - apply existsb_eqb_elem, E.
  - apply elem_of_app. right. left.
Qed.

Lemma add_type_mono t x w : x ∈ w -> x ∈ add_type t w.
Proof.
  unfold add_type. destruct (existsb _ _); [auto|].
  intros H. apply elem_of_app. left. exact H.
Qed.

Lemma addEventListeners_registers s :
  Forall (fun type => type ∈ st_window (addEventListeners s)) dismissal_events.
Proof.
  unfold addEventListeners, dismissal_events.
  cbn [st_window set_window fold_left].
  repeat constructor;
    eauto using add_type_elem, add_type_mono.
Qed.

(** X12. The deferred callback registers the three dismissal listeners whatever
    has happened since it was scheduled, and whether or not it then throws:
    if the menu was closed in the meantime they are registered while the
    state stays Closed and the document stays empty. *)
Theorem timer_callback_registers t s :
  Forall (fun type => type ∈ st_window (snd (timer_callback t s)))
         dismissal_events
  /\ st_isOpen (snd (timer_callback t s)) = st_isOpen s
  /\ st_body (snd (timer_callback t s)) = st_body s.
Proof.
  assert (P : preserves
                (fun s' => Forall (fun type => type ∈ st_window s')
                                  dismissal_events
                           /\ st_isOpen s' = st_isOpen s
                           /\ st_body s' = st_body s)
                (modify (set_visibility (t_menu t) "visible") ;;
                 target ← target_var;
                 positionContextMenu (t_event t) target (t_menu t))).
  { repeat pres_step.
    - intros s' H. unfold set_visibility.
      destruct (st_menus s' !! t_menu t); exact H.
    - intros s' H. unfold target_var. destruct (st_target s'); exact H.
    - unfold positionContextMenu, read_num. repeat pres_step.
      destruct (place _ _ _ _ _ _ _ _). apply preserves_modify.
      intros s' H. unfold set_style.
      destruct (st_menus s' !! t_menu t); exact H. }
  unfold timer_callback.
  unfold mbind at 1, M_bind at 1, bind at 1. unfold modify at 1.
  apply P. split; [apply addEventListeners_registers|].
  split; reflexivity.
Qed.

(** X13. When the deferred callback runs after another trigger has moved the
    module variable [target] to an element without a menu, it throws a
    TypeError ([target.ctxMenu] is undefined) after it has registered the
    listeners and made the menu visible; the menu is not positioned. *)
Theorem timer_callback_stale_target t s el :
  st_target s = Some el ->
  st_ctxMenu s !! el = None ->
  timer_callback t s
  = (TypeError, set_visibility (t_menu t) "visible" (addEventListeners s)).
Proof.
  intros Ht Hc. unfold timer_callback.
  unfold mbind at 1, M_bind at 1, bind at 1. unfold modify at 1.
  unfold mbind at 1, M_bind at 1, bind at 1. unfold modify at 1.
  set (s2 := set_visibility (t_menu t) "visible" (addEventListeners s)).
  assert (Ht2 : st_target s2 = Some el).
  { unfold s2, set_visibility. destruct (st_menus _ !! _); exact Ht. }
  assert (Hc2 : ctxMenu_of el s2 = VUndef).
  { unfold ctxMenu_of, s2, set_visibility.
    destruct (st_menus _ !! _); cbn; rewrite Hc; reflexivity. }
  unfold mbind at 1, M_bind at 1, bind at 1. unfold target_var at 1.
  rewrite Ht2. unfold positionContextMenu, read_num, read_heap.
  cbv [mbind M_bind bind read ret mret M_ret modify].
  rewrite Hc2. reflexivity.
Qed.

(** Element 10 is clicked, then an event whose target is element 99, which
    has no menu, reaches the listener of element 10 before the timer
    fires. *)
Lemma timer_callback_stale_target_witness :
  let s := run no_callbacks
               (sample_setup
                  ++ [Trigger 10%nat (VStr "click") (Event 10 5 5);
                      Trigger 10%nat (VStr "click") (Event 99 5 5)])
               (init_state sample_layout) in
  st_target s = Some 99%nat
  /\ st_timers s = [Timer (Event 10 5 5) 0]
  /\ fst (timer_callback (Timer (Event 10 5 5) 0) s) = TypeError.
Proof.
  intros s.
  assert (Ht : st_target s = Some 99%nat) by (vm_compute; reflexivity).
  split; [exact Ht|]. split; [vm_compute; reflexivity|].
  rewrite (timer_callback_stale_target _ s 99%nat Ht); [reflexivity|].
  vm_compute. reflexivity.
Defined.

Lemma remove_first_middle x (kept rest : list nat) :
  x ∉ kept -> remove_first x (kept ++ x :: rest) = kept ++ rest.
Proof.
  induction kept as [|y kept IH]; cbn; intros H.
  - rewrite Nat.eqb_refl. reflexivity.
  - apply not_elem_of_cons in H. destruct H as [Hne H].
    destruct (Nat.eqb_spec y x); [congruence|]. f_equal. apply IH, H.
Qed.

Lemma sweep_done bound idx s :
  (length (getElementsByClassName menuClassName s) <= idx)%nat ->
  sweep bound idx s = (Ok tt, s).
Proof.
  intros H. destruct bound; cbn [sweep];
    rewrite lookup_ge_None_2 by exact H; reflexivity.
Qed.

Lemma sweep_every_other bound :
  forall kept rest s,
    st_body s = kept ++ rest ->
    NoDup (st_body s) ->
    (forall m, In m (st_body s) ->
               exists c, st_menus s !! m = Some c
                         /\ menu_className c = menuClassName) ->
    (length rest <= bound)%nat ->
    sweep bound (length kept) s
    = (Ok tt, set_body (kept ++ every_other rest) s).
Proof.
  induction bound as [|bound IH]; intros kept rest s Hb Hnd Hc Hlen.
  - destruct rest; [|cbn in Hlen; lia].
    cbn [sweep]. rewrite (getElements_body s Hc), Hb, app_nil_r.
    rewrite lookup_ge_None_2 by lia. cbn [every_other].
    rewrite app_nil_r, <- (app_nil_r kept), <- Hb, set_body_id. reflexivity.
  - cbn [sweep]. rewrite (getElements_body s Hc), Hb.
    destruct rest as [|x rest].
    + rewrite app_nil_r, lookup_ge_None_2 by lia. cbn [every_other].
      rewrite <- Hb, set_body_id. reflexivity.
    + rewrite lookup_app_r by lia. rewrite Nat.sub_diag. cbn [lookup list_lookup].
      assert (Hx : x ∉ kept).
      { rewrite Hb in Hnd. apply NoDup_app in Hnd.
        destruct Hnd as (_ & Hdis & _). intros Hin. apply (Hdis x Hin). left. }
      assert (Hb1 : st_body (removeChild x s) = kept ++ rest).
      { unfold removeChild. cbn [st_body set_body]. rewrite Hb.
        apply remove_first_middle, Hx. }
      assert (Hnd1 : NoDup (st_body (removeChild x s))).
      { rewrite Hb1. rewrite Hb in Hnd.
        apply NoDup_app in Hnd. destruct Hnd as (Hk & Hdis & Hr).
        apply NoDup_cons in Hr. destruct Hr as [_ Hr].
        apply NoDup_app. split; [exact Hk|]. split; [|exact Hr].
        intros y Hy Hy'. apply (Hdis y Hy). right. exact Hy'. }
      assert (Hc1 : forall m, In m (st_body (removeChild x s)) ->
                      exists c, st_menus (removeChild x s) !! m = Some c
                                /\ menu_className c = menuClassName).
      { intros m Hm. rewrite Hb1 in Hm. apply Hc. rewrite Hb.
        apply in_app_iff in Hm. apply in_app_iff.
        destruct Hm; [left | right; right]; assumption. }
      destruct rest as [|y rest].
      * rewrite sweep_done
          by (rewrite (getElements_body _ Hc1), Hb1, app_nil_r; lia).
        unfold removeChild. cbn [every_other]. rewrite Hb.
        rewrite remove_first_middle by exact Hx. reflexivity.
      * replace (Datatypes.S (length kept)) with (length (kept ++ [y]))
          by (rewrite length_app; cbn; lia).
        rewrite (IH (kept ++ [y]) rest (removeChild x s)); cycle 1.
        { rewrite Hb1, <- app_assoc. reflexivity. } { exact Hnd1. }
        { exact Hc1. } { cbn in Hlen. lia. }
        cbn [every_other]. rewrite <- app_assoc. reflexivity.
Qed.

(** X11. The sweep of [closeContextMenu] runs over a live collection with an
    increasing index, so of several menu containers in the document it
    removes only every other one: those at the odd positions stay, although
    the flag is set to Closed. *)
Theorem closeContextMenu_every_other s :
  NoDup (st_body s) ->
  (forall m, In m (st_body s) ->
             exists c, st_menus s !! m = Some c
                       /\ menu_className c = menuClassName) ->
  closeContextMenu s
  = (Ok tt, set_isOpen false
              (set_body (every_other (st_body s)) (removeEventListeners s))).
Proof.
  intros Hnd Hc. unfold closeContextMenu.
  unfold mbind at 1, M_bind at 1, bind at 1. unfold modify at 1.
  unfold mbind at 1, M_bind at 1, bind at 1.
  rewrite (sweep_every_other _ [] (st_body s) (removeEventListeners s));
    [reflexivity | reflexivity | exact Hnd | exact Hc |].
  rewrite (getElements_body s Hc). lia.
Qed.

Lemma closeContextMenu_every_other_witness :
  exists s', closeContextMenu two_menus = (Ok tt, s')
             /\ st_body s' = [1%nat] /\ st_isOpen s' = false.
Proof.
  eexists. split; [apply closeContextMenu_every_other|split; reflexivity].
  - refine (bool_decide_unpack _ _). vm_compute. exact I.
  - intros m [<-|[<-|[]]]; eexists; split; reflexivity.
Defined.

(** X14. A trigger whose target carries no menu (for instance a child of the
    element the listener is on) closes whatever menu is open and opens
    nothing: no container, no timer. *)
Theorem onContextMenu_without_menu e s :
  doc_inv s ->
  truthy (ctxMenu_of (ev_target e) s) = false ->
  onContextMenu e s = (Ok tt, closed_for e s)
  /\ st_body (closed_for e s) = []
  /\ isOpen (closed_for e s) = false
  /\ st_timers (closed_for e s) = st_timers s.
Proof.
  intros Hs Ht. rewrite (onContextMenu_unfold e s Hs), Ht.
  split_and!; reflexivity.
Qed.

Lemma onContextMenu_without_menu_witness :
  doc_inv sample_open
  /\ st_body sample_open = [0%nat]
  /\ exists s', onContextMenu (Event 99 5 5) sample_open = (Ok tt, s')
                /\ st_body s' = [] /\ isOpen s' = false.
Proof.
  assert (H : doc_inv sample_open) by (apply doc_inv_run, doc_inv_init).
  split; [exact H|]. split; [vm_compute; reflexivity|].
  destruct (onContextMenu_without_menu (Event 99 5 5) sample_open H)
    as (E & Hb & Ho & _); [vm_compute; reflexivity|].
  eexists. split; [exact E|]. split; [exact Hb | exact Ho].
Defined.

(** ** Rows and callbacks *)

Lemma lib_step_refl s : lib_step s s.
Proof.
  split; [reflexivity|]. exists []. rewrite app_nil_r.
  split; [reflexivity | constructor].
Qed.

Lemma lib_step_trans s1 s2 s3 :
  lib_step s1 s2 -> lib_step s2 s3 -> lib_step s1 s3.
Proof.
  intros (C1 & n1 & R1 & F1) (C2 & n2 & R2 & F2).
  split; [congruence|]. exists (n1 ++ n2).
  split; [rewrite R2, R1, app_assoc; reflexivity | apply Forall_app; auto].
Qed.

Lemma calm_modify (f : state -> state) :
  (forall s, lib_step s (f s)) -> calm (modify f).
Proof.
  intros Hf s0. apply preserves_modify. intros s H.
  eapply lib_step_trans; [exact H | apply Hf].
Qed.

(** An update that leaves the rows and the calls as they are. *)
Ltac same_rows :=
  let s := fresh "s" in
  intros s;
  unfold appendRow, assign_item, set_style, set_visibility, addEventListener,
    appendChild, setTimeout, addEventListeners, removeEventListeners,
    set_element_ctxMenu;
  repeat case_match;
  (split; [reflexivity|]; exists []; split; [|constructor]);
  cbn; rewrite app_nil_r; reflexivity.

Lemma calm_on_heap {A} (m : M heap A) : calm (on_heap m).
Proof.
  intros s0 s H. unfold on_heap. destruct (m (st_heap s)) as [r h]. exact H.
Qed.

Lemma calm_target_var : calm target_var.
Proof. intros s0 s H. unfold target_var. destruct (st_target s); exact H. Qed.

Lemma calm_closeContextMenu : calm closeContextMenu.
Proof. intros s0 s H. destruct (closeContextMenu_snd s) as [b ->]. exact H. Qed.

Lemma calm_new_row r : row_consistent r -> calm (new_row r).
Proof.
  intros Hr s0 s H. eapply lib_step_trans; [exact H|].
  split; [reflexivity|]. exists [r]. split; [reflexivity|].
  constructor; [exact Hr | constructor].
Qed.

Ltac calm_step :=
  lazymatch goal with
  | |- preserves _ (on_heap _) => apply calm_on_heap
  | |- preserves _ target_var => apply calm_target_var
  | |- preserves _ closeContextMenu => apply calm_closeContextMenu
  | |- preserves _ (new_frame _) => let s := fresh in let H := fresh in
                                   intros s H; exact H
  | |- preserves _ (new_container _) => let s := fresh in let H := fresh in
                                       intros s H; exact H
  | |- preserves _ (modify _) => apply calm_modify; same_rows
  | |- _ => pres_step
  end.

Lemma preserves_bind_ok {S A B} (P : S -> Prop) (m : M S A) (k : A -> M S B) :
  preserves P m ->
  (forall a s, fst (m s) = Ok a -> preserves P (k a)) ->
  preserves P (m ≫= k).
Proof.
  intros Hm Hk s H. specialize (Hm s H). specialize (fun a => Hk a s).
  unfold mbind, M_bind, bind. destruct (m s) as [[a| |] s']; cbn in *; auto.
  apply (Hk a eq_refl), Hm.
Qed.

Lemma calm_build_row target fr menu key : calm (build_row target fr menu key).
Proof.
  intros s0. unfold build_row.
  apply preserves_bind; [calm_step | intros cfg].
  apply preserves_bind; [calm_step | intros defn].
  apply preserves_bind; [calm_step | intros value].
  apply preserves_bind; [calm_step | intros en]. cbv zeta.
  apply preserves_bind; [repeat calm_step | intros html].
  apply preserves_bind_ok; [repeat calm_step | intros handler s1 Hh].
  apply preserves_bind; [calm_step | intros title].
  apply preserves_bind; [|intros r; repeat calm_step].
  apply calm_new_row. unfold row_consistent. cbn [row_ctxMenu ic_enabled].
  destruct (truthy en); cbn [row_className row_click ic_onSelect]; eauto.
  injection Hh as <-. auto.
Qed.

Lemma calm_createContextMenu target : calm (createContextMenu target).
Proof.
  intros s0. unfold createContextMenu.
  repeat lazymatch goal with
         | |- preserves _ (build_row _ _ _ _) => apply calm_build_row
         | |- _ => calm_step
         end.
Qed.

Lemma calm_onContextMenu e : calm (onContextMenu e).
Proof.
  intros s0. unfold onContextMenu.
  repeat lazymatch goal with
         | |- preserves _ (createContextMenu _) => apply calm_createContextMenu
         | |- _ => calm_step
         end.
Qed.

Lemma calm_exec c : calm (exec c).
Proof.
  intros s0. destruct c; cbn [exec].
  - repeat calm_step.
  - unfold attach. repeat calm_step.
  - unfold display. repeat calm_step.
    destruct e;
      repeat lazymatch goal with
             | |- preserves _ (onContextMenu _) => apply calm_onContextMenu
             | |- _ => calm_step
             end.
  - unfold disable, setEnabledState. repeat calm_step.
  - unfold enable, setEnabledState. repeat calm_step.
  - apply calm_closeContextMenu.
Qed.

Lemma calm_timer_callback t : calm (timer_callback t).
Proof.
  intros s0. unfold timer_callback, positionContextMenu, read_num.
  repeat lazymatch goal with
         | |- preserves _ (let '(x, y) := ?p in _) => destruct p
         | |- _ => calm_step
         end.
Qed.

Lemma calm_calls {A} (m : M state A) s :
  calm m -> st_calls (snd (m s)) = st_calls s.
Proof. intros H. apply (H s s (lib_step_refl s)). Qed.

Lemma calm_rows_ok {A} (m : M state A) : calm m -> preserves rows_ok m.
Proof.
  intros H s Hs. destruct (H s s (lib_step_refl s)) as (_ & new & E & Hn).
  unfold rows_ok. rewrite E. apply Forall_app. split; assumption.
Qed.

Section Callbacks.
Variable callback_body : nat -> list command.


Lemma rows_ok_call_function f target key item data :
  preserves rows_ok (call_function callback_body f target key item data).
Proof.
  unfold call_function. repeat pres_step; [intros s H; exact H|].
  destruct a; repeat pres_step. apply calm_rows_ok, calm_exec.
Qed.

Lemma rows_ok_row_listener r fr :
  preserves rows_ok (row_listener callback_body r fr).
Proof.
  unfold row_listener. repeat pres_step.
  - apply rows_ok_call_function.
  - apply calm_rows_ok, calm_closeContextMenu.
Qed.

Lemma rows_ok_step i s : rows_ok s -> rows_ok (step callback_body i s).
Proof.
  intros H. destruct i; cbn [step].
  - apply calm_rows_ok, H. apply calm_exec.
  - destruct (existsb _ _); [|exact H].
    apply calm_rows_ok, H. apply calm_onContextMenu.
  - unfold click_row.
    set (s1 := match st_rows s !! r with Some _ => _ | None => _ end).
    assert (H1 : rows_ok s1).
    { subst s1. destruct (st_rows s !! r) as [x|]; [|exact H].
      destruct (row_click x); [|exact H].
      apply rows_ok_row_listener, H. }
    destruct (_ && _); [|exact H1].
    apply calm_rows_ok, H1. apply calm_closeContextMenu.
  - destruct (existsb _ _); [|exact H].
    apply calm_rows_ok, H. apply calm_closeContextMenu.
  - destruct (st_timers s) as [|t ts]; [exact H|].
    apply (calm_rows_ok _ (calm_timer_callback t)). exact H.
  - exact H.
Qed.

Lemma reachable_rows_ok s : reachable callback_body s -> rows_ok s.
Proof.
  intros (l & ins & ->).
  assert (H : rows_ok (init_state l)) by constructor.
  revert H. generalize (init_state l).
  induction ins as [|i ins IH]; intros s H; cbn; [exact H|].
  apply IH, rows_ok_step, H.
Qed.

(** X16. A click on a disabled row calls no function and leaves every object
    as it is, whatever the program did before. *)
Theorem disabled_row_click_inert s r x :
  reachable callback_body s ->
  st_rows s !! r = Some x ->
  ic_enabled (row_ctxMenu x) = false ->
  st_calls (click_row callback_body r s) = st_calls s
  /\ st_heap (click_row callback_body r s) = st_heap s
  /\ st_ctxMenu (click_row callback_body r s) = st_ctxMenu s.
Proof.
  intros Hr Hx Hd. pose proof (reachable_rows_ok s Hr) as Hok.
  pose proof (proj1 (Forall_lookup _ _) Hok r x Hx) as Hc.
  unfold row_consistent in Hc. rewrite Hd in Hc. destruct Hc as (_ & Hc & _).
  unfold click_row. rewrite Hx, Hc.
  destruct (_ && _); [|auto].
  destruct (closeContextMenu_snd s) as [b ->]. auto.
Qed.

End Callbacks.


Lemma disabled_row_click_inert_witness :
  exists x,
    st_rows sample_disabled !! 1%nat = Some x
    /\ ic_enabled (row_ctxMenu x) = false
    /\ st_calls (click_row no_callbacks 1 sample_disabled) = st_calls sample_disabled
    /\ st_heap (click_row no_callbacks 1 sample_disabled) = st_heap sample_disabled
    /\ st_ctxMenu (click_row no_callbacks 1 sample_disabled)
       = st_ctxMenu sample_disabled.
Proof.
  assert (Hr : reachable no_callbacks sample_disabled)
    by (exists sample_layout, sample_disabling; reflexivity).
  eexists. split; [vm_compute; reflexivity|].
  split; [reflexivity|].
  eapply (disabled_row_click_inert no_callbacks sample_disabled 1 _ Hr);
    vm_compute; reflexivity.
Defined.

(** ** What the API writes to *)

Lemma preserves_bind_at {S A B} (P : S -> Prop) (m : M S A) (k : A -> M S B) :
  preserves P m ->
  (forall a s, P s -> fst (m s) = Ok a -> preserves P (k a)) ->
  preserves P (m ≫= k).
Proof.
  intros Hm Hk s H. specialize (Hm s H). specialize (fun a => Hk a s H).
  unfold mbind, M_bind, bind. destruct (m s) as [[a| |] s']; cbn in *; auto.
  apply (Hk a eq_refl), Hm.
Qed.

Section Kept.
Variables (m : value) (h0 : heap).

Lemma kept_set_prop v k x :
  writable m h0 v -> preserves (objects_kept m h0) (set_prop v k x).
Proof.
  intros W h [L K]. unfold set_prop.
  destruct v as [| | | | |a]; try (split; assumption).
  destruct (h !! a) as [o|] eqn:Ha; [|split; assumption]. cbn [snd].
  split; [rewrite length_insert; exact L|].
  intros y o' Hne H0. rewrite list_lookup_insert_ne; [apply K; assumption|].
  intros <-. destruct W as [W|W]; [congruence|].
  specialize (W a eq_refl). apply lookup_lt_Some in H0. lia.
Qed.

Lemma kept_alloc o : preserves (objects_kept m h0) (alloc o).
Proof.
  intros h [L K]. unfold alloc. cbn [snd]. split.
  - rewrite length_app. lia.
  - intros x o' Hne H0. apply lookup_app_l_Some, K; assumption.
Qed.

Lemma writable_alloc o h v :
  objects_kept m h0 h -> fst (alloc o h) = Ok v -> writable m h0 v.
Proof. intros [L _] [= <-]. right. intros a [= <-]. exact L. Qed.

Lemma kept_extend_source obj source :
  writable m h0 obj -> preserves (objects_kept m h0) (extend_source obj source).
Proof.
  intros W. unfold extend_source. repeat pres_step. apply kept_set_prop, W.
Qed.

Lemma kept_extend obj sources :
  writable m h0 obj -> preserves (objects_kept m h0) (extend obj sources).
Proof.
  intros W. unfold extend.
  destruct sources as [|src l]; [apply preserves_ret|].
  destruct obj; repeat pres_step; apply kept_extend_source, W.
Qed.

Lemma extend_returns obj sources h v :
  fst (extend obj sources h) = Ok v -> v = obj.
Proof.
  unfold extend. destruct sources as [|src l]; [intros [= <-]; reflexivity|].
  destruct obj; try (intros [= <-]; reflexivity);
    unfold mbind, M_bind, bind;
    destruct (forEach _ _ h) as [[[]| |] h']; cbn; congruence.
Qed.

Lemma kept_normalize_entry menu dflts idx :
  writable m h0 menu -> preserves (objects_kept m h0) (normalize_entry menu dflts idx).
Proof.
  intros W. unfold normalize_entry.
  apply preserves_bind_at; [apply kept_alloc | intros empty h1 K1 E1].
  pose proof (writable_alloc _ _ _ K1 E1) as We.
  apply preserves_bind_at; [apply kept_extend, We | intros dflt h2 K2 E2].
  apply extend_returns in E2. subst dflt.
  repeat lazymatch goal with
         | |- preserves _ (alloc _) => apply kept_alloc
         | |- preserves _ (extend _ _) => apply kept_extend, We
         | |- preserves _ (set_prop _ _ _) => apply kept_set_prop, W
         | |- _ => pres_step
         end.
Qed.

Lemma kept_normalizeMenu menu :
  writable m h0 menu -> preserves (objects_kept m h0) (normalizeMenu menu).
Proof.
  intros W. unfold normalizeMenu.
  repeat lazymatch goal with
         | |- preserves _ (alloc _) => apply kept_alloc
         | |- preserves _ (normalize_entry _ _ _) => apply kept_normalize_entry, W
         | |- _ => pres_step
         end.
Qed.

Lemma normalizeMenu_returns menu h v :
  fst (normalizeMenu menu h) = Ok v -> v = menu.
Proof.
  unfold normalizeMenu, mbind, M_bind, bind, alloc, read. cbn [fst snd].
  destruct (own_props menu _) as [ps| |]; cbn [fst snd]; try discriminate.
  destruct (forEach _ _ _) as [[[]| |] h']; cbn; congruence.
Qed.

Lemma kept_make_config menu options :
  preserves (objects_kept m h0) (make_config menu options).
Proof.
  unfold make_config.
  apply preserves_bind_at; [apply kept_alloc | intros empty h1 K1 E1].
  pose proof (writable_alloc _ _ _ K1 E1) as We.
  apply preserves_bind; [apply kept_extend, We | intros copy].
  apply preserves_bind_at; [apply kept_alloc | intros literal h2 K2 E2].
  apply kept_extend. eapply writable_alloc; eauto.
Qed.

Lemma kept_normalize_copy menu :
  preserves (objects_kept m h0)
            (empty ← alloc (Object [] None);
             copy ← extend empty [menu];
             normalizeMenu copy).
Proof.
  apply preserves_bind_at; [apply kept_alloc | intros empty h1 K1 E1].
  pose proof (writable_alloc _ _ _ K1 E1) as We.
  apply preserves_bind_at; [apply kept_extend, We | intros copy h2 K2 E2].
  apply extend_returns in E2. subst copy.
  apply kept_normalizeMenu, We.
Qed.

End Kept.

(** An update that leaves the part of the state in question as it is. *)
Ltac same_field :=
  let s := fresh "s" in
  let H := fresh "H" in
  intros s H;
  unfold appendRow, assign_item, set_style, set_visibility, addEventListener,
    appendChild, setTimeout, addEventListeners, removeEventListeners,
    set_element_ctxMenu;
  repeat case_match; exact H.

Ltac field_step :=
  lazymatch goal with
  | |- preserves _ target_var =>
      let s := fresh in let H := fresh in
      intros s H; unfold target_var; destruct (st_target s); exact H
  | |- preserves _ closeContextMenu =>
      let s := fresh in let H := fresh in let b := fresh in
      intros s H; destruct (closeContextMenu_snd s) as [b ->]; exact H
  | |- preserves _ (new_frame _) => let s := fresh in let H := fresh in
                                   intros s H; exact H
  | |- preserves _ (new_container _) => let s := fresh in let H := fresh in
                                       intros s H; exact H
  | |- preserves _ (new_row _) => let s := fresh in let H := fresh in
                                 intros s H; exact H
  | |- preserves _ (modify _) => apply preserves_modify; same_field
  | |- _ => pres_step
  end.

Section HeapOnly.
Variable Q : heap -> Prop.

Lemma heap_on_heap {A} (mh : M heap A) :
  preserves Q mh -> preserves (fun s => Q (st_heap s)) (on_heap mh).
Proof.
  intros H s Hs. specialize (H (st_heap s) Hs). unfold on_heap.
  destruct (mh (st_heap s)) as [r h]. exact H.
Qed.

Lemma heap_onContextMenu e :
  preserves (fun s => Q (st_heap s)) (onContextMenu e).
Proof.
  unfold onContextMenu, createContextMenu, build_row. repeat field_step.
Qed.

Lemma heap_attach_loop obj (elements : list elem) :
  preserves (fun s => Q (st_heap s))
    (forEach (fun el =>
                modify (set_element_ctxMenu el obj) ;;
                type ← read_heap (get_prop obj "event");
                modify (addEventListener el type))
             elements).
Proof. repeat field_step. Qed.

Lemma heap_set_element el v s :
  Q (st_heap s) -> Q (st_heap (set_element_ctxMenu el v s)).
Proof. intros H. exact H. Qed.

End HeapOnly.

(** X19. [display] writes to no object that existed before the call: the menu
    it normalizes is a copy, so the caller's menu, its option records and
    its callbacks are afterwards as they were, whether or not the call
    completes. *)
Theorem display_keeps_objects e menu options s :
  extends (st_heap s) (st_heap (snd (display e menu options s))).
Proof.
  assert (H : preserves (fun s' => objects_kept VUndef (st_heap s) (st_heap s'))
                        (display e menu options)).
  { unfold display.
    apply preserves_bind; [apply heap_on_heap, kept_normalize_copy | intros copy].
    apply preserves_bind; [apply heap_on_heap, kept_make_config | intros cfg].
    destruct e.
    - apply preserves_bind; [|intros _; apply heap_onContextMenu].
      apply preserves_modify. intros s' H. exact H.
    - apply preserves_bind; [apply preserves_modify; intros s' H; exact H|].
      intros _. apply preserves_bind; [apply preserves_read|].
      intros box. apply heap_onContextMenu.
    - apply preserves_ret. }
  intros x o Hx. refine (proj2 (H s _) x o _ Hx); [|discriminate].
  split; [lia | auto].
Qed.

(** X20. Of the objects that exist when [attach] is called, the menu is the only
    one it writes to. *)
Theorem attach_writes_only_menu sel menu options s :
  objects_kept menu (st_heap s) (st_heap (snd (attach sel menu options s))).
Proof.
  assert (H : preserves (fun s' => objects_kept menu (st_heap s) (st_heap s'))
                        (attach sel menu options)).
  { unfold attach.
    apply preserves_bind.
    { apply heap_on_heap, kept_normalizeMenu. left. reflexivity. }
    intros menu'.
    apply preserves_bind; [apply heap_on_heap, kept_make_config | intros cfg].
    apply preserves_bind; [apply preserves_read | intros elements].
    apply heap_attach_loop. }
  apply H. split; [lia | auto].
Qed.

(** ** A click on an enabled row *)

Section RowClick.
Variable callback_body : nat -> list command.

Lemma call_function_Ok f target key item data s s1 :
  call_function callback_body f target key item data s = (Ok tt, s1) ->
  is_callable (st_heap s) f
  /\ st_calls s1 = st_calls s ++ [Call f target key item data].
Proof.
  unfold call_function. intros H.
  apply bind_Ok in H. destruct H as (fn & s0 & Hfn & H).
  unfold read_heap, read in Hfn. injection Hfn as Hfn <-.
  apply bind_Ok in H. destruct H as ([] & s2 & Hm & H).
  unfold modify in Hm. injection Hm as <-.
  split.
  - destruct f as [| | | | |a]; try discriminate.
    destruct (st_heap s !! a) as [o|] eqn:Ha; [|discriminate].
    destruct (callable o) as [fn'|] eqn:Hc; [|discriminate].
    exists a, o, fn'. auto.
  - destruct fn as [id|]; [|injection H as <-; reflexivity].
    assert (C : calm (forEach exec (callback_body id))).
    { intros s0. apply preserves_forEach. intros c. apply calm_exec. }
    pose proof (calm_calls _ (set_calls (st_calls s ++ [Call f target key item data]) s) C)
      as E.
    rewrite H in E. exact E.
Qed.

(** X17. A click on a row with a listener, in any state the program can reach:
    when the listener returns normally, the row's [onSelect] is a function
    and was called exactly once, with the element the menu was opened on,
    the row's key, the item variable of the menu's scope and the [data] of
    the element's configuration; nothing else was called, and the menu is
    closed. *)
Theorem row_click_calls_once s r x fr scope :
  reachable callback_body s ->
  st_rows s !! r = Some x ->
  row_click x = Some fr ->
  st_frames s !! fr = Some scope ->
  fst (row_listener callback_body r fr s) = Ok tt ->
  let s' := click_row callback_body r s in
  exists data,
    get_prop (ctxMenu_of (fr_target scope) s) "data" (st_heap s) = Ok data
    /\ is_callable (st_heap s) (ic_onSelect (row_ctxMenu x))
    /\ st_calls s'
       = st_calls s ++ [Call (ic_onSelect (row_ctxMenu x)) (fr_target scope)
                             (ic_key (row_ctxMenu x)) (fr_item scope) data]
    /\ st_isOpen s' = false
    /\ st_body s' = [].
Proof.
  intros Hr Hx Hc Hf Hok s'.
  pose proof (reachable_doc_inv _ _ Hr) as Hinv.
  subst s'. unfold click_row. rewrite Hx, Hc.
  pose proof (preserves_inv_row_listener callback_body r fr s Hinv) as Hinv1.
  destruct (row_listener callback_body r fr s) as [out s1] eqn:E.
  cbn [fst snd] in *. subst out.
  unfold row_listener in E.
  apply bind_Ok in E. destruct E as (this & ? & Hthis & E).
  unfold read in Hthis. rewrite Hx in Hthis. injection Hthis as <- <-.
  apply bind_Ok in E. destruct E as (scope' & ? & Hscope & E).
  unfold read in Hscope. rewrite Hf in Hscope. injection Hscope as <- <-.
  apply bind_Ok in E. destruct E as (cfg & ? & Hcfg & E).
  unfold read in Hcfg. injection Hcfg as <- <-.
  apply bind_Ok in E. destruct E as (data & ? & Hdata & E).
  unfold read_heap, read in Hdata. injection Hdata as Hdata <-.
  apply bind_Ok in E. destruct E as ([] & s2 & Hcall & E).
  apply call_function_Ok in Hcall. destruct Hcall as [Hfun Hcalls].
  destruct (closeContextMenu_snd s2) as [b Hb].
  rewrite E in Hb. cbn [snd] in Hb.
  exists data. split; [exact Hdata|]. split; [exact Hfun|].
  assert (C1 : st_calls s1 = st_calls s2) by (rewrite Hb; reflexivity).
  assert (O1 : st_isOpen s1 = false) by (rewrite Hb; reflexivity).
  assert (B1 : st_body s1 = []).
  { destruct Hinv1 as [_ _ Ho]. rewrite O1 in Ho.
    destruct (st_body s1); [reflexivity | discriminate]. }
  destruct (_ && _).
  - rewrite (closeContextMenu_inv s1 Hinv1).
    cbn [snd st_calls st_isOpen st_body set_isOpen set_body
         removeEventListeners set_window].
    rewrite C1, Hcalls. auto.
  - rewrite C1, Hcalls. auto.
Qed.

End RowClick.

Lemma row_click_calls_once_witness :
  reachable no_callbacks sample_open
  /\ st_calls (click_row no_callbacks 0 sample_open)
     = st_calls sample_open ++ [Call (VObj 3) 10 "A" (Some 1%nat) (VObj 0)]
  /\ st_isOpen (click_row no_callbacks 0 sample_open) = false.
Proof.
  assert (Hr : reachable no_callbacks sample_open)
    by (exists sample_layout, sample_opening; reflexivity).
  split; [exact Hr|].
  destruct (row_click_calls_once no_callbacks sample_open 0
              (Row itemClassName (VStr "A") None (ItemCtx "A" true (VObj 3))
                   (Some 0%nat))
              0 (Frame 10 (Some 1%nat)) Hr)
    as (data & Hd & _ & Hc & Ho & _);
    [vm_compute; reflexivity .. |].
  split; [|exact Ho].
  rewrite Hc. f_equal. f_equal. f_equal.
  assert (E : Ok data = Ok (VObj 0)) by (rewrite <- Hd; vm_compute; reflexivity).
  injection E as ->. reflexivity.
Defined.

(** ** The rows of a menu *)

Lemma read_only_state {S A} (m : M S A) s :
  preserves (eq s) m -> snd (m s) = s.
Proof. intros H. symmetry. apply H. reflexivity. Qed.

Ltac only_reads H :=
  match type of H with
  | ?m ?s = (_, ?s1) =>
      let P := fresh in
      assert (P : preserves (eq s) m) by (repeat pres_step);
      apply read_only_state in P; rewrite H in P; cbn [snd] in P;
      subst s1; clear H
  end.

Lemma build_row_inv target fr menu key s s' :
  build_row target fr menu key s = (Ok tt, s') ->
  exists row,
    s' = appendRow menu (length (st_rows s))
           (assign_item fr (length (st_rows s))
              (set_rows (st_rows s ++ [row]) s))
    /\ ic_key (row_ctxMenu row) = key
    /\ (row_click row = None \/ row_click row = Some fr).
Proof.
  unfold build_row, read_heap. intros E.
  apply bind_Ok in E. destruct E as (cfg & ? & H & E). injection H as _ <-.
  apply bind_Ok in E. destruct E as (defn & ? & H & E). injection H as _ <-.
  apply bind_Ok in E. destruct E as (value & ? & H & E). injection H as _ <-.
  apply bind_Ok in E. destruct E as (en & ? & H & E). injection H as _ <-.
  cbv zeta in E.
  apply bind_Ok in E. destruct E as (html & s1 & H & E).
  only_reads H.
  apply bind_Ok in E. destruct E as (handler & s1 & H & E).
  only_reads H.
  apply bind_Ok in E. destruct E as (title & ? & H & E). injection H as _ <-.
  apply bind_Ok in E. destruct E as (r & s1 & H & E).
  unfold new_row in H. injection H as <- <-.
  apply bind_Ok in E. destruct E as ([] & s1 & H & E).
  unfold modify in H. injection H as <-.
  unfold modify in E. injection E as <-.
  eexists. split; [reflexivity|]. split; [reflexivity|].
  cbn [row_click]. destruct (truthy en); auto.
Qed.

Lemma build_rows_inv target fr menu keys :
  forall s s' c f,
    forEach (build_row target fr menu) keys s = (Ok tt, s') ->
    st_menus s !! menu = Some c ->
    st_frames s !! fr = Some f ->
    exists new c',
      st_rows s' = st_rows s ++ new
      /\ map (fun r => ic_key (row_ctxMenu r)) new = keys
      /\ Forall (fun r => row_click r = None \/ row_click r = Some fr) new
      /\ st_menus s' !! menu = Some c'
      /\ menu_children c'
         = menu_children c ++ seq (length (st_rows s)) (length keys)
      /\ menu_className c' = menu_className c
      /\ menu_visibility c' = menu_visibility c
      /\ st_frames s' !! fr
         = Some (Frame (fr_target f)
                       (match keys with
                        | [] => fr_item f
                        | _ => Some (length (st_rows s) + length keys - 1)%nat
                        end)).
Proof.
  induction keys as [|k keys IH]; intros s s' c f E Hc Hf.
  - injection E as <-. exists [], c. rewrite !app_nil_r.
    split_and!;
      first [reflexivity | assumption | apply Forall_nil_2
             | destruct f; exact Hf].
  - cbn [forEach] in E. apply bind_Ok in E. destruct E as ([] & s1 & E1 & E).
    apply build_row_inv in E1. destruct E1 as (row & -> & Hk & Hclick).
    set (n := length (st_rows s)) in *.
    set (s1 := appendRow menu n (assign_item fr n (set_rows (st_rows s ++ [row]) s)))
      in *.
    assert (R1 : st_rows s1 = st_rows s ++ [row]).
    { unfold s1, appendRow, assign_item. cbn [st_frames set_rows].
      rewrite Hf. cbn [st_menus set_frames set_rows]. rewrite Hc. reflexivity. }
    assert (M1 : st_menus s1 !! menu
                 = Some (Container (menu_className c) (menu_visibility c)
                                   (menu_display c) (menu_children c ++ [n])
                                   (menu_left c) (menu_top c))).
    { unfold s1, appendRow, assign_item. cbn [st_frames set_rows].
      rewrite Hf. cbn [st_menus set_frames set_rows]. rewrite Hc.
      cbn [st_menus set_menus]. apply list_lookup_insert_eq.
      eapply lookup_lt_Some; eauto. }
    assert (F1 : st_frames s1 !! fr = Some (Frame (fr_target f) (Some n))).
    { unfold s1, appendRow, assign_item. cbn [st_frames set_rows].
      rewrite Hf. cbn [st_menus set_frames set_rows]. rewrite Hc.
      cbn [st_frames set_menus set_frames]. apply list_lookup_insert_eq.
      eapply lookup_lt_Some; eauto. }
    destruct (IH s1 s' _ _ E M1 F1)
      as (new & c' & Hr & Hkeys & Hcl & Hm & Hch & Hcn & Hv & Hfr).
    exists (row :: new), c'.
    rewrite R1 in Hr, Hch, Hfr. rewrite length_app in Hch, Hfr.
    cbn [length menu_children menu_className menu_visibility fr_target] in *.
    split; [rewrite Hr, <- app_assoc; reflexivity|].
    split; [cbn [map]; rewrite Hk, Hkeys; reflexivity|].
    split; [constructor; assumption|].
    split; [exact Hm|].
    split.
    { rewrite Hch, <- app_assoc. cbn [seq app]. fold n.
      replace (n + 1)%nat with (Datatypes.S n) by lia. reflexivity. }
    split; [exact Hcn|]. split; [exact Hv|].
    rewrite Hfr. f_equal. f_equal. fold n.
    destruct keys as [|k' keys']; cbn [length fr_item]; f_equal; lia.
Qed.

(** X18. A menu that [createContextMenu] has built: it is a new, still hidden
    container with one new row for each key of the element's menu, in the
    order of the keys; every click listener among the rows belongs to the
    one scope of this call, and the [item] variable of that scope is left
    at the last row. *)
Theorem createContextMenu_rows target s menu :
  fst (createContextMenu target s) = Ok menu ->
  let s' := snd (createContextMenu target s) in
  exists defn ps new c,
    get_prop (ctxMenu_of target s) "menu" (st_heap s) = Ok defn
    /\ own_props defn (st_heap s) = Ok ps
    /\ menu = length (st_menus s)
    /\ st_rows s' = st_rows s ++ new
    /\ map (fun r => ic_key (row_ctxMenu r)) new = map fst ps
    /\ Forall (fun r => row_click r = None
                        \/ row_click r = Some (length (st_frames s))) new
    /\ st_menus s' !! menu = Some c
    /\ menu_children c = seq (length (st_rows s)) (length ps)
    /\ menu_visibility c = "hidden"
    /\ st_frames s' !! length (st_frames s)
       = Some (Frame target
                     (match ps with
                      | [] => None
                      | _ => Some (length (st_rows s) + length ps - 1)%nat
                      end)).
Proof.
  intros Hok s'. subst s'.
  destruct (createContextMenu target s) as [out s'] eqn:E.
  cbn [fst snd] in *. subst out.
  unfold createContextMenu, read_heap in E.
  apply bind_Ok in E. destruct E as (fr & s1 & H & E).
  unfold new_frame in H. injection H as <- <-.
  apply bind_Ok in E. destruct E as (mn & s1 & H & E).
  unfold new_container in H. injection H as <- <-.
  cbn [st_menus set_frames] in E.
  apply bind_Ok in E. destruct E as (cfg & ? & H & E). injection H as <- <-.
  apply bind_Ok in E. destruct E as (defn & ? & Hdefn & E).
  injection Hdefn as Hdefn <-.
  apply bind_Ok in E. destruct E as (ps & ? & Hps & E).
  injection Hps as Hps <-.
  apply bind_Ok in E. destruct E as ([] & s2 & Hloop & E).
  injection E as <- <-.
  destruct (build_rows_inv _ _ _ _ _ _
              (Container menuClassName "hidden" "inline-block" [] None None)
              (Frame target None) Hloop)
    as (new & c & Hr & Hkeys & Hcl & Hm & Hch & _ & Hv & Hfr).
  { cbn [st_menus set_menus]. rewrite lookup_app_r by lia.
    rewrite Nat.sub_diag. reflexivity. }
  { cbn [st_frames set_menus set_frames]. rewrite lookup_app_r by lia.
    rewrite Nat.sub_diag. reflexivity. }
  exists defn, ps, new, c.
  rewrite length_map in Hch, Hfr. cbn in Hch, Hfr, Hr, Hv.
  split; [exact Hdefn|]. split; [exact Hps|]. split; [reflexivity|].
  split; [exact Hr|]. split; [exact Hkeys|]. split; [exact Hcl|].
  split; [exact Hm|]. split; [exact Hch|]. split; [exact Hv|].
  rewrite Hfr. destruct ps; reflexivity.
Qed.

Lemma createContextMenu_rows_witness :
  fst (createContextMenu 10 sample_attached) = Ok 0%nat
  /\ exists new,
      st_rows (snd (createContextMenu 10 sample_attached)) = new
      /\ map (fun r => ic_key (row_ctxMenu r)) new = ["A"; "B"]
      /\ st_frames (snd (createContextMenu 10 sample_attached)) !! 0%nat
         = Some (Frame 10 (Some 1%nat)).
Proof.
  assert (H : fst (createContextMenu 10 sample_attached) = Ok 0%nat)
    by (vm_compute; reflexivity).
  split; [exact H|].
  destruct (createContextMenu_rows 10 sample_attached 0 H)
    as (defn & ps & new & c & Hd & Hp & _ & Hr & Hk & _ & _ & _ & _ & Hf).
  vm_compute in Hd. injection Hd as <-.
  vm_compute in Hp. injection Hp as <-.
  exists new. split; [exact Hr|]. split; [exact Hk | exact Hf].
Defined.

(** ** What attach registers *)

Lemma addEventListener_elem el type s :
  (el, type) ∈ st_listeners (addEventListener el type s).
Proof.
  unfold addEventListener.
  destruct (existsb _ _) eqn:E.
  - apply existsb_exists in E. destruct E as ([el' t] & Hin & E).
    apply andb_prop in E. destruct E as [E1 E2].
    apply Nat.eqb_eq in E1. apply bool_decide_eq_true in E2. subst.
    apply list_elem_of_In. exact Hin.
  - cbn [st_listeners set_listeners]. apply elem_of_app. right. left.
Qed.

Lemma addEventListener_mono el type x s :
  x ∈ st_listeners s -> x ∈ st_listeners (addEventListener el type s).
Proof.
  unfold addEventListener. destruct (existsb _ _); [auto|].
  intros H. cbn [st_listeners set_listeners]. apply elem_of_app. left. exact H.
Qed.

Lemma attach_loop_listeners obj elements :
  forall s s',
    forEach (fun el =>
               modify (set_element_ctxMenu el obj) ;;
               type ← read_heap (get_prop obj "event");
               modify (addEventListener el type)) elements s = (Ok tt, s') ->
    st_heap s' = st_heap s
    /\ (forall x, x ∈ st_listeners s -> x ∈ st_listeners s')
    /\ forall el, el ∈ elements ->
         exists type, get_prop obj "event" (st_heap s) = Ok type
                      /\ (el, type) ∈ st_listeners s'.
Proof.
  induction elements as [|x l IH]; intros s s' H.
  - injection H as <-. split; [reflexivity|]. split; [auto|].
    intros el Hel. apply elem_of_nil in Hel. contradiction.
  - cbn [forEach] in H. apply bind_Ok in H. destruct H as ([] & s3 & Hbody & H).
    apply bind_Ok in Hbody. destruct Hbody as ([] & s1 & Hset & Hbody).
    apply bind_Ok in Hbody. destruct Hbody as (type & s2 & Hread & Hadd).
    injection Hset as <-. injection Hadd as <-.
    unfold read_heap, read in Hread. injection Hread as Hread <-.
    change (st_heap (set_element_ctxMenu x obj s)) with (st_heap s) in Hread.
    destruct (IH _ _ H) as (Hh & Hmono & Hin).
    assert (Hh3 : st_heap (addEventListener x type (set_element_ctxMenu x obj s))
                  = st_heap s).
    { unfold addEventListener. destruct (existsb _ _); reflexivity. }
    split; [rewrite Hh; exact Hh3|].
    split.
    + intros y Hy. apply Hmono, addEventListener_mono. exact Hy.
    + intros el Hel. apply elem_of_cons in Hel. destruct Hel as [->|Hel].
      * exists type. split; [exact Hread|].
        apply Hmono, addEventListener_elem.
      * destruct (Hin el Hel) as (t & Ht & Hl). exists t.
        rewrite Hh3 in Ht. split; [exact Ht | exact Hl].
Qed.

(** X22. After an [attach] call that completed, every element the selector
    resolved to carries the new configuration and has the trigger listener
    registered for the event type that configuration names, so that such
    an event on the element is handled by [onContextMenu]. *)
Theorem attach_registers callback_body sel menu options s s' el e :
  attach sel menu options s = (Ok tt, s') ->
  el ∈ getElements sel s ->
  exists type,
    get_prop (ctxMenu_of el s') "event" (st_heap s') = Ok type
    /\ (el, type) ∈ st_listeners s'
    /\ step callback_body (Trigger el type e) s' = snd (onContextMenu e s').
Proof.
  intros H Hel. unfold attach in H.
  apply bind_Ok in H. destruct H as (menu' & s1 & Hnorm & H).
  apply bind_Ok in H. destruct H as (obj & s2 & Hconf & H).
  apply bind_Ok in H. destruct H as (elements & s3 & Hget & H).
  injection Hget as <- <-.
  assert (Hs : getElements sel s2 = getElements sel s).
  { apply on_heap_layout in Hnorm, Hconf.
    unfold getElements. rewrite Hconf, Hnorm. reflexivity. }
  rewrite Hs in H.
  destruct (attach_loop_same _ _ _ _ H) as (Hsame & _).
  destruct (attach_loop_listeners _ _ _ _ H) as (Hh & _ & Hreg).
  destruct (Hreg el Hel) as (type & Ht & Hl).
  exists type. rewrite (Hsame el Hel), Hh.
  split; [exact Ht|]. split; [exact Hl|].
  cbn [step].
  replace (existsb _ (st_listeners s')) with true; [reflexivity|].
  symmetry. apply existsb_exists. exists (el, type).
  split; [apply list_elem_of_In; exact Hl|].
  rewrite Nat.eqb_refl. apply bool_decide_eq_true. reflexivity.
Qed.

Lemma attach_registers_witness :
  exists s',
    attach (SelList [10%nat; 11%nat]) (VObj 4) VUndef sample_client = (Ok tt, s')
    /\ (11%nat, VStr "click") ∈ st_listeners s'
    /\ step no_callbacks (Trigger 11 (VStr "click") (Event 11 5 5)) s'
       = snd (onContextMenu (Event 11 5 5) s').
Proof.
  assert (H : attach (SelList [10%nat; 11%nat]) (VObj 4) VUndef sample_client
              = (Ok tt, snd (attach (SelList [10%nat; 11%nat]) (VObj 4) VUndef
                                    sample_client)))
    by (vm_compute; reflexivity).
  eexists. split; [exact H|].
  destruct (attach_registers no_callbacks _ _ _ _ _ 11%nat (Event 11 5 5) H)
    as (type & Ht & Hl & Hs).
  { cbn [getElements]. apply elem_of_cons. right. left. }
  vm_compute in Ht. injection Ht as <-.
  split; [exact Hl | exact Hs].
Defined.

Lemma attach_same_object_witness :
  ctxMenu_of 10 sample_attached = ctxMenu_of 11 sample_attached.
Proof.
  assert (H : attach (SelList [10%nat; 11%nat]) (VObj 4) VUndef sample_client
              = (Ok tt, sample_attached))
    by (vm_compute; reflexivity).
  apply (attach_same_object _ _ _ _ _ 10%nat 11%nat H);
    cbn [getElements]; [left | right; left].
Defined.

(** ** Opening and dismissing *)

Section Dismissal.
Variable callback_body : nat -> list command.

(** X23. In every state the program can reach, [isOpen()] answers whether a menu
    container is in the document. *)
Theorem isOpen_reflects_document s :
  reachable callback_body s ->
  isOpen s = match st_body s with [] => false | _ => true end.
Proof. intros Hr. apply (inv_open s (reachable_doc_inv _ _ Hr)). Qed.

Lemma window_createContextMenu (Q : list string -> Prop) target :
  preserves (fun s => Q (st_window s)) (createContextMenu target).
Proof. unfold createContextMenu, build_row. repeat field_step. Qed.

(** X24. When a trigger event has been handled, none of the dismissal listeners
    is registered on [window], whatever was registered before: until the
    deferred callback runs, a click, a resize or a scroll that reaches
    [window] leaves the state as it is. *)
Theorem onContextMenu_defers_dismissal e s type :
  type ∈ dismissal_events ->
  (type ∉ st_window (snd (onContextMenu e s)))
  /\ step callback_body (WindowEvent type) (snd (onContextMenu e s))
     = snd (onContextMenu e s).
Proof.
  intros Hin.
  assert (H : type ∉ st_window (snd (onContextMenu e s))).
  { unfold onContextMenu.
    unfold mbind at 1, M_bind at 1, bind at 1. unfold modify at 1.
    unfold mbind at 1, M_bind at 1, bind at 1.
    destruct (closeContextMenu_total (set_target (Some (ev_target e)) s))
      as [b ->].
    match goal with
    | |- _ ∉ st_window (snd (?m ?s1)) =>
        let P := fresh in
        assert (P : preserves (fun s' => type ∉ st_window s') m); [|apply P]
    end.
    - repeat lazymatch goal with
             | |- preserves _ (createContextMenu _) =>
                 apply (window_createContextMenu (fun w => type ∉ w))
             | |- _ => field_step
             end.
    - apply (removeEventListeners_unregisters _ type Hin). }
  split; [exact H|]. cbn [step].
  destruct (existsb _ _) eqn:E; [|reflexivity].
  apply existsb_eqb_elem in E. contradiction.
Qed.

Lemma timer_callback_window t s x :
  x ∈ st_window (addEventListeners s) ->
  x ∈ st_window (snd (timer_callback t s)).
Proof.
  intros Hx. unfold timer_callback.
  unfold mbind at 1, M_bind at 1, bind at 1. unfold modify at 1.
  match goal with
  | |- _ ∈ st_window (snd (?m ?s1)) =>
      let P := fresh in
      assert (P : preserves (fun s' => x ∈ st_window s') m);
      [|apply P; exact Hx]
  end.
  unfold positionContextMenu, read_num.
  repeat lazymatch goal with
         | |- preserves _ (let '(x, y) := ?p in _) => destruct p
         | |- _ => field_step
         end.
Qed.

(** X25. Once the deferred callback of an open menu has run, a click, a resize
    or a scroll that reaches [window] closes the menu: the document holds
    no container, [isOpen()] is false and the dismissal listeners are
    gone again. *)
Theorem dismissal_after_timer s t ts type :
  reachable callback_body s ->
  st_timers s = t :: ts ->
  type ∈ dismissal_events ->
  let s' := step callback_body (WindowEvent type) (step callback_body Tick s) in
  isOpen s' = false
  /\ st_body s' = []
  /\ Forall (fun type' => type' ∉ st_window s') dismissal_events.
Proof.
  intros Hr Ht Hin s'. subst s'.
  assert (Hinv : doc_inv (step callback_body Tick s))
    by (apply doc_inv_step, reachable_doc_inv with callback_body, Hr).
  assert (Hw : type ∈ st_window (step callback_body Tick s)).
  { cbn [step]. rewrite Ht. apply timer_callback_window.
    pose proof (proj1 (Forall_forall _ _)
                  (addEventListeners_registers (set_timers ts s)) type Hin).
    assumption. }
  cbn [step] in *.
  replace (existsb (String.eqb type) _) with true
    by (symmetry; apply existsb_eqb_elem; exact Hw).
  rewrite (closeContextMenu_inv _ Hinv).
  split; [reflexivity|]. split; [reflexivity|].
  apply Forall_forall. intros type' Hin'.
  apply (removeEventListeners_unregisters _ type' Hin').
Qed.

End Dismissal.

Lemma isOpen_reflects_document_witness :
  isOpen sample_open = true /\ st_body sample_open = [0%nat]
  /\ isOpen sample_attached = false /\ st_body sample_attached = [].
Proof.
  assert (Ho : reachable no_callbacks sample_open)
    by (exists sample_layout, sample_opening; reflexivity).
  assert (Ha : reachable no_callbacks sample_attached)
    by (exists sample_layout, sample_setup; reflexivity).
  assert (Bo : st_body sample_open = [0%nat]) by (vm_compute; reflexivity).
  assert (Ba : st_body sample_attached = []) by (vm_compute; reflexivity).
  rewrite (isOpen_reflects_document no_callbacks sample_open Ho), Bo.
  rewrite (isOpen_reflects_document no_callbacks sample_attached Ha), Ba.
  split_and!; reflexivity.
Defined.

Lemma onContextMenu_defers_dismissal_witness :
  ("click" ∉ st_window (snd (onContextMenu (Event 11 7 7) sample_open)))
  /\ ("click" ∈ st_window sample_open).
Proof.
  split.
  - apply (onContextMenu_defers_dismissal no_callbacks (Event 11 7 7)
             sample_open "click").
    left.
  - vm_compute. left.
Defined.

Lemma dismissal_after_timer_witness :
  isOpen (step no_callbacks Tick sample_triggered) = true
  /\ isOpen (step no_callbacks (WindowEvent "scroll")
                  (step no_callbacks Tick sample_triggered)) = false
  /\ st_body (step no_callbacks (WindowEvent "scroll")
                   (step no_callbacks Tick sample_triggered)) = [].
Proof.
  assert (Hr : reachable no_callbacks sample_triggered)
    by (exists sample_layout, sample_triggering; reflexivity).
  split; [vm_compute; reflexivity|].
  destruct (dismissal_after_timer no_callbacks sample_triggered
              (Timer (Event 10 5 5) 0) [] "scroll" Hr)
    as (Ho & Hb & _).
  - vm_compute. reflexivity.
  - right. right. left.
  - split; [exact Ho | exact Hb].
Defined.
